(** * Jenkins generator: the artifact generators and their specification

    A shallow embedding of the text generators of the repository
    (cloud-provider.service.ts, iac.service.ts, docker-compose.service.ts,
    notification.service.ts, over interfaces/config.interface.ts) and the
    properties the specification states about them; then the validation
    service (validation.service.ts) and the parts of prompt.service.ts and
    cicd-generator.service.ts that compute without asking or writing, with
    further properties read off the code.

    Conventions of the embedding.
    - A JavaScript string is a [string].  Every template literal of the
      source is written as [template], the list of its text lines joined
      by the line-feed character, with each interpolation spliced in where
      the source has it.  A double quote is [dq], a backslash [bslash].
      Text is taken to be ASCII: [toLowerCase] and the class [\s] are
      modelled on ASCII characters, and the two emoji of the Telegram
      routine are spelled as their UTF-8 bytes.
    - A JavaScript number held by the configuration is an integer [Z],
      rendered in decimal by [showNumber] (as JavaScript does for integers
      below 10^21 in magnitude).
    - An optional field is an [option]; [x || d] and [if (x)] follow the
      truthiness of JavaScript (see [orElse], [truthy]), and an absent
      value spliced into a template reads [undefined] (see [interpolate]).
    - A function that may [throw] returns a [Completion]; the others
      return their value.
    - An object used as a map is the list of its own properties in the
      order [Object.entries] enumerates them (see [setProperty]).
    - A function that reads the file system takes what it reads as an
      argument: the content of a file as an [option], [None] when the file
      is absent. *)

From Stdlib Require Import String Ascii List ZArith Lia Bool DecimalString.
Import ListNotations.
Open Scope string_scope.
Open Scope Z_scope.

(** ** Text *)

Definition nl : string := String (ascii_of_nat 10) EmptyString.
Definition dq : string := String (ascii_of_nat 34) EmptyString.
Definition bslash : string := String (ascii_of_nat 92) EmptyString.

(** The two emoji of the Telegram routine, as their UTF-8 bytes. *)
Definition utf8 (bytes : list nat) : string :=
  fold_right (fun b s => String (ascii_of_nat b) s) EmptyString bytes.
Definition checkMark : string := utf8 [226; 156; 133]%nat.
Definition crossMark : string := utf8 [226; 157; 140]%nat.

(** A template literal: its lines, joined by line feeds. *)
Definition template (lines : list string) : string := String.concat nl lines.

(** [String.prototype.split] with a one-character separator. *)
Fixpoint split (sep : ascii) (s : string) : list string :=
  match s with
  | EmptyString => [EmptyString]
  | String c rest =>
      if Ascii.eqb c sep then EmptyString :: split sep rest
      else match split sep rest with
           | [] => [String c EmptyString]
           | part :: parts => String c part :: parts
           end
  end.

Definition lines (s : string) : list string := split (ascii_of_nat 10) s.

(** The character [sep] does not occur in [s]. *)
Fixpoint lacks (sep : ascii) (s : string) : bool :=
  match s with
  | EmptyString => true
  | String c rest => negb (Ascii.eqb c sep) && lacks sep rest
  end.

Definition noNewline (s : string) : bool := lacks (ascii_of_nat 10) s.

Fixpoint trimStart (s : string) : string :=
  match s with
  | String c rest => if Ascii.eqb c " " then trimStart rest else s
  | EmptyString => EmptyString
  end.

Definition startsWith (s p : string) : bool := prefix p s.

Fixpoint endsWith (s p : string) : bool :=
  String.eqb s p ||
  match s with
  | EmptyString => false
  | String _ rest => endsWith rest p
  end.

Definition includes (s p : string) : bool :=
  match index 0 p s with Some _ => true | None => false end.

(** ** JavaScript values *)

Definition showNumber (n : Z) : string := NilZero.string_of_int (Z.to_int n).

(** [x || d] on an optional number: absent and zero are falsy. *)
Definition orElse (x : option Z) (d : Z) : Z :=
  match x with
  | Some n => if n =? 0 then d else n
  | None => d
  end.

(** Truthiness of an optional string: absent and empty are falsy. *)
Definition truthy (x : option string) : bool :=
  match x with
  | Some EmptyString | None => false
  | Some _ => true
  end.

(** An interpolated optional string: [undefined] prints its name. *)
Definition interpolate (x : option string) : string :=
  match x with
  | Some s => s
  | None => "undefined"
  end.

Inductive Completion (A : Type) : Type :=
| Return (value : A)
| Throw (message : string).
Arguments Return {A} value.
Arguments Throw {A} message.

(** ** The configuration model (interfaces/config.interface.ts) *)

Record EnvVariable := {
  key : string;
  value : option string;
  isSecret : bool;
  description : string
}.

Module ExternalService.
Record t := {
  type : string;
  name : string;
  service : string;
  envVariables : list EnvVariable;
  connectionString : option string;
  requiresInfrastructure : bool
}.
End ExternalService.

Record ProjectConfig := {
  projectName : string;
  projectType : string;
  language : string;
  repository : string;
  branch : string;
  hasDockerfile : bool;
  dockerfilePath : option string;
  runTests : bool;
  testCommand : option string;
  buildCommand : option string;
  requiresEnvFile : bool;
  envFilePath : option string;
  externalServices : list ExternalService.t
}.

Module ManagedService.
Record t := {
  type : string;
  service : string;
  tier : string;
  autoProvision : bool;
  existingResourceId : option string
}.
End ManagedService.

Module AWSCredentials.
Record t := {
  accessKeyId : option string;
  secretAccessKey : option string;
  region : string;
  useOIDC : bool;
  oidcRoleArn : option string
}.
End AWSCredentials.

Module AzureCredentials.
Record t := {
  subscriptionId : string;
  clientId : string;
  clientSecret : option string;
  tenantId : string;
  useOIDC : bool
}.
End AzureCredentials.

Module GCPCredentials.
Record t := {
  projectId : string;
  keyFile : option string;
  region : string;
  useOIDC : bool
}.
End GCPCredentials.

Module DOCredentials.
Record t := {
  apiToken : string;
  region : string
}.
End DOCredentials.

(** [AWSCredentials | AzureCredentials | GCPCredentials | DOCredentials]:
    the variant is not tied to the provider tag. *)
Inductive Credentials :=
| AWS (c : AWSCredentials.t)
| Azure (c : AzureCredentials.t)
| GCP (c : GCPCredentials.t)
| DO (c : DOCredentials.t).

(** The generators read the credentials [as any]: a field a variant does
    not declare reads as [undefined]. *)
Definition useOIDC (credentials : Credentials) : bool :=
  match credentials with
  | AWS c => AWSCredentials.useOIDC c
  | Azure c => AzureCredentials.useOIDC c
  | GCP c => GCPCredentials.useOIDC c
  | DO _ => false
  end.

Definition oidcRoleArn (credentials : Credentials) : option string :=
  match credentials with
  | AWS c => AWSCredentials.oidcRoleArn c
  | _ => None
  end.

Inductive DeploymentStrategy := rolling | blue_green | canary.

Definition strategyText (s : DeploymentStrategy) : string :=
  match s with
  | rolling => "rolling"
  | blue_green => "blue-green"
  | canary => "canary"
  end.

Record DeploymentConfig := {
  tier : string;
  autoScaling : bool;
  minInstances : option Z;
  maxInstances : option Z;
  healthCheckPath : string;
  port : Z;
  useLoadBalancer : bool;
  loadBalancerUrl : option string;
  deploymentStrategy : DeploymentStrategy;
  environmentVariables : list (string * string)
}.

(** The provider tag is kept a string: a configuration read back from its
    JSON preset is not checked against the four tags, and the dispatchers
    have a [default] branch for the others. *)
Record CloudConfig := {
  provider : string;
  credentials : Credentials;
  region : string;
  instanceType : string;
  deploymentConfig : DeploymentConfig;
  managedServices : list ManagedService.t
}.

Module NotificationPlatform.
Record t := {
  type : string;
  webhook : option string;
  apiKey : option string
}.
End NotificationPlatform.

Record NotificationConfig := {
  email : string;
  platforms : list NotificationPlatform.t;
  webhookUrls : option (list (string * string))
}.

Module JenkinsConfig.
Record t := {
  agentLabel : string;
  timeout : Z;
  retryCount : Z;
  environmentVariables : list (string * string)
}.
End JenkinsConfig.

Record CICDConfig := {
  project : ProjectConfig;
  cloud : CloudConfig;
  notifications : NotificationConfig;
  jenkinsConfig : JenkinsConfig.t
}.

(** ** CloudProviderService (cloud-provider.service.ts) *)

Module CloudProviderService.

Definition loadBalancerUrlExport (loadBalancerUrl : string) : string :=
  template
    [ EmptyString;
      "    export DEPLOYED_URL=" ++ dq ++ loadBalancerUrl ++ dq;
      "    echo " ++ dq ++ "DEPLOYED_URL=$DEPLOYED_URL" ++ dq ++ " >> deployment.env";
      "    echo " ++ dq ++ "Deployment completed. Reachable at Load Balancer: $DEPLOYED_URL" ++ dq ].

Definition runtimeUrlExport (defaultUrlScript : string) : string :=
  template
    [ EmptyString;
      "    " ++ defaultUrlScript;
      "    echo " ++ dq ++ "DEPLOYED_URL=$DEPLOYED_URL" ++ dq ++ " >> deployment.env";
      "    echo " ++ dq ++ "Deployment completed. Reachable at: $DEPLOYED_URL" ++ dq ].


(** [generateDeployedUrlExport]: the configured URL when a load balancer is
    used and its URL is set, the provider's run-time lookup otherwise. *)
Definition generateDeployedUrlExport (deploymentConfig : DeploymentConfig) (defaultUrlScript : string) : string :=
  if useLoadBalancer deploymentConfig && truthy (loadBalancerUrl deploymentConfig)
  then loadBalancerUrlExport (interpolate (loadBalancerUrl deploymentConfig))
  else runtimeUrlExport defaultUrlScript.

Definition awsStaticAuth (region : string) : string :=
  template
    [ EmptyString;
      "    #AWS Deployment Configuration";
      "    aws configure set aws_access_key_id ${AWS_ACCESS_KEY_ID}";
      "    aws configure set aws_secret_access_key ${AWS_SECRET_ACCESS_KEY}";
      "    aws configure set region " ++ region ].

Definition awsOidcAuth (oidcRoleArn region : string) : string :=
  template
    [ EmptyString;
      "    # AWS OIDC Authentication";
      "    echo " ++ dq ++ "Authenticating via OIDC..." ++ dq;
      "    export $(printf " ++ dq ++ "AWS_ACCESS_KEY_ID=%s AWS_SECRET_ACCESS_KEY=%s AWS_SESSION_TOKEN=%s" ++ dq ++ " " ++ bslash;
      "    $(aws sts assume-role-with-web-identity " ++ bslash;
      "    --role-arn " ++ oidcRoleArn ++ " " ++ bslash;
      "    --role-session-name JenkinsSession " ++ bslash;
      "    --web-identity-token ${AWS_WEB_IDENTITY_TOKEN} " ++ bslash;
      "    --query " ++ dq ++ "Credentials.[AccessKeyId,SecretAccessKey,SessionToken]" ++ dq ++ " " ++ bslash;
      "    --output text))";
      "    aws configure set region " ++ region ].

Definition awsUrlLookup (deploymentConfig : DeploymentConfig) (dockerImageName : string) : string :=
  template
    [ "TASK_ARN=$(aws ecs list-tasks --cluster " ++ dockerImageName ++ "-cluster --service-name " ++ dockerImageName ++ "-service --query 'taskArns[0]' --output text)";
      "    ENI_ID=$(aws ecs describe-tasks --cluster " ++ dockerImageName ++ "-cluster --tasks $TASK_ARN --query 'tasks[0].attachments[0].details[?name==`networkInterfaceId`].value' --output text)";
      "    PUBLIC_IP=$(aws ec2 describe-network-interfaces --network-interface-ids $ENI_ID --query 'NetworkInterfaces[0].Association.PublicIp' --output text)";
      "    export DEPLOYED_URL=" ++ dq ++ "http://$PUBLIC_IP:" ++ showNumber (port deploymentConfig) ++ dq ].

Definition awsScriptBody (authLogic region : string) (deploymentConfig : DeploymentConfig) (dockerImageName : string) : string :=
  template
    [ EmptyString;
      "    " ++ authLogic;
      EmptyString;
      "    #Create/Update ECS Cluster";
      "    aws ecs create-cluster --cluster-name " ++ dockerImageName ++ "-cluster || true";
      EmptyString;
      "    #Register Task Definition";
      "    cat >task-definition.json << EOF";
      "    {";
      "        " ++ dq ++ "family" ++ dq ++ ": " ++ dq ++ dockerImageName ++ dq ++ ",";
      "        " ++ dq ++ "networkMode" ++ dq ++ ": " ++ dq ++ "awsvpc" ++ dq ++ ",";
      "        " ++ dq ++ "requiresCompatibility" ++ dq ++ ": [" ++ dq ++ "FARGATE" ++ dq ++ "],";
      "        " ++ dq ++ "cpu" ++ dq ++ ": " ++ dq ++ "256" ++ dq ++ ",";
      "        " ++ dq ++ "memory" ++ dq ++ ": " ++ dq ++ "512" ++ dq ++ ",";
      "        " ++ dq ++ "containerDefinitions" ++ dq ++ ": [";
      "        {";
      "            " ++ dq ++ "name" ++ dq ++ ": " ++ dq ++ dockerImageName ++ dq ++ ",";
      "            " ++ dq ++ "image" ++ dq ++ ": " ++ dq ++ "${DOCKER_IMAGE}" ++ dq ++ ",";
      "            " ++ dq ++ "portMappings" ++ dq ++ ": [";
      "                {";
      "                    " ++ dq ++ "containerPort" ++ dq ++ ": " ++ showNumber (port deploymentConfig) ++ ",";
      "                    " ++ dq ++ "protocol" ++ dq ++ ": " ++ dq ++ "tcp" ++ dq;
      "                }";
      "            ],";
      "            " ++ dq ++ "logConfiguration" ++ dq ++ ": {";
      "                " ++ dq ++ "logDriver" ++ dq ++ ": " ++ dq ++ "awslogs" ++ dq ++ ",";
      "                " ++ dq ++ "options" ++ dq ++ ": {";
      "                    " ++ dq ++ "awslogs-group" ++ dq ++ ": " ++ dq ++ "/ecs/" ++ dockerImageName ++ dq ++ ",";
      "                    " ++ dq ++ "awslogs-region" ++ dq ++ ": " ++ dq ++ region ++ dq ++ ",";
      "                    " ++ dq ++ "awslogs-stream-prefix" ++ dq ++ ": " ++ dq ++ "ecs" ++ dq;
      "                }";
      "            }";
      "        }],";
      "        " ++ dq ++ "healthCheck" ++ dq ++ ": {";
      "            " ++ dq ++ "command" ++ dq ++ ": [" ++ dq ++ "CMD-SHELL" ++ dq ++ ", " ++ dq ++ "curl -f http://localhost:" ++ showNumber (port deploymentConfig) ++ healthCheckPath deploymentConfig ++ " || exit 1" ++ dq ++ "],";
      "            " ++ dq ++ "interval" ++ dq ++ ": 30,";
      "            " ++ dq ++ "timeout" ++ dq ++ ": 5,";
      "            " ++ dq ++ "retries" ++ dq ++ ": 3";
      "        }";
      "    }";
      "    EOF";
      EmptyString;
      "    aws ecs register-task-definition --cli-input-json file://task-definition.json";
      EmptyString;
      "    # Check if ECS service exists";
      "    SERVICE_EXISTS=$(aws ecs describe-services --cluster " ++ dockerImageName ++ "-cluster --services " ++ dockerImageName ++ "-service --query 'services[0].status' --output text || echo " ++ dq ++ "MISSING" ++ dq ++ ")";
      EmptyString;
      "    if [ " ++ dq ++ "$SERVICE_EXISTS" ++ dq ++ " != " ++ dq ++ "ACTIVE" ++ dq ++ " ]; then";
      "        echo " ++ dq ++ "Creating new ECS service..." ++ dq;
      "        aws ecs create-service " ++ bslash;
      "            --cluster " ++ dockerImageName ++ "-cluster " ++ bslash;
      "            --service-name " ++ dockerImageName ++ "-service " ++ bslash;
      "            --task-definition " ++ dockerImageName ++ " " ++ bslash;
      "            --desired-count " ++ showNumber (orElse (minInstances deploymentConfig) 1) ++ " " ++ bslash;
      "            --launch-type FARGATE " ++ bslash;
      "            --network-configuration " ++ dq ++ "awsvpcConfiguration={subnets=[${SUBNET_IDS}], securityGroups=[${SECURITY_GROUP_IDS}], assignPublicIp=ENABLED}" ++ dq;
      "    else";
      "        echo " ++ dq ++ "Updating existing ECS service with " ++ strategyText (deploymentStrategy deploymentConfig) ++ " strategy..." ++ dq;
      "        if [ " ++ dq ++ strategyText (deploymentStrategy deploymentConfig) ++ dq ++ " == " ++ dq ++ "blue-green" ++ dq ++ " ]; then";
      "            echo " ++ dq ++ "Performing Blue-Green deployment..." ++ dq;
      "            # Simulating blue-green by creating/updating a 'green' version";
      "            aws ecs update-service --cluster " ++ dockerImageName ++ "-cluster --service " ++ dockerImageName ++ "-service --task-definition " ++ dockerImageName ++ " --force-new-deployment";
      "        elif [ " ++ dq ++ strategyText (deploymentStrategy deploymentConfig) ++ dq ++ " == " ++ dq ++ "canary" ++ dq ++ " ]; then";
      "            echo " ++ dq ++ "Performing Canary deployment (10% traffic)..." ++ dq;
      "            aws ecs update-service --cluster " ++ dockerImageName ++ "-cluster --service " ++ dockerImageName ++ "-service --task-definition " ++ dockerImageName ++ " --desired-count $(( " ++ showNumber (orElse (minInstances deploymentConfig) 1) ++ " + 1 ))";
      "        else";
      "            aws ecs update-service --cluster " ++ dockerImageName ++ "-cluster --service " ++ dockerImageName ++ "-service --task-definition " ++ dockerImageName ++ " --force-new-deployment";
      "        fi";
      "    fi";
      EmptyString;
      "    " ++ generateDeployedUrlExport deploymentConfig (awsUrlLookup deploymentConfig dockerImageName);
      "    " ].

Definition generateAWSDeploymentScript (config : CloudConfig) (dockerImageName : string) : string :=
  let awsCredentials := credentials config in
  let authLogic :=
    if useOIDC awsCredentials && truthy (oidcRoleArn awsCredentials)
    then awsOidcAuth (interpolate (oidcRoleArn awsCredentials)) (region config)
    else awsStaticAuth (region config) in
  awsScriptBody authLogic (region config) (deploymentConfig config) dockerImageName.

Definition azureStaticAuth : string :=
  template
    [ EmptyString;
      "    # Azure Deployment Configuration";
      "    az login --service-principal " ++ bslash;
      "        -u ${AZURE_CLIENT_ID} " ++ bslash;
      "        -p ${AZURE_CLIENT_SECRET} " ++ bslash;
      "        -t ${AZURE_TENANT_ID}" ].

Definition azureOidcAuth : string :=
  template
    [ EmptyString;
      "    # Azure OIDC Authentication";
      "    echo " ++ dq ++ "Authenticating via OIDC..." ++ dq;
      "    az login --service-principal " ++ bslash;
      "        -u ${AZURE_CLIENT_ID} " ++ bslash;
      "        -t ${AZURE_TENANT_ID} " ++ bslash;
      "        --federated-token ${AZURE_FEDERATED_TOKEN}" ].

Definition azureUrlLookup (deploymentConfig : DeploymentConfig) (dockerImageName : string) : string :=
  template
    [ "export DEPLOYED_URL=" ++ dq ++ "http://" ++ dockerImageName ++ ".${AZURE_REGION}.azurecontainer.io:" ++ showNumber (port deploymentConfig) ++ dq ].

Definition azureScriptBody (authLogic : string) (deploymentConfig : DeploymentConfig) (dockerImageName : string) : string :=
  template
    [ EmptyString;
      "    " ++ authLogic;
      "    ";
      "    az account set --subscription ${AZURE_SUBSCRIPTION_ID}";
      EmptyString;
      "    # Create Resource Group";
      "    az group create --name ${RESOURCE_GROUP_NAME} --location ${REGION}";
      "    ";
      "    # Create Container Instance";
      "    az container create " ++ bslash;
      "        --resource-group ${RESOURCE_GROUP} " ++ bslash;
      "        --name " ++ dockerImageName ++ " " ++ bslash;
      "        --image ${DOCKER_IMAGE} " ++ bslash;
      "        --cpu 1 " ++ bslash;
      "        --memory 1.5 " ++ bslash;
      "        --registry-login-server ${ACR_LOGIN_SERVER} " ++ bslash;
      "        --registry-username ${ACR_USERNAME} " ++ bslash;
      "        --registry-password ${ACR_PASSWORD} " ++ bslash;
      "        --dns-name-label " ++ dockerImageName ++ " " ++ bslash;
      "        --ports " ++ showNumber (port deploymentConfig) ++ " " ++ bslash;
      "        --environment-variables NODE_ENV=production " ++ bslash;
      "        --restart-policy Always";
      EmptyString;
      "    " ++ generateDeployedUrlExport deploymentConfig (azureUrlLookup deploymentConfig dockerImageName);
      "    " ].

Definition generateAzureDeploymentScript (config : CloudConfig) (dockerImageName : string) : string :=
  let azureCredentials := credentials config in
  let authLogic := if useOIDC azureCredentials then azureOidcAuth else azureStaticAuth in
  azureScriptBody authLogic (deploymentConfig config) dockerImageName.

Definition gcpStaticAuth (region : string) : string :=
  template
    [ EmptyString;
      "    # GCP Deployment Configuration";
      "    gcloud auth activate-service-account --key-file=${GCP_KEY_FILE}";
      "    gcloud config set project ${GCP_PROJECT_ID}";
      "    gcloud config set compute/region " ++ region ].

Definition gcpOidcAuth (region : string) : string :=
  template
    [ EmptyString;
      "    # GCP OIDC Authentication";
      "    echo " ++ dq ++ "Authenticating via OIDC..." ++ dq;
      "    echo ${GCP_OIDC_TOKEN} > oidc_token.txt";
      "    gcloud auth login --cred-file=oidc_token.txt";
      "    gcloud config set project ${GCP_PROJECT_ID}";
      "    gcloud config set compute/region " ++ region ].

Definition gcpUrlLookup : string :=
  template
    [ "export DEPLOYED_URL=$(cat gcp_url.txt)" ].

Definition gcpScriptBody (authLogic region : string) (deploymentConfig : DeploymentConfig) (dockerImageName : string) : string :=
  template
    [ EmptyString;
      "    " ++ authLogic;
      EmptyString;
      "    # Deploy to Cloud Run";
      "    gcloud run deploy " ++ dockerImageName ++ " " ++ bslash;
      "        --image ${DOCKER_IMAGE} " ++ bslash;
      "        --platform managed " ++ bslash;
      "        --port " ++ showNumber (port deploymentConfig) ++ " " ++ bslash;
      "        --memory 512Mi " ++ bslash;
      "        --cpu 1 " ++ bslash;
      "        --min-instances " ++ showNumber (orElse (minInstances deploymentConfig) 0) ++ " " ++ bslash;
      "        --max-instances " ++ showNumber (orElse (maxInstances deploymentConfig) 1) ++ " " ++ bslash;
      "        --set-env-vars NODE_ENV=production " ++ bslash;
      "        --region " ++ region ++ " " ++ bslash;
      "        --format='value(status.url)' > gcp_url.txt";
      "    ";
      "    " ++ generateDeployedUrlExport deploymentConfig gcpUrlLookup;
      "    " ].

Definition generateGCPDeploymentScript (config : CloudConfig) (dockerImageName : string) : string :=
  let gcpCredentials := credentials config in
  let authLogic :=
    if useOIDC gcpCredentials then gcpOidcAuth (region config) else gcpStaticAuth (region config) in
  gcpScriptBody authLogic (region config) (deploymentConfig config) dockerImageName.

Definition doUrlLookup : string :=
  template
    [ "export DEPLOYED_URL=$(doctl apps get $APP_ID --format DefaultIngress --no-header)" ].

Definition doScriptBody (region : string) (deploymentConfig : DeploymentConfig) (dockerImageName : string) : string :=
  template
    [ EmptyString;
      "    # DigitalOcean Deployment Configuration";
      "    doctl auth init --access-token ${DO_API_TOKEN}";
      EmptyString;
      "    #Create App Platform APP";
      "    cat > app-spec.yaml << EOF";
      "    name: " ++ dockerImageName;
      "    region: " ++ region;
      "    services:";
      "        - name: " ++ dockerImageName;
      "          image: ";
      "            registry-type: DOCKER_HUB";
      "            repository: ${DOCKER_IMAGE}";
      "          http_port: " ++ showNumber (port deploymentConfig);
      "          instance_count: " ++ showNumber (orElse (minInstances deploymentConfig) 1);
      "          instance_size_slug: basic-xxs";
      "          health-check:";
      "            http_path: " ++ healthCheckPath deploymentConfig;
      "          routes:";
      "            - path: /";
      EmptyString;
      "    EOF";
      EmptyString;
      "    # Create or update app";
      "    APP_ID=$(doctl apps list --format ID --no-header | head -n 1)";
      EmptyString;
      "    if [ -z " ++ dq ++ "$APP_ID" ++ dq ++ " ]; then";
      "        doctl apps create --spec app-spec.yaml";
      "    else";
      "        doctl apps update $APP_ID --spec app-spec.yaml";
      "    fi";
      EmptyString;
      "    " ++ generateDeployedUrlExport deploymentConfig doUrlLookup;
      "    " ].

Definition generateDigitalOceanDeploymentScript (config : CloudConfig) (dockerImageName : string) : string :=
  doScriptBody (region config) (deploymentConfig config) dockerImageName.

Definition generateDeploymentScript (config : CloudConfig) (dockerImageName : string) : Completion string :=
  if String.eqb (provider config) "aws" then Return (generateAWSDeploymentScript config dockerImageName)
  else if String.eqb (provider config) "azure" then Return (generateAzureDeploymentScript config dockerImageName)
  else if String.eqb (provider config) "gcp" then Return (generateGCPDeploymentScript config dockerImageName)
  else if String.eqb (provider config) "digitalocean" then Return (generateDigitalOceanDeploymentScript config dockerImageName)
  else Throw ("Unsupported cloud provider: " ++ provider config).

(** [credentials['region']], read without regard to the variant. *)
Definition credentialsRegion (credentials : Credentials) : option string :=
  match credentials with
  | AWS c => Some (AWSCredentials.region c)
  | Azure _ => None
  | GCP c => Some (GCPCredentials.region c)
  | DO c => Some (DOCredentials.region c)
  end.

Definition awsOidcEnvironment : string :=
  template
    [ EmptyString;
      "      environment {";
      "        AWS_WEB_IDENTITY_TOKEN = credentials('aws-oidc-token')";
      "      }" ].

Definition awsStaticEnvironment (credentials : Credentials) : string :=
  template
    [ EmptyString;
      "      environment {";
      "        AWS_ACCESS_KEY_ID = credentials('aws-access-key-id')";
      "        AWS_SECRET_ACCESS_KEY = credentials('aws-secret-access-key')";
      "        AWS_REGION = '" ++ interpolate (credentialsRegion credentials) ++ "'";
      "      }" ].

Definition azureBaseEnv : string :=
  template
    [ EmptyString;
      "        AZURE_SUBSCRIPTION_ID = credentials('azure-subscription-id')";
      "        AZURE_TENANT_ID = credentials('azure-tenant-id')";
      "        AZURE_CLIENT_ID = credentials('azure-client-id')" ].

Definition azureOidcEnvironment (baseEnv : string) : string :=
  template
    [ EmptyString;
      "      environment {" ++ baseEnv;
      "        AZURE_FEDERATED_TOKEN = credentials('azure-federated-token')";
      "      }" ].

Definition azureStaticEnvironment (baseEnv : string) : string :=
  template
    [ EmptyString;
      "      environment {" ++ baseEnv;
      "        AZURE_CLIENT_SECRET = credentials('azure-client-secret')";
      "      }" ].

Definition gcpOidcEnvironment : string :=
  template
    [ EmptyString;
      "      environment {";
      "        GCP_PROJECT_ID = credentials('gcp-project-id')";
      "        GCP_OIDC_TOKEN = credentials('gcp-oidc-token')";
      "      }" ].

Definition gcpStaticEnvironment : string :=
  template
    [ EmptyString;
      "      environment {";
      "        GCP_PROJECT_ID = credentials('gcp-project-id')";
      "        GCP_KEY_FILE = credentials('gcp-key-file')";
      "      }" ].

Definition doEnvironment : string :=
  template
    [ EmptyString;
      "            environment {";
      "                DO_API_TOKEN = credentials('do-api-token')";
      "            }" ].

Definition generateCredentialsEnvironmentVariables (config : CloudConfig) : string :=
  let credentials := credentials config in
  if String.eqb (provider config) "aws" then
    if useOIDC credentials then awsOidcEnvironment else awsStaticEnvironment credentials
  else if String.eqb (provider config) "azure" then
    let baseEnv := azureBaseEnv in
    if useOIDC credentials then azureOidcEnvironment baseEnv else azureStaticEnvironment baseEnv
  else if String.eqb (provider config) "gcp" then
    if useOIDC credentials then gcpOidcEnvironment else gcpStaticEnvironment
  else if String.eqb (provider config) "digitalocean" then doEnvironment
  else EmptyString.

End CloudProviderService.

(** ** IaCService (iac.service.ts) *)

Module IaCService.

Definition generateAWSTerraform (config : CloudConfig) (dockerImageName : string) : string :=
  template
    [ EmptyString;
      "provider " ++ dq ++ "aws" ++ dq ++ " {";
      "  region = " ++ dq ++ region config ++ dq;
      "}";
      EmptyString;
      "resource " ++ dq ++ "aws_ecs_cluster" ++ dq ++ " " ++ dq ++ "main" ++ dq ++ " {";
      "  name = " ++ dq ++ dockerImageName ++ "-cluster" ++ dq;
      "}";
      EmptyString;
      "resource " ++ dq ++ "aws_iam_role" ++ dq ++ " " ++ dq ++ "ecs_task_execution_role" ++ dq ++ " {";
      "  name = " ++ dq ++ dockerImageName ++ "-task-exec-role" ++ dq;
      EmptyString;
      "  assume_role_policy = jsonencode({";
      "    Version = " ++ dq ++ "2012-10-17" ++ dq;
      "    Statement = [";
      "      {";
      "        Action = " ++ dq ++ "sts:AssumeRole" ++ dq;
      "        Effect = " ++ dq ++ "Allow" ++ dq;
      "        Principal = {";
      "          Service = " ++ dq ++ "ecs-tasks.amazonaws.com" ++ dq;
      "        }";
      "      }";
      "    ]";
      "  })";
      "}";
      EmptyString;
      "resource " ++ dq ++ "aws_iam_role_policy_attachment" ++ dq ++ " " ++ dq ++ "ecs_task_execution_role_policy" ++ dq ++ " {";
      "  role       = aws_iam_role.ecs_task_execution_role.name";
      "  policy_arn = " ++ dq ++ "arn:aws:iam::aws:policy/service-role/AmazonECSTaskExecutionRolePolicy" ++ dq;
      "}";
      EmptyString ].

Definition generateAzureTerraform (config : CloudConfig) (dockerImageName : string) : string :=
  template
    [ EmptyString;
      "provider " ++ dq ++ "azurerm" ++ dq ++ " {";
      "  features {}";
      "}";
      EmptyString;
      "resource " ++ dq ++ "azurerm_resource_group" ++ dq ++ " " ++ dq ++ "main" ++ dq ++ " {";
      "  name     = " ++ dq ++ "${var.resource_group_name}" ++ dq;
      "  location = " ++ dq ++ region config ++ dq;
      "}";
      EmptyString;
      "resource " ++ dq ++ "azurerm_container_group" ++ dq ++ " " ++ dq ++ "main" ++ dq ++ " {";
      "  name                = " ++ dq ++ dockerImageName ++ dq;
      "  location            = azurerm_resource_group.main.location";
      "  resource_group_name = azurerm_resource_group.main.name";
      "  ip_address_type     = " ++ dq ++ "Public" ++ dq;
      "  dns_name_label      = " ++ dq ++ dockerImageName ++ dq;
      "  os_type             = " ++ dq ++ "Linux" ++ dq;
      EmptyString;
      "  container {";
      "    name   = " ++ dq ++ dockerImageName ++ dq;
      "    image  = " ++ dq ++ "${var.docker_image}" ++ dq;
      "    cpu    = " ++ dq ++ "1" ++ dq;
      "    memory = " ++ dq ++ "1.5" ++ dq;
      EmptyString;
      "    ports {";
      "      port     = " ++ showNumber (port (deploymentConfig config));
      "      protocol = " ++ dq ++ "TCP" ++ dq;
      "    }";
      "  }";
      "}";
      EmptyString ].

Definition generateGCPTerraform (config : CloudConfig) (dockerImageName : string) : string :=
  template
    [ EmptyString;
      "provider " ++ dq ++ "google" ++ dq ++ " {";
      "  project = " ++ dq ++ "${var.gcp_project_id}" ++ dq;
      "  region  = " ++ dq ++ region config ++ dq;
      "}";
      EmptyString;
      "resource " ++ dq ++ "google_cloud_run_service" ++ dq ++ " " ++ dq ++ "main" ++ dq ++ " {";
      "  name     = " ++ dq ++ dockerImageName ++ dq;
      "  location = " ++ dq ++ region config ++ dq;
      EmptyString;
      "  template {";
      "    spec {";
      "      containers {";
      "        image = " ++ dq ++ "${var.docker_image}" ++ dq;
      "        ports {";
      "          container_port = " ++ showNumber (port (deploymentConfig config));
      "        }";
      "      }";
      "    }";
      "  }";
      EmptyString;
      "  traffic {";
      "    percent         = 100";
      "    latest_revision = true";
      "  }";
      "}";
      EmptyString;
      "resource " ++ dq ++ "google_cloud_run_service_iam_member" ++ dq ++ " " ++ dq ++ "public_access" ++ dq ++ " {";
      "  service  = google_cloud_run_service.main.name";
      "  location = google_cloud_run_service.main.location";
      "  role     = " ++ dq ++ "roles/run.invoker" ++ dq;
      "  member   = " ++ dq ++ "allUsers" ++ dq;
      "}";
      EmptyString ].

Definition generateDOTerraform (config : CloudConfig) (dockerImageName : string) : string :=
  template
    [ EmptyString;
      "provider " ++ dq ++ "digitalocean" ++ dq ++ " {";
      "  token = " ++ dq ++ "${var.do_token}" ++ dq;
      "}";
      EmptyString;
      "resource " ++ dq ++ "digitalocean_app" ++ dq ++ " " ++ dq ++ "main" ++ dq ++ " {";
      "  spec {";
      "    name   = " ++ dq ++ dockerImageName ++ dq;
      "    region = " ++ dq ++ region config ++ dq;
      EmptyString;
      "    service {";
      "      name               = " ++ dq ++ dockerImageName ++ dq;
      "      instance_count     = " ++ showNumber (orElse (minInstances (deploymentConfig config)) 1);
      "      instance_size_slug = " ++ dq ++ "basic-xxs" ++ dq;
      EmptyString;
      "      image {";
      "        registry_type = " ++ dq ++ "DOCKER_HUB" ++ dq;
      "        repository    = " ++ dq ++ "${var.docker_image}" ++ dq;
      "      }";
      EmptyString;
      "      http_port = " ++ showNumber (port (deploymentConfig config));
      EmptyString;
      "      health_check {";
      "        http_path = " ++ dq ++ healthCheckPath (deploymentConfig config) ++ dq;
      "      }";
      "    }";
      "  }";
      "}";
      EmptyString ].

Definition generateTerraformConfig (config : CloudConfig) (dockerImageName : string) : string :=
  if String.eqb (provider config) "aws" then generateAWSTerraform config dockerImageName
  else if String.eqb (provider config) "azure" then generateAzureTerraform config dockerImageName
  else if String.eqb (provider config) "gcp" then generateGCPTerraform config dockerImageName
  else if String.eqb (provider config) "digitalocean" then generateDOTerraform config dockerImageName
  else EmptyString.

End IaCService.

(** ** DockerComposeService (docker-compose.service.ts) *)

Module DockerComposeService.

#[local] Set Warnings "-register-all".

(** The values the generator builds: strings, arrays of strings and nested
    objects.  An object is the list of its own properties in the order
    [Object.entries] enumerates them. *)
Inductive JsValue :=
| VString (s : string)
| VArray (items : list string)
| VObject (properties : list (string * JsValue)).

Definition JsObject := list (string * JsValue).

Definition isDigit (c : ascii) : bool :=
  let n := N_of_ascii c in ((48 <=? n) && (n <=? 57))%N.

Fixpoint allDigits (s : string) : bool :=
  match s with
  | EmptyString => true
  | String c rest => isDigit c && allDigits rest
  end.

Fixpoint decimalValue (acc : N) (s : string) : N :=
  match s with
  | EmptyString => acc
  | String c rest => decimalValue (10 * acc + (N_of_ascii c - 48))%N rest
  end.

(** A property key that is an array index (a canonical decimal numeral
    below 2^32 - 1): such keys are enumerated first, in ascending order. *)
Definition arrayIndex (k : string) : option N :=
  match k with
  | EmptyString => None
  | String c rest =>
      if allDigits k && (negb (Ascii.eqb c "0") || String.eqb rest EmptyString)
         && (Nat.leb (String.length k) 10)
      then let n := decimalValue 0 k in
           if (n <? 4294967295)%N then Some n else None
      else None
  end.

Fixpoint hasProperty (o : JsObject) (k : string) : bool :=
  match o with
  | [] => false
  | (k', _) :: rest => String.eqb k' k || hasProperty rest k
  end.

Fixpoint getProperty (o : JsObject) (k : string) : option JsValue :=
  match o with
  | [] => None
  | (k', v) :: rest => if String.eqb k' k then Some v else getProperty rest k
  end.

Fixpoint replaceProperty (o : JsObject) (k : string) (v : JsValue) : JsObject :=
  match o with
  | [] => []
  | (k', v') :: rest =>
      if String.eqb k' k then (k', v) :: rest else (k', v') :: replaceProperty rest k v
  end.

(** A new array-index key goes before the first key that is not an array
    index or is a larger one. *)
Fixpoint insertIndexed (o : JsObject) (n : N) (k : string) (v : JsValue) : JsObject :=
  match o with
  | [] => [(k, v)]
  | (k', v') :: rest =>
      match arrayIndex k' with
      | Some n' => if (n' <? n)%N then (k', v') :: insertIndexed rest n k v
                   else (k, v) :: o
      | None => (k, v) :: o
      end
  end.

(** [o[k] = v] on an ordinary object: an existing property keeps its place,
    a new one is appended (array indices apart); assigning an object to
    [__proto__] sets the prototype and adds no own property. *)
Definition setProperty (o : JsObject) (k : string) (v : JsValue) : JsObject :=
  if String.eqb k "__proto__" then o
  else if hasProperty o k then replaceProperty o k v
  else match arrayIndex k with
       | Some n => insertIndexed o n k v
       | None => (o ++ [(k, v)])%list
       end.

Definition lowerChar (c : ascii) : ascii :=
  let n := N_of_ascii c in
  if ((65 <=? n) && (n <=? 90))%N then ascii_of_N (n + 32) else c.

(** [String.prototype.toLowerCase], on ASCII text. *)
Fixpoint toLowerCase (s : string) : string :=
  match s with
  | EmptyString => EmptyString
  | String c rest => String (lowerChar c) (toLowerCase rest)
  end.

(** The characters [\s] matches, among ASCII. *)
Definition isWhitespace (c : ascii) : bool :=
  let n := N_of_ascii c in (((9 <=? n) && (n <=? 13)) || (n =? 32))%N.

(** [s.replace(/\s+/g, '-')]; [inRun] tells that the previous character
    was white space, already replaced. *)
Fixpoint replaceWhitespaceRuns (inRun : bool) (s : string) : string :=
  match s with
  | EmptyString => EmptyString
  | String c rest =>
      if isWhitespace c
      then if inRun then replaceWhitespaceRuns true rest
           else String "-" (replaceWhitespaceRuns true rest)
      else String c (replaceWhitespaceRuns false rest)
  end.

Definition getServiceName (service : ExternalService.t) : string :=
  replaceWhitespaceRuns false (toLowerCase (ExternalService.name service)).

Definition placeholderConfig : JsObject :=
  [ ("image", VString "alpine:latest");
    ("command", VString "sleep infinity") ].

Definition getServiceConfig (service : ExternalService.t) : JsObject :=
  let product := toLowerCase (ExternalService.service service) in
  if String.eqb product "postgresql" then
    [ ("image", VString "postgres:latest");
      ("environment", VObject
         [ ("POSTGRES_USER", VString "user");
           ("POSTGRES_PASSWORD", VString "password");
           ("POSTGRES_DB", VString "app_db") ]);
      ("ports", VArray ["5432:5432"]) ]
  else if String.eqb product "mongodb" then
    [ ("image", VString "mongo:latest");
      ("ports", VArray ["27017:27017"]) ]
  else if String.eqb product "redis" then
    [ ("image", VString "redis:latest");
      ("ports", VArray ["6379:6379"]) ]
  else if String.eqb product "mysql" || String.eqb product "mariadb" then
    [ ("image", VString (if String.eqb (toLowerCase (ExternalService.service service)) "mysql"
                         then "mysql:latest" else "mariadb:latest"));
      ("environment", VObject
         [ ("MYSQL_ROOT_PASSWORD", VString "password");
           ("MYSQL_DATABASE", VString "app_db") ]);
      ("ports", VArray ["3306:3306"]) ]
  else if String.eqb product "rabbitmq" then
    [ ("image", VString "rabbitmq:3-management");
      ("ports", VArray ["5672:5672"; "15672:15672"]) ]
  else placeholderConfig.

Fixpoint repeat_space (n : nat) : string :=
  match n with
  | O => EmptyString
  | S m => String " " (repeat_space m)
  end.

(** One turn of the loop of [yamlify]: the text of one property. *)
Fixpoint yamlifyProperty (indent : nat) (key : string) (value : JsValue) {struct value} : string :=
  let spaces := repeat_space indent in
  match value with
  | VObject properties =>
      spaces ++ key ++ ":" ++ nl ++
      (fix each (ps : list (string * JsValue)) : string :=
         match ps with
         | [] => EmptyString
         | (k, v) :: rest => yamlifyProperty (indent + 2) k v ++ each rest
         end) properties
  | VArray items =>
      fold_left (fun yaml item => yaml ++ spaces ++ "  - " ++ dq ++ item ++ dq ++ nl)
                items (spaces ++ key ++ ":" ++ nl)
  | VString s => spaces ++ key ++ ": " ++ dq ++ s ++ dq ++ nl
  end.

Fixpoint yamlify (obj : JsObject) (indent : nat) : string :=
  match obj with
  | [] => EmptyString
  | (key, value) :: rest => yamlifyProperty indent key value ++ yamlify rest indent
  end.

(** The [services] object once the loop over the external services ends. *)
Definition composeServices (config : CICDConfig) : JsObject :=
  let project := project config in
  let portText := showNumber (port (deploymentConfig (cloud config))) in
  let app :=
    [ ("build", VString ".");
      ("ports", VArray [portText ++ ":" ++ portText]);
      ("env_file", VArray [".env"]);
      ("depends_on", VArray (map getServiceName
                               (filter ExternalService.requiresInfrastructure (externalServices project)))) ] in
  fold_left
    (fun services service =>
       if ExternalService.requiresInfrastructure service
       then setProperty services (getServiceName service) (VObject (getServiceConfig service))
       else services)
    (externalServices project)
    (setProperty [] "app" (VObject app)).

Definition generateDockerCompose (config : CICDConfig) : string :=
  let compose :=
    [ ("version", VString "3.8");
      ("services", VObject (composeServices config)) ] in
  yamlify compose 0.

End DockerComposeService.

(** ** NotificationService (notification.service.ts) *)

Module NotificationService.

Definition generateEmailNotification (email : string) : string :=
  template
    [ EmptyString;
      "    def sendEmailNotification(status, stageName='') {";
      "        def subject = " ++ dq ++ "[${status}] Jenkins Pipeline - ${env.JOB_NAME} #${env.BUILD_NUMBER}" ++ dq;
      "        def body = " ++ dq ++ dq ++ dq;
      "        <html>";
      "        <body>";
      "            <h2>Jenkins Pipeline Notification</h2>";
      "            <p><strong>Job:</strong> ${env.JOB_NAME}</p>";
      "            <p><strong>Build Number:</strong> ${env.BUILD_NUMBER}</p>";
      "            <p><strong>Status:</strong> <span style=" ++ dq ++ "color: ${status == 'SUCCESS' ? 'green' : 'red'};" ++ dq ++ ">${status}</span></p>";
      "            ${stageName ? " ++ dq ++ "<p><strong>Stage:</strong> ${stageName}</p>" ++ dq ++ " : " ++ dq ++ dq ++ "}";
      "            <p><strong>Duration:</strong> ${currentBuild.durationString}</p>";
      "            <p><strong>Build URL:</strong> <a href=" ++ dq ++ "${env.BUILD_URL}" ++ dq ++ ">${env.BUILD_URL}</a></p>";
      "            <p><strong>Console Output:</strong> <a href=" ++ dq ++ "${env.BUILD_URL}console" ++ dq ++ ">${env.BUILD_URL}console</a></p>";
      "            <hr>";
      "            <p><strong>Changes:</strong></p>";
      "            <pre>${currentBuild.changeSets.collect { it.items.collect { " ++ dq ++ "${it.author} - ${it.msg}" ++ dq ++ " }.join('" ++ bslash ++ "n') }.join('" ++ bslash ++ "n')}</pre>";
      "        </body>";
      "        </html>";
      "        " ++ dq ++ dq ++ dq;
      EmptyString;
      "        emailext(";
      "            subject: subject,";
      "            body: body,";
      "            to: '" ++ email ++ "',";
      "            mimeType: 'text/html',";
      "            attachLog: status != 'SUCCESS'";
      "        )";
      "    }";
      "    " ].

Definition generateSlackNotification (webhook : string) : string :=
  template
    [ EmptyString;
      "    def sendSlackNotification(status, stageName = ''){";
      "        def color = status == 'SUCCESS' ? 'good' : 'danger'";
      "        def message = [";
      "            text: " ++ dq ++ "Jenkins Pipeline ${status}" ++ dq ++ ",";
      "            attachments:[[";
      "                color: color,";
      "                title: " ++ dq ++ "Jenkins Pipeline ${status}" ++ dq ++ ",";
      "                title_link: " ++ dq ++ "${env.BUILD_URL}" ++ dq ++ ",";
      "                fields: [";
      "                    [title: " ++ dq ++ "Status" ++ dq ++ ", value: status, short: true],";
      "                    [title: " ++ dq ++ "Branch" ++ dq ++ ", value: " ++ dq ++ "${env.BRANCH_NAME}" ++ dq ++ ", short: true],";
      "                    [title: " ++ dq ++ "Duration" ++ dq ++ ", value: " ++ dq ++ "${currentBuild.durationString}" ++ dq ++ ", short: true],";
      "                    ${stageName ? " ++ dq ++ "[title: 'Stage', value: '${stageName}', short: true]," ++ dq ++ " : " ++ dq ++ dq ++ "}";
      "                ],";
      "                footer: " ++ dq ++ "Jenkins" ++ dq ++ ",";
      "                ts: (System.currentTimeMillis() / 1000).toLong()";
      "            ]]";
      "        ]";
      "        sh " ++ dq ++ dq ++ dq;
      "            curl -X POST '" ++ webhook ++ "' " ++ bslash;
      "            -H 'Content-Type: application/json' " ++ bslash;
      "            -d '${groovy.json.JsonOutput.toJson(message)}'";
      "        " ++ dq ++ dq ++ dq;
      "    }";
      "    " ].

Definition generateDiscordNotification (webhook : string) : string :=
  template
    [ EmptyString;
      "def sendDiscordNotification(status, stageName = '') {";
      "  def color = status == 'SUCCESS' ? 3066993 : 15158332";
      "  def message = [";
      "    embeds: [[";
      "      title: " ++ dq ++ "Jenkins Pipeline ${status}" ++ dq ++ ",";
      "      description: " ++ dq ++ "${env.JOB_NAME} #${env.BUILD_NUMBER}" ++ dq ++ ",";
      "      color: color,";
      "      fields: [";
      "        [name: " ++ dq ++ "Status" ++ dq ++ ", value: status, inline: true],";
      "        [name: " ++ dq ++ "Branch" ++ dq ++ ", value: " ++ dq ++ "${env.BRANCH_NAME}" ++ dq ++ ", inline: true],";
      "        [name: " ++ dq ++ "Duration" ++ dq ++ ", value: " ++ dq ++ "${currentBuild.durationString}" ++ dq ++ ", inline: true],";
      "        ${stageName ? " ++ dq ++ "[name: 'Stage', value: '${stageName}', inline: true]," ++ dq ++ " : " ++ dq ++ dq ++ "}";
      "      ],";
      "      footer: [text: " ++ dq ++ "Jenkins" ++ dq ++ "],";
      "      timestamp: new Date().format(" ++ dq ++ "yyyy-MM-dd'T'HH:mm:ss'Z'" ++ dq ++ "),";
      "      url: " ++ dq ++ "${env.BUILD_URL}" ++ dq;
      "    ]]";
      "  ]";
      "  ";
      "  sh " ++ dq ++ dq ++ dq;
      "    curl -X POST '" ++ webhook ++ "' " ++ bslash;
      "    -H 'Content-Type: application/json' " ++ bslash;
      "    -d '${groovy.json.JsonOutput.toJson(message)}'";
      "  " ++ dq ++ dq ++ dq;
      "}";
      EmptyString ].

Definition generateTeamsNotification (webhook : string) : string :=
  template
    [ EmptyString;
      "def sendTeamsNotification(status, stageName = '') {";
      "  def color = status == 'SUCCESS' ? '00FF00' : 'FF0000'";
      "  def message = [";
      "    " ++ dq ++ "@type" ++ dq ++ ": " ++ dq ++ "MessageCard" ++ dq ++ ",";
      "    " ++ dq ++ "@context" ++ dq ++ ": " ++ dq ++ "http://schema.org/extensions" ++ dq ++ ",";
      "    themeColor: color,";
      "    summary: " ++ dq ++ "Jenkins Pipeline ${status}" ++ dq ++ ",";
      "    sections: [[";
      "      activityTitle: " ++ dq ++ "Jenkins Pipeline ${status}" ++ dq ++ ",";
      "      activitySubtitle: " ++ dq ++ "${env.JOB_NAME} #${env.BUILD_NUMBER}" ++ dq ++ ",";
      "      facts: [";
      "        [name: " ++ dq ++ "Status" ++ dq ++ ", value: status],";
      "        [name: " ++ dq ++ "Branch" ++ dq ++ ", value: " ++ dq ++ "${env.BRANCH_NAME}" ++ dq ++ "],";
      "        [name: " ++ dq ++ "Duration" ++ dq ++ ", value: " ++ dq ++ "${currentBuild.durationString}" ++ dq ++ "],";
      "        ${stageName ? " ++ dq ++ "[name: 'Stage', value: '${stageName}']," ++ dq ++ " : " ++ dq ++ dq ++ "}";
      "      ],";
      "      markdown: true";
      "    ]],";
      "    potentialAction: [[";
      "      " ++ dq ++ "@type" ++ dq ++ ": " ++ dq ++ "OpenUri" ++ dq ++ ",";
      "      name: " ++ dq ++ "View Build" ++ dq ++ ",";
      "      targets: [[";
      "        os: " ++ dq ++ "default" ++ dq ++ ",";
      "        uri: " ++ dq ++ "${env.BUILD_URL}" ++ dq;
      "      ]]";
      "    ]]";
      "  ]";
      "  ";
      "  sh " ++ dq ++ dq ++ dq;
      "    curl -X POST '" ++ webhook ++ "' " ++ bslash;
      "    -H 'Content-Type: application/json' " ++ bslash;
      "    -d '${groovy.json.JsonOutput.toJson(message)}'";
      "  " ++ dq ++ dq ++ dq;
      "}";
      EmptyString ].

Definition telegramRoutine (botToken chatId : option string) : string :=
  template
    [ EmptyString;
      "def sendTelegramNotification(status, stageName = '') {";
      "  def emoji = status == 'SUCCESS' ? '" ++ checkMark ++ "' : '" ++ crossMark ++ "'";
      "  def message = " ++ dq ++ dq ++ dq;
      "${emoji} *Jenkins Pipeline ${status}*";
      EmptyString;
      "*Job:* ${env.JOB_NAME}";
      "*Build:* #${env.BUILD_NUMBER}";
      "*Status:* ${status}";
      "*Branch:* ${env.BRANCH_NAME}";
      "${stageName ? " ++ dq ++ "*Stage:* ${stageName}" ++ dq ++ " : " ++ dq ++ dq ++ "}";
      "*Duration:* ${currentBuild.durationString}";
      EmptyString;
      "[View Build](${env.BUILD_URL})";
      "  " ++ dq ++ dq ++ dq;
      "  ";
      "  sh " ++ dq ++ dq ++ dq;
      "    curl -X POST 'https://api.telegram.org/bot" ++ interpolate botToken ++ "/sendMessage' " ++ bslash;
      "    -H 'Content-Type: application/json' " ++ bslash;
      "    -d '{";
      "      " ++ dq ++ "chat_id" ++ dq ++ ": " ++ dq ++ interpolate chatId ++ dq ++ ",";
      "      " ++ dq ++ "text" ++ dq ++ ": " ++ dq ++ "${message.replaceAll('" ++ dq ++ "', '" ++ bslash ++ bslash ++ dq ++ "')}" ++ dq ++ ",";
      "      " ++ dq ++ "parse_mode" ++ dq ++ ": " ++ dq ++ "Markdown" ++ dq ++ ",";
      "      " ++ dq ++ "disable_web_page_preview" ++ dq ++ ": true";
      "    }'";
      "  " ++ dq ++ dq ++ dq;
      "}";
      EmptyString ].

(** [parts[i]]: outside the array it reads [undefined]. *)
Definition at_index (parts : list string) (i : Z) : option string :=
  if i <? 0 then None else nth_error parts (Z.to_nat i).

Definition generateTelegramNotification (webhook : string) : string :=
  let parts := split "/" webhook in
  let botToken := at_index parts (Z.of_nat (List.length parts) - 2) in
  let chatId := at_index parts (Z.of_nat (List.length parts) - 1) in
  telegramRoutine botToken chatId.

(** One turn of the loop over the platforms: nothing without a webhook,
    nothing for a type the [switch] has no case for. *)
Definition platformNotification (platform : NotificationPlatform.t) : string :=
  if negb (truthy (NotificationPlatform.webhook platform)) then EmptyString
  else
    let webhook := interpolate (NotificationPlatform.webhook platform) in
    let type := NotificationPlatform.type platform in
    if String.eqb type "slack" then generateSlackNotification webhook
    else if String.eqb type "discord" then generateDiscordNotification webhook
    else if String.eqb type "teams" then generateTeamsNotification webhook
    else if String.eqb type "telegram" then generateTelegramNotification webhook
    else EmptyString.

Definition generateNotificationScript (config : NotificationConfig) : string :=
  fold_left (fun script platform => script ++ platformNotification platform)
            (platforms config)
            (generateEmailNotification (email config)).

Definition generatePostStageNotifications : string :=
  template
    [ EmptyString;
      "    post {";
      "      success {";
      "        script {";
      "            sendEmailNotification('SUCCESS')";
      "            try {sendSlackNotification('SUCCESS')} catch(e){}";
      "            try {sendDiscordNotification('SUCCESS')} catch(e){}";
      "            try {sendTeamsNotification('SUCCESS')} catch(e){}";
      "            try {sendTelegramNotification('SUCCESS')} catch(e){}";
      "        }";
      "      }";
      "      failure {";
      "        script {";
      "            sendEmailNotification('FAILURE')";
      "            try {sendSlackNotification('FAILURE')} catch(e){}";
      "            try {sendDiscordNotification('FAILURE')} catch(e){}";
      "            try {sendTeamsNotification('FAILURE')} catch(e){}";
      "            try {sendTelegramNotification('FAILURE')} catch(e){}";
      "        }";
      "      }";
      "      unstable {";
      "        script {";
      "            sendEmailNotification('UNSTABLE')";
      "            try {sendSlackNotification('UNSTABLE')} catch(e){}";
      "            try {sendDiscordNotification('UNSTABLE')} catch(e){}";
      "            try {sendTeamsNotification('UNSTABLE')} catch(e){}";
      "            try {sendTelegramNotification('UNSTABLE')} catch(e){}";
      "        }";
      "      }";
      "    }" ].


(** *** The lifecycle wrapper as a program

    The text of [generatePostStageNotifications] is a Groovy [post] block
    of three conditions, each a [script] block of five statements: a bare
    call of the email routine, then each channel routine called inside
    [try { ... } catch(e){}].  [postBlock] is that program; [renderPost]
    prints it back to the text of the source. *)

Inductive Routine := Email | Slack | Discord | Teams | Telegram.

Inductive Outcome := SUCCESS | FAILURE | UNSTABLE.

Inductive Statement :=
| Call (routine : Routine) (status : Outcome)
| TryCatch (body : Statement).

Definition routineName (r : Routine) : string :=
  match r with
  | Email => "sendEmailNotification"
  | Slack => "sendSlackNotification"
  | Discord => "sendDiscordNotification"
  | Teams => "sendTeamsNotification"
  | Telegram => "sendTelegramNotification"
  end.

Definition outcomeText (o : Outcome) : string :=
  match o with
  | SUCCESS => "SUCCESS"
  | FAILURE => "FAILURE"
  | UNSTABLE => "UNSTABLE"
  end.

Definition conditionName (o : Outcome) : string :=
  match o with
  | SUCCESS => "success"
  | FAILURE => "failure"
  | UNSTABLE => "unstable"
  end.

Definition channels : list Routine := [Slack; Discord; Teams; Telegram].

Definition scriptBlock (o : Outcome) : list Statement :=
  Call Email o :: map (fun r => TryCatch (Call r o)) channels.

Definition postBlock : list (Outcome * list Statement) :=
  map (fun o => (o, scriptBlock o)) [SUCCESS; FAILURE; UNSTABLE].

Fixpoint renderStatement (s : Statement) : string :=
  match s with
  | Call r o => routineName r ++ "('" ++ outcomeText o ++ "')"
  | TryCatch body => "try {" ++ renderStatement body ++ "} catch(e){}"
  end.

Definition renderCondition (section : Outcome * list Statement) : list string :=
  [ "      " ++ conditionName (fst section) ++ " {";
    "        script {" ] ++
  map (fun s => "            " ++ renderStatement s) (snd section) ++
  [ "        }";
    "      }" ].

Definition renderPost (sections : list (Outcome * list Statement)) : string :=
  template ([ EmptyString; "    post {" ] ++ flat_map renderCondition sections ++ [ "    }" ]).

(** Running a script block: a routine either completes or raises;
    [raises] says which.  An exception raised inside [try] is swallowed by
    the empty [catch]; one raised outside ends the block.  The result is
    the routines invoked, in order, and whether the block ran to its end. *)
Fixpoint runStatement (raises : Routine -> bool) (s : Statement) : list Routine * bool :=
  match s with
  | Call r _ => ([r], negb (raises r))
  | TryCatch body => (fst (runStatement raises body), true)
  end.

Fixpoint runBlock (raises : Routine -> bool) (block : list Statement) : list Routine * bool :=
  match block with
  | [] => ([], true)
  | s :: rest =>
      let (invoked, completed) := runStatement raises s in
      if completed
      then let (invoked', completed') := runBlock raises rest in
           (invoked ++ invoked', completed')%list
      else (invoked, false)
  end.

Definition invoked (raises : Routine -> bool) (o : Outcome) : list Routine :=
  fst (runBlock raises (scriptBlock o)).

Definition routine_eqb (a b : Routine) : bool :=
  match a, b with
  | Email, Email | Slack, Slack | Discord, Discord | Teams, Teams | Telegram, Telegram => true
  | _, _ => false
  end.

(** Only the routine [r] fails. *)
Definition onlyFails (r : Routine) : Routine -> bool := routine_eqb r.

End NotificationService.

(** ** Vocabulary of the specification *)

(** *** Text *)

(** A text with no line feed in it. *)
Definition SingleLine (s : string) : Prop := noNewline s = true.

(** [x] occurs in [s]. *)
Definition Occurs (x s : string) : Prop :=
  exists before after, s = before ++ x ++ after.

Definition EndsWith (s suffix : string) : Prop := exists body, s = body ++ suffix.

Fixpoint lastChar (s : string) : option ascii :=
  match s with
  | EmptyString => None
  | String c rest =>
      match lastChar rest with
      | None => Some c
      | found => found
      end
  end.

Definition countLines (p : string -> bool) (script : string) : nat :=
  List.length (filter p (lines script)).

(** *** Reading a template line by line

    [LinesOf elements ls]: the elements of a template, each a single line
    or a prefix followed by a nested template, spell the lines [ls]. *)
Inductive LinesOf : list string -> list string -> Prop :=
| LinesOf_nil : LinesOf [] []
| LinesOf_line (l : string) (rest ls : list string) :
    SingleLine l -> LinesOf rest ls -> LinesOf (l :: rest) (l :: ls)
| LinesOf_nest (a m : string) (ms rest inner ls : list string) :
    LinesOf ((a ++ m) :: ms) inner -> LinesOf rest ls ->
    LinesOf ((a ++ template (m :: ms)) :: rest) (inner ++ ls).

(** *** Record updates *)

Definition withDeploymentStrategy (s : DeploymentStrategy) (d : DeploymentConfig) : DeploymentConfig :=
  {| tier := tier d; autoScaling := autoScaling d;
     minInstances := minInstances d; maxInstances := maxInstances d;
     healthCheckPath := healthCheckPath d; port := port d;
     useLoadBalancer := useLoadBalancer d; loadBalancerUrl := loadBalancerUrl d;
     deploymentStrategy := s; environmentVariables := environmentVariables d |}.

Definition withAutoScaling (b : bool) (d : DeploymentConfig) : DeploymentConfig :=
  {| tier := tier d; autoScaling := b;
     minInstances := minInstances d; maxInstances := maxInstances d;
     healthCheckPath := healthCheckPath d; port := port d;
     useLoadBalancer := useLoadBalancer d; loadBalancerUrl := loadBalancerUrl d;
     deploymentStrategy := deploymentStrategy d; environmentVariables := environmentVariables d |}.

Definition withInstanceBounds (lo hi : option Z) (d : DeploymentConfig) : DeploymentConfig :=
  {| tier := tier d; autoScaling := autoScaling d;
     minInstances := lo; maxInstances := hi;
     healthCheckPath := healthCheckPath d; port := port d;
     useLoadBalancer := useLoadBalancer d; loadBalancerUrl := loadBalancerUrl d;
     deploymentStrategy := deploymentStrategy d; environmentVariables := environmentVariables d |}.

Definition withHealthCheckPath (path : string) (d : DeploymentConfig) : DeploymentConfig :=
  {| tier := tier d; autoScaling := autoScaling d;
     minInstances := minInstances d; maxInstances := maxInstances d;
     healthCheckPath := path; port := port d;
     useLoadBalancer := useLoadBalancer d; loadBalancerUrl := loadBalancerUrl d;
     deploymentStrategy := deploymentStrategy d; environmentVariables := environmentVariables d |}.

Definition withDeploymentConfig (d : DeploymentConfig) (c : CloudConfig) : CloudConfig :=
  {| provider := provider c; credentials := credentials c; region := region c;
     instanceType := instanceType c; deploymentConfig := d;
     managedServices := managedServices c |}.

Definition withCloud (c : CloudConfig) (config : CICDConfig) : CICDConfig :=
  {| project := project config; cloud := c;
     notifications := notifications config; jenkinsConfig := jenkinsConfig config |}.

Definition withProjectName (projectName' : string) (config : CICDConfig) : CICDConfig :=
  let p := project config in
  {| project :=
       {| projectName := projectName'; projectType := projectType p; language := language p;
          repository := repository p; branch := branch p;
          hasDockerfile := hasDockerfile p; dockerfilePath := dockerfilePath p;
          runTests := runTests p; testCommand := testCommand p; buildCommand := buildCommand p;
          requiresEnvFile := requiresEnvFile p; envFilePath := envFilePath p;
          externalServices := externalServices p |};
     cloud := cloud config;
     notifications := notifications config; jenkinsConfig := jenkinsConfig config |}.

(** *** Providers *)

Definition supportedProviders : list string := ["aws"; "azure"; "gcp"; "digitalocean"].

Definition supported (tag : string) : bool :=
  existsb (String.eqb tag) supportedProviders.

(** The text fields a deployment script splices in hold one line each. *)
Definition singleLineFields (config : CloudConfig) (dockerImageName : string) : Prop :=
  SingleLine dockerImageName /\
  SingleLine (region config) /\
  SingleLine (healthCheckPath (deploymentConfig config)) /\
  SingleLine (interpolate (loadBalancerUrl (deploymentConfig config))) /\
  SingleLine (interpolate (oidcRoleArn (credentials config))).

(** *** Authentication lines

    A static-credential line is a command that hands a long-lived secret
    to the provider's CLI; an OIDC line is one that hands it a federated
    token.  Both are recognised by how the command starts. *)
Definition staticCredentialCommands : list string :=
  [ "aws configure set aws_access_key_id ";
    "aws configure set aws_secret_access_key ";
    "-p ${AZURE_CLIENT_SECRET}";
    "gcloud auth activate-service-account --key-file=";
    "doctl auth init --access-token " ].

Definition oidcCommands : list string :=
  [ "$(aws sts assume-role-with-web-identity ";
    "--web-identity-token ";
    "--federated-token ";
    "echo ${GCP_OIDC_TOKEN} > oidc_token.txt";
    "gcloud auth login --cred-file=" ].

Definition isStaticCredentialLine (line : string) : bool :=
  existsb (startsWith (trimStart line)) staticCredentialCommands.

Definition isOidcLine (line : string) : bool :=
  existsb (startsWith (trimStart line)) oidcCommands.

Definition hasStaticCredentialLine (script : string) : bool :=
  existsb isStaticCredentialLine (lines script).

Definition hasOidcLine (script : string) : bool :=
  existsb isOidcLine (lines script).

(** The authentication mode each provider branch selects. *)
Definition selectsOidc (config : CloudConfig) : bool :=
  if String.eqb (provider config) "aws"
  then useOIDC (credentials config) && truthy (oidcRoleArn (credentials config))
  else if String.eqb (provider config) "digitalocean" then false
  else useOIDC (credentials config).

(** *** Strategy commands *)

Definition updateServiceCommand : string := "aws ecs update-service ".
Definition forceNewDeployment : string := " --force-new-deployment".
Definition canaryDesiredCount (minimum : Z) : string :=
  " --desired-count $(( " ++ showNumber minimum ++ " + 1 ))".

Definition isForcedDeployment (line : string) : bool :=
  startsWith (trimStart line) updateServiceCommand && endsWith line forceNewDeployment.

Definition isCanaryScaleUp (minimum : Z) (line : string) : bool :=
  startsWith (trimStart line) updateServiceCommand && endsWith line (canaryDesiredCount minimum).

(** The three [update-service] commands of the AWS script differ in how
    they end. *)
Definition updateServiceLine (dockerImageName ending : string) : string :=
  "            aws ecs update-service --cluster " ++ dockerImageName ++
  "-cluster --service " ++ dockerImageName ++
  "-service --task-definition " ++ dockerImageName ++ ending.

(** *** The reachable-URL block of a deployment script *)

(** The line that appends [DEPLOYED_URL=...] to the deployment-state file. *)
Definition stateFileLine : string :=
  "    echo " ++ dq ++ "DEPLOYED_URL=$DEPLOYED_URL" ++ dq ++ " >> deployment.env".

(** *** Telegram *)

Definition noSlash (s : string) : bool := lacks "/" s.

(** The URL the Telegram routine posts to, for a given bot token. *)
Definition botApiUrl (botToken : string) : string :=
  "https://api.telegram.org/bot" ++ botToken ++ "/sendMessage".

Definition chatIdField (chatId : string) : string :=
  dq ++ "chat_id" ++ dq ++ ": " ++ dq ++ chatId ++ dq.

(** *** Compose entries *)

(** The keys of the lookup table of [getServiceConfig]. *)
Definition knownProducts : list string :=
  ["postgresql"; "mongodb"; "redis"; "mysql"; "mariadb"; "rabbitmq"].

(** The external services the compose generator gives a container. *)
Definition infrastructureServices (config : CICDConfig) : list ExternalService.t :=
  filter ExternalService.requiresInfrastructure (externalServices (project config)).

(** The application entry of the compose manifest. *)
Definition appEntry (config : CICDConfig) : DockerComposeService.JsObject :=
  let portText := showNumber (port (deploymentConfig (cloud config))) in
  [ ("build", DockerComposeService.VString ".");
    ("ports", DockerComposeService.VArray [portText ++ ":" ++ portText]);
    ("env_file", DockerComposeService.VArray [".env"]);
    ("depends_on", DockerComposeService.VArray
       (map DockerComposeService.getServiceName (infrastructureServices config))) ].

(** The loop of [generateDockerCompose] over the external services. *)
Definition addServices (services : DockerComposeService.JsObject) (externals : list ExternalService.t) : DockerComposeService.JsObject :=
  fold_left
    (fun services service =>
       if ExternalService.requiresInfrastructure service
       then DockerComposeService.setProperty services (DockerComposeService.getServiceName service)
              (DockerComposeService.VObject (DockerComposeService.getServiceConfig service))
       else services)
    externals services.

(** No flagged external service takes the key of the application entry. *)
Definition appEntryKept (config : CICDConfig) : Prop :=
  forall s, In s (externalServices (project config)) ->
            ExternalService.requiresInfrastructure s = true ->
            DockerComposeService.getServiceName s <> "app".

(** ** Sample configurations *)

Definition sampleDeployment : DeploymentConfig :=
  {| tier := "production"; autoScaling := false;
     minInstances := Some 1; maxInstances := Some 1;
     healthCheckPath := "/healthz"; port := 8080;
     useLoadBalancer := false; loadBalancerUrl := None;
     deploymentStrategy := rolling; environmentVariables := [] |}.

Definition sampleCloud (tag : string) (c : Credentials) (d : DeploymentConfig) : CloudConfig :=
  {| provider := tag; credentials := c; region := "us-east-1";
     instanceType := "t3.micro"; deploymentConfig := d; managedServices := [] |}.

Definition awsKeys : Credentials :=
  AWS {| AWSCredentials.accessKeyId := Some "AKIAEXAMPLE";
         AWSCredentials.secretAccessKey := Some "secret";
         AWSCredentials.region := "us-east-1";
         AWSCredentials.useOIDC := false;
         AWSCredentials.oidcRoleArn := None |}.

Definition awsOidc (roleArn : option string) : Credentials :=
  AWS {| AWSCredentials.accessKeyId := None;
         AWSCredentials.secretAccessKey := None;
         AWSCredentials.region := "us-east-1";
         AWSCredentials.useOIDC := true;
         AWSCredentials.oidcRoleArn := roleArn |}.

Definition gcpKeys : Credentials :=
  GCP {| GCPCredentials.projectId := "shop-project";
         GCPCredentials.keyFile := Some "key.json";
         GCPCredentials.region := "us-east1";
         GCPCredentials.useOIDC := false |}.

Definition doToken : Credentials :=
  DO {| DOCredentials.apiToken := "token"; DOCredentials.region := "nyc" |}.

Definition sampleService (displayName product : string) (infrastructure : bool) : ExternalService.t :=
  {| ExternalService.type := "database";
     ExternalService.name := displayName;
     ExternalService.service := product;
     ExternalService.envVariables := [];
     ExternalService.connectionString := None;
     ExternalService.requiresInfrastructure := infrastructure |}.

Definition sampleProject (services : list ExternalService.t) : ProjectConfig :=
  {| projectName := "shop"; projectType := "backend"; language := "typescript";
     repository := "https://github.com/acme/shop.git"; branch := "main";
     hasDockerfile := true; dockerfilePath := Some "Dockerfile";
     runTests := true; testCommand := Some "npm test"; buildCommand := Some "npm run build";
     requiresEnvFile := false; envFilePath := None;
     externalServices := services |}.

Definition sampleNotifications (channels : list NotificationPlatform.t) : NotificationConfig :=
  {| email := "ops@example.com"; platforms := channels; webhookUrls := None |}.

Definition sampleJenkins : JenkinsConfig.t :=
  {| JenkinsConfig.agentLabel := "any"; JenkinsConfig.timeout := 60;
     JenkinsConfig.retryCount := 2; JenkinsConfig.environmentVariables := [] |}.

Definition sampleConfig (c : CloudConfig) (services : list ExternalService.t) : CICDConfig :=
  {| project := sampleProject services; cloud := c;
     notifications := sampleNotifications []; jenkinsConfig := sampleJenkins |}.

(** ** Vocabulary of the specification: expected text

    What the claims expect to read in the generated text, written out
    here line by line and compared with what the generators return. *)

(** *** A block of consecutive lines *)

Definition Contains (block ls : list string) : Prop :=
  exists before after, ls = (before ++ block ++ after)%list.

(** The place of the first line that starts with [start]. *)
Fixpoint position (start : string) (ls : list string) : nat :=
  match ls with
  | [] => O
  | l :: rest => if startsWith l start then O else S (position start rest)
  end.

(** *** Numbers as rendered *)

(** A count as the scripts render it: an absent bound and a bound of 0
    both give the fallback. *)
Definition countOr (bound : option Z) (fallback : Z) : Z :=
  match bound with
  | None => fallback
  | Some 0 => fallback
  | Some n => n
  end.

(** The integers JavaScript prints with all their decimal digits. *)
Definition printsInDecimal (n : Z) : Prop := - 10 ^ 21 < n < 10 ^ 21.

(** *** The strategy conditional of the AWS script

    A shell conditional that compares one text, the subject, with the
    candidate of each branch in turn and runs the commands of the first
    branch that matches, or else the fallback. *)
Record Branch := {
  candidate : string;
  commands : list string
}.

Record Conditional := {
  subject : string;
  branches : list Branch;
  fallback : list string
}.

Definition renderTest (keyword subject candidate : string) : string :=
  "        " ++ keyword ++ " [ " ++ dq ++ subject ++ dq ++ " == " ++ dq ++ candidate ++ dq
  ++ " ]; then".

Fixpoint renderBranches (keyword subject : string) (bs : list Branch) : list string :=
  match bs with
  | [] => []
  | b :: rest =>
      (renderTest keyword subject (candidate b) :: commands b
       ++ renderBranches "elif" subject rest)%list
  end.

Definition renderConditional (c : Conditional) : list string :=
  (renderBranches "if" (subject c) (branches c)
   ++ "        else" :: fallback c ++ ["        fi"])%list.

Fixpoint selected (subject : string) (bs : list Branch) (otherwise : list string) : list string :=
  match bs with
  | [] => otherwise
  | b :: rest =>
      if String.eqb subject (candidate b) then commands b else selected subject rest otherwise
  end.

(** The lines the shell runs. *)
Definition runs (c : Conditional) : list string :=
  selected (subject c) (branches c) (fallback c).

(** A line that does something: neither a comment nor an [echo]. *)
Definition isCommand (line : string) : bool :=
  negb (startsWith (trimStart line) "#") && negb (startsWith (trimStart line) "echo ").

Definition strategyConditional (strategy dockerImageName : string) (minimum : Z) : Conditional :=
  {| subject := strategy;
     branches :=
       [ {| candidate := "blue-green";
            commands :=
              [ "            echo " ++ dq ++ "Performing Blue-Green deployment..." ++ dq;
                "            # Simulating blue-green by creating/updating a 'green' version";
                updateServiceLine dockerImageName forceNewDeployment ] |};
         {| candidate := "canary";
            commands :=
              [ "            echo " ++ dq ++ "Performing Canary deployment (10% traffic)..." ++ dq;
                updateServiceLine dockerImageName (canaryDesiredCount minimum) ] |} ];
     fallback := [ updateServiceLine dockerImageName forceNewDeployment ] |}.

Definition isUpdateService (line : string) : bool :=
  startsWith (trimStart line) updateServiceCommand.

(** *** The reachable-URL block of a deployment script *)

(** A line that sets [DEPLOYED_URL]. *)
Definition assignsDeployedUrl (line : string) : bool :=
  startsWith (trimStart line) "export DEPLOYED_URL=".

(** The stable URL of a deployment: the load-balancer URL when the flag
    is set and the URL is a non-empty text. *)
Definition stableUrl (d : DeploymentConfig) : option string :=
  if useLoadBalancer d then
    match loadBalancerUrl d with
    | Some (String c rest) => Some (String c rest)
    | _ => None
    end
  else None.

(** The lines by which each provider finds the URL at run time. *)
Definition lookupLines (provider : string) (portText dockerImageName : string) : list string :=
  if String.eqb provider "aws" then
    [ "    TASK_ARN=$(aws ecs list-tasks --cluster " ++ dockerImageName
        ++ "-cluster --service-name " ++ dockerImageName
        ++ "-service --query 'taskArns[0]' --output text)";
      "    ENI_ID=$(aws ecs describe-tasks --cluster " ++ dockerImageName
        ++ "-cluster --tasks $TASK_ARN --query 'tasks[0].attachments[0].details[?name==`networkInterfaceId`].value' --output text)";
      "    PUBLIC_IP=$(aws ec2 describe-network-interfaces --network-interface-ids $ENI_ID --query 'NetworkInterfaces[0].Association.PublicIp' --output text)";
      "    export DEPLOYED_URL=" ++ dq ++ "http://$PUBLIC_IP:" ++ portText ++ dq ]
  else if String.eqb provider "azure" then
    [ "    export DEPLOYED_URL=" ++ dq ++ "http://" ++ dockerImageName
        ++ ".${AZURE_REGION}.azurecontainer.io:" ++ portText ++ dq ]
  else if String.eqb provider "gcp" then
    [ "    export DEPLOYED_URL=$(cat gcp_url.txt)" ]
  else
    [ "    export DEPLOYED_URL=$(doctl apps get $APP_ID --format DefaultIngress --no-header)" ].

(** The closing message of a deployment script. *)
Definition completedMessage (place : string) : string :=
  "    echo " ++ dq ++ "Deployment completed. Reachable at" ++ place ++ ": $DEPLOYED_URL" ++ dq.

(** The end of a deployment script: how [DEPLOYED_URL] is found, the line
    that appends it to [deployment.env], and the closing message. *)
Definition resolutionLines (config : CloudConfig) (dockerImageName : string) : list string :=
  match stableUrl (deploymentConfig config) with
  | Some url =>
      [ "    export DEPLOYED_URL=" ++ dq ++ url ++ dq;
        stateFileLine;
        completedMessage " Load Balancer" ]
  | None =>
      (lookupLines (provider config) (showNumber (port (deploymentConfig config))) dockerImageName
       ++ [ stateFileLine; completedMessage EmptyString ])%list
  end.

(** *** Entries of the compose manifest

    The text of an entry of [services], from the line break before its
    key to the one that ends its last line. *)
Definition postgresEntry (name : string) : string :=
  nl ++ template
          [ "  " ++ name ++ ":";
            "    image: " ++ dq ++ "postgres:latest" ++ dq;
            "    environment:";
            "      POSTGRES_USER: " ++ dq ++ "user" ++ dq;
            "      POSTGRES_PASSWORD: " ++ dq ++ "password" ++ dq;
            "      POSTGRES_DB: " ++ dq ++ "app_db" ++ dq;
            "    ports:";
            "      - " ++ dq ++ "5432:5432" ++ dq;
            EmptyString ].

Definition placeholderEntry (name : string) : string :=
  nl ++ template
          [ "  " ++ name ++ ":";
            "    image: " ++ dq ++ "alpine:latest" ++ dq;
            "    command: " ++ dq ++ "sleep infinity" ++ dq;
            EmptyString ].

(** The service is the only flagged one of its derived name, or the
    others of that name have the same product, letter case apart. *)
Definition nameNotContested (config : CICDConfig) (service : ExternalService.t) : Prop :=
  forall other,
    In other (externalServices (project config)) ->
    ExternalService.requiresInfrastructure other = true ->
    DockerComposeService.getServiceName other = DockerComposeService.getServiceName service ->
    DockerComposeService.toLowerCase (ExternalService.service other)
    = DockerComposeService.toLowerCase (ExternalService.service service).

(** *** Lines with places for configured values

    A generated text seen as lines in which some places are filled with
    configured values: each line is a sequence of fixed texts and named
    places, and the text is what results when every place is filled with
    the value of its name. *)
Inductive Piece (Slot : Type) :=
| Text (text : string)
| Place (slot : Slot).

Arguments Text {Slot} text.
Arguments Place {Slot} slot.

Definition fillPiece {Slot : Type} (value : Slot -> string) (p : Piece Slot) : string :=
  match p with
  | Text text => text
  | Place slot => value slot
  end.

Fixpoint fillLine {Slot : Type} (value : Slot -> string) (line : list (Piece Slot)) : string :=
  match line with
  | [] => EmptyString
  | p :: rest =>
      match rest with
      | [] => fillPiece value p
      | _ :: _ => fillPiece value p ++ fillLine value rest
      end
  end.

Definition isPlace {Slot : Type} (p : Piece Slot) : bool :=
  match p with
  | Text _ => false
  | Place _ => true
  end.

Definition hasPlace {Slot : Type} (line : list (Piece Slot)) : bool := existsb isPlace line.

(** A line with no place in it. *)
Definition plain {Slot : Type} (line : string) : list (Piece Slot) := [Text line].

(** *** Where the port, the health-check path and the artifact name go *)

Inductive Value := PortValue | PathValue | NameValue.

Definition configured (port : Z) (path dockerImageName : string) (v : Value) : string :=
  match v with
  | PortValue => showNumber port
  | PathValue => path
  | NameValue => dockerImageName
  end.

Definition withPort (port' : Z) (d : DeploymentConfig) : DeploymentConfig :=
  {| tier := tier d; autoScaling := autoScaling d;
     minInstances := minInstances d; maxInstances := maxInstances d;
     healthCheckPath := healthCheckPath d; port := port';
     useLoadBalancer := useLoadBalancer d; loadBalancerUrl := loadBalancerUrl d;
     deploymentStrategy := deploymentStrategy d; environmentVariables := environmentVariables d |}.

(** The three [update-service] lines of the AWS script. *)
Definition updateServicePlaces (ending : string) : list (Piece Value) :=
  [ Text "            aws ecs update-service --cluster "; Place NameValue;
    Text "-cluster --service "; Place NameValue;
    Text "-service --task-definition "; Place NameValue; Text ending ].

Definition awsScriptPlaces (d : DeploymentConfig) : list (list (Piece Value)) :=
  ([ [ Text "    aws ecs create-cluster --cluster-name "; Place NameValue; Text "-cluster || true" ];
     [ Text ("        " ++ dq ++ "family" ++ dq ++ ": " ++ dq); Place NameValue; Text (dq ++ ",") ];
     [ Text ("            " ++ dq ++ "name" ++ dq ++ ": " ++ dq); Place NameValue; Text (dq ++ ",") ];
     [ Text ("                    " ++ dq ++ "containerPort" ++ dq ++ ": "); Place PortValue; Text "," ];
     [ Text ("                    " ++ dq ++ "awslogs-group" ++ dq ++ ": " ++ dq ++ "/ecs/");
       Place NameValue; Text (dq ++ ",") ];
     [ Text ("            " ++ dq ++ "command" ++ dq ++ ": [" ++ dq ++ "CMD-SHELL" ++ dq ++ ", " ++ dq
             ++ "curl -f http://localhost:");
       Place PortValue; Place PathValue; Text (" || exit 1" ++ dq ++ "],") ];
     [ Text "    SERVICE_EXISTS=$(aws ecs describe-services --cluster "; Place NameValue;
       Text "-cluster --services "; Place NameValue;
       Text ("-service --query 'services[0].status' --output text || echo " ++ dq ++ "MISSING"
             ++ dq ++ ")") ];
     [ Text "            --cluster "; Place NameValue; Text ("-cluster " ++ bslash) ];
     [ Text "            --service-name "; Place NameValue; Text ("-service " ++ bslash) ];
     [ Text "            --task-definition "; Place NameValue; Text (" " ++ bslash) ];
     updateServicePlaces forceNewDeployment;
     updateServicePlaces (canaryDesiredCount (countOr (minInstances d) 1));
     updateServicePlaces forceNewDeployment ]
   ++ match stableUrl d with
      | Some _ => []
      | None =>
          [ [ Text "    TASK_ARN=$(aws ecs list-tasks --cluster "; Place NameValue;
              Text "-cluster --service-name "; Place NameValue;
              Text "-service --query 'taskArns[0]' --output text)" ];
            [ Text "    ENI_ID=$(aws ecs describe-tasks --cluster "; Place NameValue;
              Text "-cluster --tasks $TASK_ARN --query 'tasks[0].attachments[0].details[?name==`networkInterfaceId`].value' --output text)" ];
            [ Text ("    export DEPLOYED_URL=" ++ dq ++ "http://$PUBLIC_IP:"); Place PortValue;
              Text dq ] ]
      end)%list.

Definition azureScriptPlaces (d : DeploymentConfig) : list (list (Piece Value)) :=
  ([ [ Text "        --name "; Place NameValue; Text (" " ++ bslash) ];
     [ Text "        --dns-name-label "; Place NameValue; Text (" " ++ bslash) ];
     [ Text "        --ports "; Place PortValue; Text (" " ++ bslash) ] ]
   ++ match stableUrl d with
      | Some _ => []
      | None =>
          [ [ Text ("    export DEPLOYED_URL=" ++ dq ++ "http://"); Place NameValue;
              Text ".${AZURE_REGION}.azurecontainer.io:"; Place PortValue; Text dq ] ]
      end)%list.

Definition gcpScriptPlaces : list (list (Piece Value)) :=
  [ [ Text "    gcloud run deploy "; Place NameValue; Text (" " ++ bslash) ];
    [ Text "        --port "; Place PortValue; Text (" " ++ bslash) ] ].

Definition doScriptPlaces : list (list (Piece Value)) :=
  [ [ Text "    name: "; Place NameValue ];
    [ Text "        - name: "; Place NameValue ];
    [ Text "          http_port: "; Place PortValue ];
    [ Text "            http_path: "; Place PathValue ] ].

(** The lines of the deployment script of a configuration that hold the
    port, the health-check path or the artifact name, in their order. *)
Definition scriptPlaces (config : CloudConfig) : list (list (Piece Value)) :=
  if String.eqb (provider config) "aws" then awsScriptPlaces (deploymentConfig config)
  else if String.eqb (provider config) "azure" then azureScriptPlaces (deploymentConfig config)
  else if String.eqb (provider config) "gcp" then gcpScriptPlaces
  else doScriptPlaces.

(** The same for the Terraform manifest. *)
Definition manifestPlaces (config : CloudConfig) : list (list (Piece Value)) :=
  if String.eqb (provider config) "aws" then
    [ [ Text ("  name = " ++ dq); Place NameValue; Text ("-cluster" ++ dq) ];
      [ Text ("  name = " ++ dq); Place NameValue; Text ("-task-exec-role" ++ dq) ] ]
  else if String.eqb (provider config) "azure" then
    [ [ Text ("  name                = " ++ dq); Place NameValue; Text dq ];
      [ Text ("  dns_name_label      = " ++ dq); Place NameValue; Text dq ];
      [ Text ("    name   = " ++ dq); Place NameValue; Text dq ];
      [ Text "      port     = "; Place PortValue ] ]
  else if String.eqb (provider config) "gcp" then
    [ [ Text ("  name     = " ++ dq); Place NameValue; Text dq ];
      [ Text "          container_port = "; Place PortValue ] ]
  else
    [ [ Text ("    name   = " ++ dq); Place NameValue; Text dq ];
      [ Text ("      name               = " ++ dq); Place NameValue; Text dq ];
      [ Text "      http_port = "; Place PortValue ];
      [ Text ("        http_path = " ++ dq); Place PathValue; Text dq ] ].

(** The one line of the compose manifest that holds the port. *)
Definition composePortLine : list (Piece Value) :=
  [ Text ("      - " ++ dq); Place PortValue; Text ":"; Place PortValue; Text dq ].

(** *** Instance counts

    The counts an artifact renders: the configured minimum, or 1 or 0
    where it is absent or 0, and the configured maximum, or 1. *)
Inductive Count := MinimumOrOne | MinimumOrZero | MaximumOrOne.

Definition count (lo hi : option Z) (c : Count) : Z :=
  match c with
  | MinimumOrOne => countOr lo 1
  | MinimumOrZero => countOr lo 0
  | MaximumOrOne => countOr hi 1
  end.

Definition counted (lo hi : option Z) (c : Count) : string := showNumber (count lo hi c).

(** The lines of the deployment script that hold an instance count. *)
Definition scriptCountPlaces (config : CloudConfig) (dockerImageName : string)
  : list (list (Piece Count)) :=
  if String.eqb (provider config) "aws" then
    [ [ Text "            --desired-count "; Place MinimumOrOne; Text (" " ++ bslash) ];
      [ Text "            aws ecs update-service --cluster "; Text dockerImageName;
        Text "-cluster --service "; Text dockerImageName;
        Text "-service --task-definition "; Text dockerImageName;
        Text " --desired-count $(( "; Place MinimumOrOne; Text " + 1 ))" ] ]
  else if String.eqb (provider config) "azure" then []
  else if String.eqb (provider config) "gcp" then
    [ [ Text "        --min-instances "; Place MinimumOrZero; Text (" " ++ bslash) ];
      [ Text "        --max-instances "; Place MaximumOrOne; Text (" " ++ bslash) ] ]
  else
    [ [ Text "          instance_count: "; Place MinimumOrOne ] ].

(** The same for the Terraform manifest. *)
Definition manifestCountPlaces (config : CloudConfig) : list (list (Piece Count)) :=
  if String.eqb (provider config) "digitalocean" then
    [ [ Text "      instance_count     = "; Place MinimumOrOne ] ]
  else [].

(** ** Regular expressions

    The patterns of the validation service use character classes,
    literals, sequence, [?], [+] and alternation, and are anchored at
    both ends; [test] on such a pattern tells whether the whole text is
    in its language, which the derivative of the pattern decides. *)

Inductive Regex :=
| Never
| Empty
| Class (member : ascii -> bool)
| Seq (a b : Regex)
| Alt (a b : Regex)
| Star (a : Regex).

(** [r?] and [r+]. *)
Definition Opt (r : Regex) : Regex := Alt r Empty.
Definition Plus (r : Regex) : Regex := Seq r (Star r).

Fixpoint literal (s : string) : Regex :=
  match s with
  | EmptyString => Empty
  | String c rest => Seq (Class (Ascii.eqb c)) (literal rest)
  end.

Definition sequence (rs : list Regex) : Regex := fold_right Seq Empty rs.

Fixpoint nullable (r : Regex) : bool :=
  match r with
  | Never => false
  | Empty => true
  | Class _ => false
  | Seq a b => nullable a && nullable b
  | Alt a b => nullable a || nullable b
  | Star _ => true
  end.

Fixpoint derivative (c : ascii) (r : Regex) : Regex :=
  match r with
  | Never => Never
  | Empty => Never
  | Class member => if member c then Empty else Never
  | Seq a b =>
      if nullable a
      then Alt (Seq (derivative c a) b) (derivative c b)
      else Seq (derivative c a) b
  | Alt a b => Alt (derivative c a) (derivative c b)
  | Star a => Seq (derivative c a) (Star a)
  end.

(** [/^r$/.test(s)]. *)
Fixpoint fullMatch (r : Regex) (s : string) : bool :=
  match s with
  | EmptyString => nullable r
  | String c rest => fullMatch (derivative c r) rest
  end.

(** ** ValidationService (validation.service.ts) *)

Module ValidationService.

(** The names an object literal inherits from [Object.prototype]: looked
    up as keys of a table they are found, though the table does not list
    them. *)
Definition objectPrototypeMembers : list string :=
  [ "constructor"; "__defineGetter__"; "__defineSetter__"; "hasOwnProperty";
    "__lookupGetter__"; "__lookupSetter__"; "isPrototypeOf"; "propertyIsEnumerable";
    "toString"; "valueOf"; "__proto__"; "toLocaleString" ].

(** What [table[key]] reads on an object literal that holds arrays of
    strings. *)
Inductive TableEntry :=
| Own (items : list string)
| Inherited
| Undefined.

Fixpoint ownEntry (table : list (string * list string)) (key : string) : option (list string) :=
  match table with
  | [] => None
  | (k, items) :: rest => if String.eqb k key then Some items else ownEntry rest key
  end.

Definition tableEntry (table : list (string * list string)) (key : string) : TableEntry :=
  match ownEntry table key with
  | Some items => Own items
  | None => if existsb (String.eqb key) objectPrototypeMembers then Inherited else Undefined
  end.

(** [\w]: a letter, a digit or the underscore. *)
Definition wordChar (c : ascii) : bool :=
  let n := N_of_ascii c in
  (((48 <=? n) && (n <=? 57)) || ((65 <=? n) && (n <=? 90))
   || ((97 <=? n) && (n <=? 122)) || (n =? 95))%N.

(** [[\w\.-]], [[\w-]] and [[:\/]]. *)
Definition wordDotDash (c : ascii) : bool :=
  wordChar c || Ascii.eqb c "." || Ascii.eqb c "-".
Definition wordDash (c : ascii) : bool := wordChar c || Ascii.eqb c "-".
Definition colonOrSlash (c : ascii) : bool := Ascii.eqb c ":" || Ascii.eqb c "/".

(** [/^(https?:\/\/|git@)?([\w\.-]+)([:\/])([\w\.-]+)\/([\w\.-]+)(\.git)?$/] *)
Definition gitUrlPattern : Regex :=
  sequence
    [ Opt (Alt (sequence [literal "http"; Opt (literal "s"); literal "://"])
               (literal "git@"));
      Plus (Class wordDotDash);
      Class colonOrSlash;
      Plus (Class wordDotDash);
      literal "/";
      Plus (Class wordDotDash);
      Opt (literal ".git") ].

(** [/^https?:\/\/github\.com\/[\w-]+\/[\w-]+(\.git)?$/] *)
Definition githubPattern : Regex :=
  sequence
    [ literal "http"; Opt (literal "s"); literal "://github.com/";
      Plus (Class wordDash); literal "/"; Plus (Class wordDash);
      Opt (literal ".git") ].

(** [/^https?:\/\/gitlab\.com\/[\w-]+\/[\w-]+(\.git)?$/] *)
Definition gitlabPattern : Regex :=
  sequence
    [ literal "http"; Opt (literal "s"); literal "://gitlab.com/";
      Plus (Class wordDash); literal "/"; Plus (Class wordDash);
      Opt (literal ".git") ].

(** [/^https?:\/\/bitbucket\.org\/[\w-]+\/[\w-]+(\.git)?$/] *)
Definition bitbucketPattern : Regex :=
  sequence
    [ literal "http"; Opt (literal "s"); literal "://bitbucket.org/";
      Plus (Class wordDash); literal "/"; Plus (Class wordDash);
      Opt (literal ".git") ].

Definition validateGitRepository (repoUrl : string) : bool :=
  fullMatch gitUrlPattern repoUrl
  || fullMatch githubPattern repoUrl
  || fullMatch gitlabPattern repoUrl
  || fullMatch bitbucketPattern repoUrl.

Definition validatePort (port : Z) : bool := (1 <=? port) && (port <=? 65535).

Definition validTypes : list (string * list string) :=
  [ ("aws", [ "t2.micro"; "t2.small"; "t2.medium"; "t3.micro"; "t3.small"; "t3.medium";
              "m5.large"; "m5.xlarge" ]);
    ("azure", [ "Standard_B1s"; "Standard_B2s"; "Standard_D2s_v3"; "Standard_D4s_v3" ]);
    ("gcp", [ "e2-micro"; "e2-small"; "e2-medium"; "n1-standard-1"; "n1-standard-2" ]);
    ("digitalocean", [ "s-1vcpu-1gb"; "s-2vcpu-2gb"; "s-2vcpu-4gb"; "s-4vcpu-8gb" ]) ].

(** [validTypes[provider]?.includes(instanceType) || false]: the optional
    chain stops at an undefined entry only; an inherited member has no
    [includes], and calling it is a [TypeError]. *)
Definition validateInstanceType (provider instanceType : string) : Completion bool :=
  match tableEntry validTypes provider with
  | Own items => Return (existsb (String.eqb instanceType) items)
  | Inherited => Throw "validTypes[provider]?.includes is not a function"
  | Undefined => Return false
  end.

Definition requiredFiles : list (string * list string) :=
  [ ("javascript", ["package.json"]);
    ("typescript", ["package.json"; "tsconfig.json"]) ].

(** The loop of [validateProjectStructure] over the required files;
    [existsSync] tells which files of the working directory exist. *)
Fixpoint requireFiles (existsSync : string -> bool) (files : list string) : Completion bool :=
  match files with
  | [] => Return true
  | file :: rest =>
      if existsSync file then requireFiles existsSync rest
      else Throw ("Required file not found:" ++ file)
  end.

(** [requiredFiles[language] || []]; an inherited member is truthy and
    cannot be iterated. *)
Definition validateProjectStructure (existsSync : string -> bool)
           (projectType language : string) : Completion bool :=
  match tableEntry requiredFiles language with
  | Own files => requireFiles existsSync files
  | Inherited => Throw "files is not iterable"
  | Undefined => requireFiles existsSync []
  end.

(** [validateDockerfile], over the file system as the partial map
    [readFile] from the paths of the working directory to file contents.
    Both errors raised inside the [try] are caught and raised anew with
    the prefix. *)
Definition validateDockerfile (readFile : string -> option string)
           (dockerfilePath : string) : Completion bool :=
  let attempt :=
    match readFile dockerfilePath with
    | None => Throw ("Dockerfile not found at:" ++ dockerfilePath)
    | Some content =>
        if negb (includes content "FROM")
        then Throw "Invalid Dockerfile: missing FROM instruction"
        else Return true
    end in
  match attempt with
  | Return value => Return value
  | Throw message => Throw ("Dockerfile validation failed:" ++ message)
  end.

End ValidationService.

(** ** PromptService (prompt.service.ts) *)

Module PromptService.

(** [consolidateEnvironmentVariables]: one object keyed by the names of
    the environment variables of every external service, each holding the
    description of the variable. *)
Definition consolidateEnvironmentVariables (projectConfig : ProjectConfig)
           (externalServices : list ExternalService.t) : DockerComposeService.JsObject :=
  fold_left
    (fun envVars service =>
       fold_left
         (fun envVars envVar =>
            DockerComposeService.setProperty envVars (key envVar)
              (DockerComposeService.VString (description envVar)))
         (ExternalService.envVariables service) envVars)
    externalServices [].

(** The instance types [collectDeploymentConfig] offers for a provider. *)
Definition instanceChoices : list (string * list string) :=
  [ ("aws", ["t2.micro"; "t2.small"; "t2.medium"; "t3.micro"; "t3.small"]);
    ("azure", ["Standard_B1s"; "Standard_B2s"; "Standard_D2s_v3"]);
    ("gcp", ["e2-micro"; "e2-small"; "e2-medium"; "n1-standard-1"]);
    ("digitalocean", ["s-1vcpu-1gb"; "s-2vcpu-2gb"; "s-2vcpu-4gb"]) ].

(** The products [configureDatabaseService], [configureCacheService] and
    [configureQueueService] offer; the services they return are flagged
    [requiresInfrastructure]. *)
Definition databaseChoices : list string :=
  [ "postgresql"; "mongodb"; "mysql"; "mariadb"; "redis"; "dynamodb"; "cosmosdb" ].
Definition cacheChoices : list string := [ "redis"; "memcached"; "elasticache" ].
Definition queueChoices : list string :=
  [ "rabbitmq"; "kafka"; "sqs"; "redis"; "azure-service-bus" ].

End PromptService.

(** ** CICDGeneratorService (cicd-generator.service.ts) *)

Module CICDGeneratorService.

Definition entriesToAdd : list string :=
  [ "# Environment variables"; ".env"; ".env.local"; ".env.*.local" ].

(** [updateRootGitignore], as a function of the [.gitignore] of the
    project directory ([None]: no such file) to what it is afterwards.
    The entries the content does not include are appended; nothing is
    written when it includes them all. *)
Definition updateRootGitignore (gitignore : option string) : option string :=
  let gitignoreContent :=
    match gitignore with
    | Some content => content
    | None => EmptyString
    end in
  let newEntries := filter (fun entry => negb (includes gitignoreContent entry)) entriesToAdd in
  match newEntries with
  | [] => gitignore
  | _ :: _ =>
      let separator :=
        match gitignoreContent with
        | EmptyString => EmptyString
        | String _ _ => nl ++ nl
        end in
      Some (gitignoreContent ++ separator ++ String.concat nl newEntries ++ nl)
  end.

End CICDGeneratorService.

(** ** Vocabulary of the further properties *)

(** *** Objects used as maps *)

Definition keys (o : DockerComposeService.JsObject) : list string := map fst o.

(** A run of assignments [o[k] = v], in order. *)
Definition assign (o : DockerComposeService.JsObject)
           (writes : list (string * DockerComposeService.JsValue)) : DockerComposeService.JsObject :=
  fold_left (fun o w => DockerComposeService.setProperty o (fst w) (snd w)) writes o.

(** The assignments of the loop of [generateDockerCompose]. *)
Definition serviceWrites (externals : list ExternalService.t)
  : list (string * DockerComposeService.JsValue) :=
  map (fun s => (DockerComposeService.getServiceName s,
                 DockerComposeService.VObject (DockerComposeService.getServiceConfig s)))
      (filter ExternalService.requiresInfrastructure externals).

(** The environment variables of all the external services, in order. *)
Definition declaredVariables (externals : list ExternalService.t) : list EnvVariable :=
  flat_map ExternalService.envVariables externals.

(** The assignments of the loops of [consolidateEnvironmentVariables]. *)
Definition variableWrites (externals : list ExternalService.t)
  : list (string * DockerComposeService.JsValue) :=
  map (fun v => (key v, DockerComposeService.VString (description v)))
      (declaredVariables externals).

(** *** Characters of a derived service name *)

Fixpoint allChars (p : ascii -> bool) (s : string) : bool :=
  match s with
  | EmptyString => true
  | String c rest => p c && allChars p rest
  end.

Definition isAscii (c : ascii) : bool := (N_of_ascii c <? 128)%N.

Definition isUpperCase (c : ascii) : bool :=
  let n := N_of_ascii c in ((65 <=? n) && (n <=? 90))%N.

(** Neither white space nor an upper-case letter. *)
Definition isNameChar (c : ascii) : bool :=
  negb (DockerComposeService.isWhitespace c) && negb (isUpperCase c).

(** *** Values whose keys and strings hold no line break *)

Fixpoint singleLineValue (v : DockerComposeService.JsValue) : bool :=
  match v with
  | DockerComposeService.VString s => noNewline s
  | DockerComposeService.VArray items => forallb noNewline items
  | DockerComposeService.VObject properties =>
      (fix each (ps : list (string * DockerComposeService.JsValue)) : bool :=
         match ps with
         | [] => true
         | (k, v) :: rest => noNewline k && singleLineValue v && each rest
         end) properties
  end.

(** The text of a list of lines, each closed by a line break. *)
Definition unlines (ls : list string) : string :=
  String.concat EmptyString (map (fun l => l ++ nl) ls).

(** A line that starts with [n] spaces and holds no line break. *)
Definition indentedLine (n : nat) (line : string) : Prop :=
  SingleLine line /\ exists rest, line = DockerComposeService.repeat_space n ++ rest.

(** *** Routines of the notification script *)

(** A line that opens the definition of the routine [r]. *)
Definition definesRoutine (r : NotificationService.Routine) (line : string) : bool :=
  startsWith (trimStart line) ("def " ++ NotificationService.routineName r ++ "(").

(** The routine a platform makes the script define, if any. *)
Definition configuredRoutine (platform : NotificationPlatform.t)
  : option NotificationService.Routine :=
  if truthy (NotificationPlatform.webhook platform) then
    let type := NotificationPlatform.type platform in
    if String.eqb type "slack" then Some NotificationService.Slack
    else if String.eqb type "discord" then Some NotificationService.Discord
    else if String.eqb type "teams" then Some NotificationService.Teams
    else if String.eqb type "telegram" then Some NotificationService.Telegram
    else None
  else None.

Definition configures (r : NotificationService.Routine) (platform : NotificationPlatform.t) : bool :=
  match configuredRoutine platform with
  | Some r' => NotificationService.routine_eqb r r'
  | None => false
  end.

Definition isConfigured (platform : NotificationPlatform.t) : bool :=
  match configuredRoutine platform with
  | Some _ => true
  | None => false
  end.

Definition withPlatforms (ps : list NotificationPlatform.t) (config : NotificationConfig)
  : NotificationConfig :=
  {| email := email config; platforms := ps; webhookUrls := webhookUrls config |}.

Definition singleLineWebhooks (config : NotificationConfig) : Prop :=
  forall platform webhook,
    In platform (platforms config) ->
    NotificationPlatform.webhook platform = Some webhook -> SingleLine webhook.

(** *** Credential variables of a deployment script *)

(** The text up to the first [stop], and what follows it. *)
Fixpoint takeUntil (stop : ascii) (s : string) : option (string * string) :=
  match s with
  | EmptyString => None
  | String c rest =>
      if Ascii.eqb c stop then Some (EmptyString, rest)
      else match takeUntil stop rest with
           | Some (taken, after) => Some (String c taken, after)
           | None => None
           end
  end.

(** The names [NAME] of the shell expansions [${NAME}] of a line. *)
Fixpoint referencedVariables (s : string) : list string :=
  match s with
  | EmptyString => []
  | String c rest =>
      (if Ascii.eqb c "$" then
         match rest with
         | String "{" body =>
             match takeUntil "}" body with
             | Some (name, _) => [name]
             | None => []
             end
         | _ => []
         end
       else []) ++ referencedVariables rest
  end.

(** The variables the authentication lines of a script read. *)
Definition credentialReads (script : string) : list string :=
  flat_map referencedVariables
           (filter (fun line => isStaticCredentialLine line || isOidcLine line) (lines script)).

(** The environment block binds [name] to a Jenkins credential. *)
Definition bindsCredential (environment name : string) : bool :=
  existsb (fun line => startsWith (trimStart line) (name ++ " = credentials("))
          (lines environment).

(** The authentication mode the environment block is written for. *)
Definition environmentOidc (config : CloudConfig) : bool :=
  if String.eqb (provider config) "digitalocean" then false
  else useOIDC (credentials config).

(** *** The settings the generators splice into their text *)

Definition renderedCredentials (c : Credentials) : bool * option string * option string :=
  (useOIDC c, oidcRoleArn c, CloudProviderService.credentialsRegion c).

Definition renderedDeployment (d : DeploymentConfig)
  : bool * option Z * option Z * string * Z * bool * option string * DeploymentStrategy :=
  (autoScaling d, minInstances d, maxInstances d, healthCheckPath d, port d,
   useLoadBalancer d, loadBalancerUrl d, deploymentStrategy d).

Definition withLoadBalancer (flag : bool) (url : option string) (d : DeploymentConfig)
  : DeploymentConfig :=
  {| tier := tier d; autoScaling := autoScaling d;
     minInstances := minInstances d; maxInstances := maxInstances d;
     healthCheckPath := healthCheckPath d; port := port d;
     useLoadBalancer := flag; loadBalancerUrl := url;
     deploymentStrategy := deploymentStrategy d; environmentVariables := environmentVariables d |}.

(** *** The language of a pattern *)

Inductive Matches : Regex -> string -> Prop :=
| MatchesEmpty : Matches Empty EmptyString
| MatchesClass (member : ascii -> bool) (c : ascii) :
    member c = true -> Matches (Class member) (String c EmptyString)
| MatchesSeq (a b : Regex) (s t : string) :
    Matches a s -> Matches b t -> Matches (Seq a b) (s ++ t)
| MatchesAltLeft (a b : Regex) (s : string) : Matches a s -> Matches (Alt a b) s
| MatchesAltRight (a b : Regex) (s : string) : Matches b s -> Matches (Alt a b) s
| MatchesStarNil (a : Regex) : Matches (Star a) EmptyString
| MatchesStarCons (a : Regex) (s t : string) :
    Matches a s -> Matches (Star a) t -> Matches (Star a) (s ++ t).

Definition allAscii : list ascii := map ascii_of_nat (seq 0 256).

(** Every character class of the pattern lies within [allowed]. *)
Fixpoint alphabetWithin (allowed : ascii -> bool) (r : Regex) : bool :=
  match r with
  | Never | Empty => true
  | Class member => forallb (fun c => implb (member c) (allowed c)) allAscii
  | Seq a b | Alt a b => alphabetWithin allowed a && alphabetWithin allowed b
  | Star a => alphabetWithin allowed a
  end.

(** The characters of an accepted repository URL: letters, digits and
    [_ . - : / @]. *)
Definition urlChar (c : ascii) : bool :=
  ValidationService.wordChar c
  || existsb (Ascii.eqb c) [ "."; "-"; ":"; "/"; "@" ]%char.

(** * Properties *)

(** ** Text *)

Lemma append_nil_r (s : string) : s ++ EmptyString = s.
Proof. induction s as [|c s IH]; simpl; [reflexivity | now rewrite IH]. Qed.

Lemma append_assoc (a b c : string) : (a ++ b) ++ c = a ++ b ++ c.
Proof. induction a as [|x a IH]; simpl; [reflexivity | now rewrite IH]. Qed.

Lemma lacks_app (sep : ascii) (a b : string) :
  lacks sep (a ++ b) = lacks sep a && lacks sep b.
Proof.
  induction a as [|c a IH]; simpl; [reflexivity|].
  rewrite IH. now rewrite andb_assoc.
Qed.

Lemma noNewline_app (a b : string) :
  noNewline (a ++ b) = noNewline a && noNewline b.
Proof. apply lacks_app. Qed.

Lemma SingleLine_app (a b : string) :
  SingleLine a -> SingleLine b -> SingleLine (a ++ b).
Proof.
  unfold SingleLine. intros Ha Hb. rewrite noNewline_app, Ha, Hb. reflexivity.
Qed.

Lemma SingleLine_uint (d : Decimal.uint) : SingleLine (NilEmpty.string_of_uint d).
Proof. unfold SingleLine, noNewline. induction d; simpl; auto. Qed.

Lemma SingleLine_showNumber (n : Z) : SingleLine (showNumber n).
Proof.
  unfold showNumber, NilZero.string_of_int, NilZero.string_of_uint.
  destruct (Z.to_int n) as [d|d].
  - destruct d; try reflexivity; apply (SingleLine_uint (_ d)).
  - apply (SingleLine_app "-"); [reflexivity|].
    destruct d; try reflexivity; apply (SingleLine_uint (_ d)).
Qed.

Lemma SingleLine_strategyText (s : DeploymentStrategy) : SingleLine (strategyText s).
Proof. destruct s; reflexivity. Qed.

(** [split] never returns the empty list. *)
Lemma split_cons (sep : ascii) (s : string) :
  exists part parts, split sep s = part :: parts.
Proof.
  induction s as [|c s (p & ps & IH)]; simpl; [now eauto|].
  destruct (Ascii.eqb c sep); [now eauto|]. rewrite IH. eauto.
Qed.

Lemma split_app_sep (sep : ascii) (a b : string) :
  split sep (a ++ String sep b) = (split sep a ++ split sep b)%list.
Proof.
  induction a as [|c a IH]; simpl.
  - now rewrite Ascii.eqb_refl.
  - destruct (Ascii.eqb c sep); [now rewrite IH|].
    rewrite IH. destruct (split_cons sep a) as (p & ps & ->). reflexivity.
Qed.

Lemma split_single (sep : ascii) (s : string) :
  lacks sep s = true -> split sep s = [s].
Proof.
  induction s as [|c s IH]; simpl; [reflexivity|].
  destruct (Ascii.eqb c sep); simpl; [discriminate|].
  intros H. now rewrite (IH H).
Qed.

Lemma lines_single (s : string) : SingleLine s -> lines s = [s].
Proof. apply split_single. Qed.

Lemma lines_app_nl (a b : string) : lines (a ++ nl ++ b) = (lines a ++ lines b)%list.
Proof. apply split_app_sep. Qed.

(** The lines of a template are the lines of its elements. *)
Lemma lines_template (l : string) (ls : list string) :
  lines (template (l :: ls)) = flat_map lines (l :: ls).
Proof.
  revert l. induction ls as [|l' ls IH]; intros l.
  - simpl. now rewrite app_nil_r.
  - change (template (l :: l' :: ls)) with (l ++ nl ++ template (l' :: ls)).
    rewrite lines_app_nl, IH. reflexivity.
Qed.

Lemma template_prefix (a l : string) (ls : list string) :
  a ++ template (l :: ls) = template ((a ++ l) :: ls).
Proof.
  destruct ls as [|l' ls]; [reflexivity|].
  change (template (l :: l' :: ls)) with (l ++ nl ++ template (l' :: ls)).
  change (template ((a ++ l) :: l' :: ls)) with ((a ++ l) ++ nl ++ template (l' :: ls)).
  now rewrite append_assoc.
Qed.

Lemma In_lines_template (l : string) (ls : list string) :
  In l ls -> SingleLine l -> In l (lines (template ls)).
Proof.
  intros Hin Hl. destruct ls as [|l0 ls]; [contradiction|].
  rewrite lines_template. apply in_flat_map. exists l. split; [exact Hin|].
  rewrite (lines_single l Hl). now left.
Qed.

Lemma Occurs_refl (x : string) : Occurs x x.
Proof. exists EmptyString, EmptyString. now rewrite append_nil_r. Qed.

Lemma Occurs_app_l (x a b : string) : Occurs x a -> Occurs x (a ++ b).
Proof.
  intros (p & q & ->). exists p, (q ++ b). now rewrite !append_assoc.
Qed.

Lemma Occurs_app_r (x a b : string) : Occurs x b -> Occurs x (a ++ b).
Proof.
  intros (p & q & ->). exists (a ++ p), q. now rewrite !append_assoc.
Qed.

Lemma Occurs_trans (x y z : string) : Occurs x y -> Occurs y z -> Occurs x z.
Proof.
  intros (p & q & ->) (p' & q' & ->).
  exists (p' ++ p), (q ++ q'). now rewrite !append_assoc.
Qed.

Lemma Occurs_template (x l : string) (ls : list string) :
  In l ls -> Occurs x l -> Occurs x (template ls).
Proof.
  intros Hin Hx. induction ls as [|l' ls IH]; [contradiction|].
  destruct ls as [|l'' ls].
  - destruct Hin as [->|[]]. exact Hx.
  - change (template (l' :: l'' :: ls)) with (l' ++ nl ++ template (l'' :: ls)).
    destruct Hin as [->|Hin].
    + now apply Occurs_app_l.
    + apply Occurs_app_r, Occurs_app_r. now apply IH.
Qed.

Lemma EndsWith_template_step (l l' : string) (rest : list string) (suffix : string) :
  EndsWith (template (l' :: rest)) suffix ->
  EndsWith (template (l :: l' :: rest)) suffix.
Proof.
  intros (body & H). exists (l ++ nl ++ body).
  change (template (l :: l' :: rest)) with (l ++ nl ++ template (l' :: rest)).
  rewrite H. now rewrite !append_assoc.
Qed.

Lemma EndsWith_template_last (x y : string) :
  EndsWith (template [x; y]) (x ++ nl ++ y).
Proof. now exists EmptyString. Qed.

Lemma lastChar_app_some (a b : string) (c : ascii) :
  lastChar b = Some c -> lastChar (a ++ b) = Some c.
Proof.
  intros H. induction a as [|x a IH]; simpl; [exact H|]. now rewrite IH.
Qed.

Lemma endsWith_app_r (a b p : string) :
  endsWith b p = true -> endsWith (a ++ b) p = true.
Proof.
  intros H. induction a as [|x a IH]; [exact H|].
  cbn [append endsWith]. rewrite IH. apply orb_true_r.
Qed.

Lemma endsWith_refl (p : string) : endsWith p p = true.
Proof.
  destruct p as [|c p]; [reflexivity|].
  cbn [endsWith]. now rewrite (String.eqb_refl (String c p)).
Qed.

Lemma endsWith_lastChar (s p : string) (c : ascii) :
  endsWith s p = true -> lastChar p = Some c -> lastChar s = Some c.
Proof.
  induction s as [|x s IH]; cbn [endsWith]; intros H Hp.
  - destruct p; simpl in *; [discriminate Hp | discriminate H].
  - apply orb_true_iff in H. destruct H as [H|H].
    + apply String.eqb_eq in H. subst p. exact Hp.
    + cbn [lastChar]. now rewrite (IH H Hp).
Qed.

Lemma endsWith_other_lastChar (s p : string) (c c' : ascii) :
  lastChar s = Some c -> lastChar p = Some c' -> c <> c' -> endsWith s p = false.
Proof.
  intros Hs Hp Hne. destruct (endsWith s p) eqn:E; [|reflexivity].
  pose proof (endsWith_lastChar _ _ _ E Hp) as H. congruence.
Qed.

Lemma filter_andb {A : Type} (f g : A -> bool) (l : list A) :
  filter (fun x => f x && g x) l = filter g (filter f l).
Proof.
  induction l as [|x l IH]; simpl; [reflexivity|].
  destruct (f x); simpl; [destruct (g x)|]; now rewrite IH.
Qed.

Lemma In_by_eqb (x : string) (l : list string) :
  existsb (String.eqb x) l = true -> In x l.
Proof.
  intros H. apply existsb_exists in H. destruct H as (y & Hin & E).
  apply String.eqb_eq in E. now subst y.
Qed.

Lemma not_In_by_eqb (x : string) (l : list string) :
  existsb (String.eqb x) l = false -> ~ In x l.
Proof.
  intros H Hin. assert (existsb (String.eqb x) l = true) as E; [|congruence].
  apply existsb_exists. exists x. split; [exact Hin | apply String.eqb_refl].
Qed.

(** ** Reading a script line by line *)

Lemma LinesOf_flat_map (elements ls : list string) :
  LinesOf elements ls -> flat_map lines elements = ls.
Proof.
  induction 1 as [|l rest ls Hl _ IH|a m ms rest inner ls _ IHinner _ IH]; simpl.
  - reflexivity.
  - now rewrite (lines_single l Hl), IH.
  - rewrite template_prefix, lines_template, IHinner, IH. reflexivity.
Qed.

Lemma LinesOf_lines (l : string) (elements ls : list string) :
  LinesOf (l :: elements) ls -> lines (template (l :: elements)) = ls.
Proof. intros H. rewrite lines_template. now apply LinesOf_flat_map. Qed.

Ltac single_line :=
  lazymatch goal with
  | |- SingleLine (_ ++ _) => apply SingleLine_app; single_line
  | |- SingleLine (showNumber _) => apply SingleLine_showNumber
  | |- SingleLine (strategyText _) => apply SingleLine_strategyText
  | |- _ => first [ assumption | reflexivity ]
  end.

Ltac lines_of :=
  repeat lazymatch goal with
    | |- LinesOf [] _ => apply LinesOf_nil
    | |- LinesOf ((_ ++ template (_ :: _)) :: _) _ => eapply LinesOf_nest
    | |- LinesOf (_ :: _) _ => eapply LinesOf_line; [single_line|]
    end.

(** Replaces [lines (template ...)] in the goal by the lines read. *)
Ltac read_lines :=
  match goal with
  | |- context [lines (template (?l :: ?ls))] =>
      erewrite (LinesOf_lines l ls) by lines_of
  end.

Ltac ends_with :=
  lazymatch goal with
  | |- EndsWith (template [_; _]) _ => apply EndsWith_template_last
  | |- EndsWith (template (_ :: _ :: _ :: _)) _ => apply EndsWith_template_step; ends_with
  end.

Ltac last_char := repeat apply lastChar_app_some; reflexivity.

Import CloudProviderService.

Ltac unfold_scripts :=
  unfold generateAWSDeploymentScript, awsScriptBody, awsUrlLookup,
         generateAzureDeploymentScript, azureScriptBody, azureUrlLookup,
         generateGCPDeploymentScript, gcpScriptBody, gcpUrlLookup,
         generateDigitalOceanDeploymentScript, doScriptBody, doUrlLookup,
         generateDeployedUrlExport, loadBalancerUrlExport, runtimeUrlExport.

Ltac unfold_auth :=
  unfold awsOidcAuth, awsStaticAuth, azureOidcAuth, azureStaticAuth,
         gcpOidcAuth, gcpStaticAuth.

Ltac unfold_manifests :=
  unfold IaCService.generateAWSTerraform, IaCService.generateAzureTerraform,
         IaCService.generateGCPTerraform, IaCService.generateDOTerraform.

(** ** Dispatch on the provider tag *)

Lemma supported_cases (tag : string) :
  supported tag = true ->
  tag = "aws" \/ tag = "azure" \/ tag = "gcp" \/ tag = "digitalocean".
Proof.
  unfold supported, supportedProviders. cbn [existsb].
  rewrite !orb_true_iff, !String.eqb_eq. intuition discriminate.
Qed.

Lemma dispatch_script (config : CloudConfig) (dockerImageName : string) :
  supported (provider config) = true ->
  generateDeploymentScript config dockerImageName =
  Return (if String.eqb (provider config) "aws"
          then generateAWSDeploymentScript config dockerImageName
          else if String.eqb (provider config) "azure"
          then generateAzureDeploymentScript config dockerImageName
          else if String.eqb (provider config) "gcp"
          then generateGCPDeploymentScript config dockerImageName
          else generateDigitalOceanDeploymentScript config dockerImageName).
Proof.
  intros H. destruct (supported_cases _ H) as [E|[E|[E|E]]];
    unfold generateDeploymentScript; rewrite E; reflexivity.
Qed.

Lemma unsupported_tag (tag : string) :
  supported tag = false ->
  String.eqb tag "aws" = false /\ String.eqb tag "azure" = false /\
  String.eqb tag "gcp" = false /\ String.eqb tag "digitalocean" = false.
Proof.
  unfold supported, supportedProviders. cbn [existsb].
  rewrite !orb_false_iff. tauto.
Qed.

(** ** Authentication blocks (C1) *)

Section AuthenticationLines.

Variable config : CloudConfig.
Variable dockerImageName : string.
Hypothesis fields : singleLineFields config dockerImageName.

Let loadBalanced : bool :=
  useLoadBalancer (deploymentConfig config) && truthy (loadBalancerUrl (deploymentConfig config)).

Lemma aws_auth_lines :
  let script := generateAWSDeploymentScript config dockerImageName in
  let oidc := useOIDC (credentials config) && truthy (oidcRoleArn (credentials config)) in
  hasOidcLine script = oidc /\ hasStaticCredentialLine script = negb oidc.
Proof.
  pose proof fields as (Hname & Hregion & Hpath & Hurl & Harn).
  unfold hasOidcLine, hasStaticCredentialLine. unfold_scripts. fold loadBalanced.
  destruct (useOIDC (credentials config) && truthy (oidcRoleArn (credentials config)));
    destruct loadBalanced;
    unfold_auth; cbv zeta; read_lines; split; vm_compute; reflexivity.
Qed.

Lemma azure_auth_lines :
  let script := generateAzureDeploymentScript config dockerImageName in
  hasOidcLine script = useOIDC (credentials config) /\
  hasStaticCredentialLine script = negb (useOIDC (credentials config)).
Proof.
  pose proof fields as (Hname & Hregion & Hpath & Hurl & Harn).
  unfold hasOidcLine, hasStaticCredentialLine. unfold_scripts. fold loadBalanced.
  destruct (useOIDC (credentials config)); destruct loadBalanced;
    unfold_auth; cbv zeta; read_lines; split; vm_compute; reflexivity.
Qed.

Lemma gcp_auth_lines :
  let script := generateGCPDeploymentScript config dockerImageName in
  hasOidcLine script = useOIDC (credentials config) /\
  hasStaticCredentialLine script = negb (useOIDC (credentials config)).
Proof.
  pose proof fields as (Hname & Hregion & Hpath & Hurl & Harn).
  unfold hasOidcLine, hasStaticCredentialLine. unfold_scripts. fold loadBalanced.
  destruct (useOIDC (credentials config)); destruct loadBalanced;
    unfold_auth; cbv zeta; read_lines; split; vm_compute; reflexivity.
Qed.

Lemma do_auth_lines :
  let script := generateDigitalOceanDeploymentScript config dockerImageName in
  hasOidcLine script = false /\ hasStaticCredentialLine script = true.
Proof.
  pose proof fields as (Hname & Hregion & Hpath & Hurl & Harn).
  unfold hasOidcLine, hasStaticCredentialLine. unfold_scripts. fold loadBalanced.
  destruct loadBalanced; cbv zeta; read_lines; split; vm_compute; reflexivity.
Qed.

End AuthenticationLines.

(** C1 (as amended).  For every supported provider and every configuration
    whose text fields hold one line each, the deployment script carries
    the lines of exactly one authentication kind: OIDC lines and no
    static-credential line when the branch selects OIDC, static-credential
    lines and no OIDC line otherwise.  The AWS branch selects OIDC when
    [useOIDC] is set and [oidcRoleArn] is a non-empty string, the Azure
    and GCP branches when [useOIDC] is set, the DigitalOcean branch never. *)
Theorem authentication_exactly_one (config : CloudConfig) (dockerImageName : string) :
  supported (provider config) = true ->
  singleLineFields config dockerImageName ->
  exists script,
    generateDeploymentScript config dockerImageName = Return script /\
    hasOidcLine script = selectsOidc config /\
    hasStaticCredentialLine script = negb (selectsOidc config) /\
    xorb (hasStaticCredentialLine script) (hasOidcLine script) = true.
Proof.
  intros Hs Hf. rewrite (dispatch_script _ _ Hs). eexists. split; [reflexivity|].
  assert (forall a b, a = b -> xorb (negb b) a = true) as Hx by (intros a [] ->; reflexivity).
  unfold selectsOidc.
  destruct (supported_cases _ Hs) as [E|[E|[E|E]]]; rewrite E; cbn [String.eqb Ascii.eqb Bool.eqb].
  - destruct (aws_auth_lines _ _ Hf) as [Ho Hc]. rewrite Ho, Hc. auto.
  - destruct (azure_auth_lines _ _ Hf) as [Ho Hc]. rewrite Ho, Hc. auto.
  - destruct (gcp_auth_lines _ _ Hf) as [Ho Hc]. rewrite Ho, Hc. auto.
  - destruct (do_auth_lines _ _ Hf) as [Ho Hc]. rewrite Ho, Hc. auto.
Qed.

Lemma authentication_exactly_one_witness :
  let config := sampleCloud "aws" (awsOidc (Some "arn:aws:iam::123456789012:role/jenkins")) sampleDeployment in
  supported (provider config) = true /\
  singleLineFields config "shop" /\
  exists script,
    generateDeploymentScript config "shop" = Return script /\
    hasOidcLine script = selectsOidc config /\
    hasStaticCredentialLine script = negb (selectsOidc config) /\
    xorb (hasStaticCredentialLine script) (hasOidcLine script) = true.
Proof.
  cbv zeta. split; [reflexivity|]. split; [repeat split; reflexivity|].
  apply authentication_exactly_one; [reflexivity | repeat split; reflexivity].
Defined.

(** C1 (as stated) fails: an AWS credential variant with [useOIDC] set and
    no role ARN makes the AWS branch emit the static-credential lines. *)
Lemma oidc_flag_without_role_emits_static_credentials :
  let config := sampleCloud "aws" (awsOidc None) sampleDeployment in
  useOIDC (credentials config) = true /\
  exists script,
    generateDeploymentScript config "shop" = Return script /\
    hasStaticCredentialLine script = true /\
    hasOidcLine script = false.
Proof.
  cbv zeta. split; [reflexivity|]. eexists. split; [reflexivity|].
  split; vm_compute; reflexivity.
Qed.

(** ** Lines with places *)

Lemma filter_plain {Slot : Type} (ls : list string) :
  filter hasPlace (map (@plain Slot) ls) = [].
Proof. induction ls as [|l ls IH]; [reflexivity | exact IH]. Qed.

Lemma fill_plain {Slot : Type} (value : Slot -> string) (ls : list string) :
  map (fillLine value) (map plain ls) = ls.
Proof. induction ls as [|l ls IH]; [reflexivity|]. cbn [map]. now rewrite IH. Qed.

Lemma countOr_orElse (bound : option Z) (fallback : Z) :
  countOr bound fallback = orElse bound fallback.
Proof. destruct bound as [[| |]|]; reflexivity. Qed.

(** Whether a line read from a generated text mentions one of the values
    [a], [b], [c]. *)
Ltac mentions a b c l :=
  lazymatch l with
  | context [a] => constr:(true)
  | context [b] => constr:(true)
  | context [c] => constr:(true)
  | _ => constr:(false)
  end.

(** The lines [ls], with the lines that mention a value taken, in their
    order, from the expected [places], and the other lines as they are. *)
Ltac skeleton_of Slot a b c ls places :=
  lazymatch ls with
  | nil => constr:(@nil (list (Piece Slot)))
  | ?l :: ?rest =>
      let m := mentions a b c l in
      lazymatch m with
      | true =>
          lazymatch places with
          | ?place :: ?places' =>
              let r := skeleton_of Slot a b c rest places' in
              constr:(place :: r)
          end
      | false =>
          let r := skeleton_of Slot a b c rest places in
          constr:(@plain Slot l :: r)
      end
  end.

(** Solves [ls = map (fillLine value) ?skeleton], choosing the skeleton. *)
Ltac fill_skeleton Slot a b c places :=
  cbn [app];
  lazymatch goal with
  | |- ?ls = map (fillLine ?value) ?skeleton =>
      let s := skeleton_of Slot a b c ls places in
      unify skeleton s
  end;
  rewrite ?countOr_orElse; vm_compute; reflexivity.

(** ** Deployment strategies (C2) *)

Lemma forced_line_is_forced (n : string) :
  endsWith (updateServiceLine n forceNewDeployment) forceNewDeployment = true.
Proof.
  unfold updateServiceLine. do 6 apply endsWith_app_r. apply endsWith_refl.
Qed.

Lemma forced_line_is_not_canary (n : string) (m : Z) :
  endsWith (updateServiceLine n forceNewDeployment) (canaryDesiredCount m) = false.
Proof.
  apply (endsWith_other_lastChar _ _ "t"%char ")"%char); [| |discriminate];
    unfold updateServiceLine, canaryDesiredCount, forceNewDeployment; last_char.
Qed.

Lemma canary_line_is_canary (n : string) (m : Z) :
  endsWith (updateServiceLine n (canaryDesiredCount m)) (canaryDesiredCount m) = true.
Proof.
  unfold updateServiceLine. do 6 apply endsWith_app_r. apply endsWith_refl.
Qed.

Lemma canary_line_is_not_forced (n : string) (m : Z) :
  endsWith (updateServiceLine n (canaryDesiredCount m)) forceNewDeployment = false.
Proof.
  apply (endsWith_other_lastChar _ _ ")"%char "t"%char); [| |discriminate];
    unfold updateServiceLine, canaryDesiredCount, forceNewDeployment; last_char.
Qed.

Section StrategyLines.

Variable config : CloudConfig.
Variable dockerImageName : string.
Hypothesis fields : singleLineFields config dockerImageName.

Let loadBalanced : bool :=
  useLoadBalancer (deploymentConfig config) && truthy (loadBalancerUrl (deploymentConfig config)).

Let updates (script : string) : list string :=
  filter (fun line => startsWith (trimStart line) updateServiceCommand) (lines script).

(** The lines of the AWS script that run [aws ecs update-service]: the
    blue-green branch, the canary branch and the default branch. *)
Lemma aws_update_service_lines :
  updates (generateAWSDeploymentScript config dockerImageName) =
  [ updateServiceLine dockerImageName forceNewDeployment;
    updateServiceLine dockerImageName
      (canaryDesiredCount (orElse (minInstances (deploymentConfig config)) 1));
    updateServiceLine dockerImageName forceNewDeployment ].
Proof.
  pose proof fields as (Hname & Hregion & Hpath & Hurl & Harn).
  unfold updates. unfold_scripts. fold loadBalanced.
  destruct (useOIDC (credentials config) && truthy (oidcRoleArn (credentials config)));
    destruct loadBalanced;
    unfold_auth; cbv zeta; read_lines; vm_compute; reflexivity.
Qed.

Lemma aws_strategy_counts :
  let script := generateAWSDeploymentScript config dockerImageName in
  countLines isForcedDeployment script = 2%nat /\
  countLines (isCanaryScaleUp (orElse (minInstances (deploymentConfig config)) 1)) script = 1%nat.
Proof.
  cbv zeta. unfold countLines. pose proof aws_update_service_lines as Hlines.
  unfold updates in Hlines. split.
  - change isForcedDeployment
      with (fun line => startsWith (trimStart line) updateServiceCommand
                        && endsWith line forceNewDeployment).
    rewrite filter_andb, Hlines. cbn [filter].
    rewrite forced_line_is_forced, canary_line_is_not_forced. reflexivity.
  - change (isCanaryScaleUp ?m)
      with (fun line => startsWith (trimStart line) updateServiceCommand
                        && endsWith line (canaryDesiredCount m)).
    rewrite filter_andb, Hlines. cbn [filter].
    rewrite forced_line_is_not_canary, canary_line_is_canary. reflexivity.
Qed.

(** The Azure, GCP and DigitalOcean scripts run no [update-service]
    command. *)
Lemma other_scripts_no_update_service :
  updates (generateAzureDeploymentScript config dockerImageName) = [] /\
  updates (generateGCPDeploymentScript config dockerImageName) = [] /\
  updates (generateDigitalOceanDeploymentScript config dockerImageName) = [].
Proof.
  pose proof fields as (Hname & Hregion & Hpath & Hurl & Harn).
  unfold updates. unfold_scripts. fold loadBalanced.
  destruct (useOIDC (credentials config)); destruct loadBalanced;
    unfold_auth; cbv zeta; (split; [|split]); read_lines; vm_compute; reflexivity.
Qed.

End StrategyLines.

(** Finds a block of lines among the lines read from a script, from the
    start of its first line. *)
Ltac find_block start :=
  match goal with
  | |- Contains ?B ?L =>
      let k := eval vm_compute in (position start L) in
      exists (firstn k L), (skipn (k + List.length B) L); vm_compute; reflexivity
  end.

(** The strategy conditional stands in the AWS script as written. *)
Lemma aws_strategy_conditional (config : CloudConfig) (dockerImageName : string) :
  singleLineFields config dockerImageName ->
  let d := deploymentConfig config in
  Contains
    (renderConditional
       (strategyConditional (strategyText (deploymentStrategy d)) dockerImageName
          (countOr (minInstances d) 1)))
    (lines (generateAWSDeploymentScript config dockerImageName)).
Proof.
  intros (Hname & Hregion & Hpath & Hurl & Harn) d. subst d.
  rewrite countOr_orElse. unfold_scripts.
  destruct (useOIDC (credentials config) && truthy (oidcRoleArn (credentials config)));
    destruct (useLoadBalancer (deploymentConfig config)
              && truthy (loadBalancerUrl (deploymentConfig config)));
    unfold_auth; cbv zeta; read_lines; find_block "        if [ ".
Qed.




(** ** Unsupported providers (C3) *)

(** C3.  For every provider tag outside the four supported ones,
    [generateDeploymentScript] throws and returns no text, whereas
    [generateTerraformConfig] returns the empty text and raises nothing. *)
Theorem unsupported_provider (config : CloudConfig) (dockerImageName : string) :
  supported (provider config) = false ->
  generateDeploymentScript config dockerImageName =
    Throw ("Unsupported cloud provider: " ++ provider config) /\
  IaCService.generateTerraformConfig config dockerImageName = EmptyString.
Proof.
  intros H. destruct (unsupported_tag _ H) as (H1 & H2 & H3 & H4).
  unfold generateDeploymentScript, IaCService.generateTerraformConfig.
  rewrite H1, H2, H3, H4. split; reflexivity.
Qed.

Lemma unsupported_provider_witness :
  let config := sampleCloud "oracle" awsKeys sampleDeployment in
  supported (provider config) = false /\
  generateDeploymentScript config "shop" = Throw "Unsupported cloud provider: oracle" /\
  IaCService.generateTerraformConfig config "shop" = EmptyString.
Proof.
  cbv zeta. split; [reflexivity|].
  apply (unsupported_provider (sampleCloud "oracle" awsKeys sampleDeployment) "shop").
  reflexivity.
Defined.

(** ** The compose manifest *)

Import DockerComposeService.

Lemma getProperty_replace (o : JsObject) (k q : string) (v : JsValue) :
  hasProperty o k = true ->
  getProperty (replaceProperty o k v) q =
  if String.eqb k q then Some v else getProperty o q.
Proof.
  induction o as [|[k' v'] o IH]; cbn [hasProperty replaceProperty getProperty]; [discriminate|].
  destruct (String.eqb k' k) eqn:E.
  - apply String.eqb_eq in E. subst k'. intros _. cbn [getProperty]. now destruct (String.eqb k q).
  - cbn [orb getProperty]. intros H. rewrite (IH H).
    destruct (String.eqb k' q) eqn:E'; [|reflexivity].
    apply String.eqb_eq in E'. subst k'. rewrite String.eqb_sym in E. now rewrite E.
Qed.

Lemma getProperty_insertIndexed (o : JsObject) (n : N) (k q : string) (v : JsValue) :
  hasProperty o k = false ->
  getProperty (insertIndexed o n k v) q =
  if String.eqb k q then Some v else getProperty o q.
Proof.
  induction o as [|[k' v'] o IH]; cbn [hasProperty insertIndexed getProperty]; [reflexivity|].
  intros H. apply orb_false_iff in H. destruct H as [E H].
  destruct (arrayIndex k') as [n'|]; [destruct (n' <? n)%N|]; cbn [getProperty]; try reflexivity.
  rewrite (IH H). destruct (String.eqb k' q) eqn:E'; [|reflexivity].
  apply String.eqb_eq in E'. subst k'. rewrite String.eqb_sym in E. now rewrite E.
Qed.

Lemma getProperty_append (o : JsObject) (k q : string) (v : JsValue) :
  hasProperty o k = false ->
  getProperty (o ++ [(k, v)])%list q =
  if String.eqb k q then Some v else getProperty o q.
Proof.
  induction o as [|[k' v'] o IH]; cbn [hasProperty app getProperty]; [reflexivity|].
  intros H. apply orb_false_iff in H. destruct H as [E H].
  rewrite (IH H). destruct (String.eqb k' q) eqn:E'; [|reflexivity].
  apply String.eqb_eq in E'. subst k'. rewrite String.eqb_sym in E. now rewrite E.
Qed.

(** Reading a property back after [o[k] = v]. *)
Lemma getProperty_setProperty (o : JsObject) (k q : string) (v : JsValue) :
  k <> "__proto__" ->
  getProperty (setProperty o k v) q =
  if String.eqb k q then Some v else getProperty o q.
Proof.
  intros Hk. unfold setProperty.
  destruct (String.eqb k "__proto__") eqn:E; [apply String.eqb_eq in E; contradiction|].
  destruct (hasProperty o k) eqn:Hhas.
  - now apply getProperty_replace.
  - destruct (arrayIndex k); [now apply getProperty_insertIndexed | now apply getProperty_append].
Qed.

Lemma setProperty_proto (o : JsObject) (v : JsValue) : setProperty o "__proto__" v = o.
Proof. reflexivity. Qed.

Lemma composeServices_loop (config : CICDConfig) :
  composeServices config =
  addServices [("app", VObject (appEntry config))] (externalServices (project config)).
Proof. reflexivity. Qed.

Lemma addServices_cons (o : JsObject) (x : ExternalService.t) (xs : list ExternalService.t) :
  addServices o (x :: xs) =
  addServices (if ExternalService.requiresInfrastructure x
               then setProperty o (getServiceName x) (VObject (getServiceConfig x))
               else o) xs.
Proof. reflexivity. Qed.

(** A property no later service is named after is left as it is. *)
Lemma addServices_get_other (xs : list ExternalService.t) (o : JsObject) (q : string) :
  (forall s, In s xs -> ExternalService.requiresInfrastructure s = true ->
             getServiceName s <> q) ->
  getProperty (addServices o xs) q = getProperty o q.
Proof.
  revert o. induction xs as [|x xs IH]; intros o H; [reflexivity|].
  rewrite addServices_cons, IH by (intros s Hs; apply H; now right).
  destruct (ExternalService.requiresInfrastructure x) eqn:Hx; [|reflexivity].
  destruct (String.eqb (getServiceName x) "__proto__") eqn:Hp.
  - apply String.eqb_eq in Hp. rewrite Hp. reflexivity.
  - rewrite getProperty_setProperty
      by (intros Heq; rewrite Heq in Hp; discriminate Hp).
    destruct (String.eqb (getServiceName x) q) eqn:E; [|reflexivity].
    apply String.eqb_eq in E. exfalso. apply (H x); [now left | exact Hx | exact E].
Qed.

(** An entry survives the later services named alike when they have the
    same entry. *)
Lemma addServices_get_kept (xs : list ExternalService.t) (o : JsObject) (q : string)
      (entry : JsObject) :
  getProperty o q = Some (VObject entry) ->
  (forall s, In s xs -> ExternalService.requiresInfrastructure s = true ->
             getServiceName s = q -> getServiceConfig s = entry) ->
  getProperty (addServices o xs) q = Some (VObject entry).
Proof.
  revert o. induction xs as [|x xs IH]; intros o Ho H; [exact Ho|].
  rewrite addServices_cons. apply IH; [|intros s Hs; apply H; now right].
  destruct (ExternalService.requiresInfrastructure x) eqn:Hx; [|exact Ho].
  destruct (String.eqb (getServiceName x) "__proto__") eqn:Hp.
  - apply String.eqb_eq in Hp. rewrite Hp. exact Ho.
  - rewrite getProperty_setProperty
      by (intros Heq; rewrite Heq in Hp; discriminate Hp).
    destruct (String.eqb (getServiceName x) q) eqn:E; [|exact Ho].
    apply String.eqb_eq in E. now rewrite (H x (or_introl eq_refl) Hx E).
Qed.

Lemma addServices_get_own (xs : list ExternalService.t) (o : JsObject) (s : ExternalService.t) :
  In s xs ->
  ExternalService.requiresInfrastructure s = true ->
  getServiceName s <> "__proto__" ->
  (forall other, In other xs -> ExternalService.requiresInfrastructure other = true ->
                 getServiceName other = getServiceName s ->
                 getServiceConfig other = getServiceConfig s) ->
  getProperty (addServices o xs) (getServiceName s) = Some (VObject (getServiceConfig s)).
Proof.
  intros Hin Hs Hp. revert o Hin.
  induction xs as [|x xs IH]; intros o Hin H; [contradiction|].
  rewrite addServices_cons. destruct Hin as [->|Hin].
  - rewrite Hs. apply addServices_get_kept.
    + rewrite getProperty_setProperty by exact Hp. now rewrite String.eqb_refl.
    + intros other Ho. apply H. now right.
  - apply IH; [exact Hin|]. intros other Ho. apply H. now right.
Qed.

(** Every property of the [services] object is the application entry or
    the entry of a flagged service of that name. *)
Lemma addServices_origin (xs : list ExternalService.t) (o : JsObject) (q : string) (v : JsValue) :
  getProperty (addServices o xs) q = Some v ->
  getProperty o q = Some v \/
  exists s, In s xs /\ ExternalService.requiresInfrastructure s = true /\
            getServiceName s = q /\ v = VObject (getServiceConfig s).
Proof.
  revert o. induction xs as [|x xs IH]; intros o H; [now left|].
  rewrite addServices_cons in H. destruct (IH _ H) as [Ho|(s & Hin & Hs & Hn & Hv)].
  - destruct (ExternalService.requiresInfrastructure x) eqn:Hx; [|now left].
    destruct (String.eqb (getServiceName x) "__proto__") eqn:Hp.
    + apply String.eqb_eq in Hp. rewrite Hp in Ho. now left.
    + rewrite getProperty_setProperty in Ho
        by (intros Heq; rewrite Heq in Hp; discriminate Hp).
      destruct (String.eqb (getServiceName x) q) eqn:E; [|now left].
      apply String.eqb_eq in E. injection Ho as <-.
      right. exists x. repeat split; auto. now left.
  - right. exists s. repeat split; auto. now right.
Qed.

(** Every property of the [services] object of the manifest is the
    application entry or the entry of a flagged service of that name. *)
Lemma compose_entries_origin (config : CICDConfig) (key : string) (v : JsValue) :
  getProperty (composeServices config) key = Some v ->
  (key = "app" /\ v = VObject (appEntry config)) \/
  exists s, In s (externalServices (project config)) /\
            ExternalService.requiresInfrastructure s = true /\
            getServiceName s = key /\ v = VObject (getServiceConfig s).
Proof.
  rewrite composeServices_loop. intros H.
  destruct (addServices_origin _ _ _ _ H) as [Ho|Hs]; [left|now right].
  cbn [getProperty] in Ho. destruct (String.eqb "app" key) eqn:E; [|discriminate].
  apply String.eqb_eq in E. injection Ho as <-. now split.
Qed.

Lemma yamlifyProperty_object (indent : nat) (key : string) (o : JsObject) :
  yamlifyProperty indent key (VObject o) =
  repeat_space indent ++ key ++ ":" ++ nl ++ yamlify o (indent + 2).
Proof.
  cbn [yamlifyProperty]. do 4 f_equal.
  induction o as [|[k v] o IH]; [reflexivity|].
  cbn [yamlify]. now rewrite IH.
Qed.

Lemma Occurs_yamlify (o : JsObject) (indent : nat) (key : string) (v : JsValue) :
  getProperty o key = Some v -> Occurs (yamlifyProperty indent key v) (yamlify o indent).
Proof.
  induction o as [|[k' v'] o IH]; cbn [getProperty yamlify]; [discriminate|].
  destruct (String.eqb k' key) eqn:E.
  - apply String.eqb_eq in E. subst k'. injection 1 as ->.
    apply Occurs_app_l, Occurs_refl.
  - intros H. apply Occurs_app_r, IH, H.
Qed.

Lemma compose_text (config : CICDConfig) :
  generateDockerCompose config =
  "version: " ++ dq ++ "3.8" ++ dq ++ nl ++ "services:" ++ nl ++ yamlify (composeServices config) 2.
Proof.
  unfold generateDockerCompose. cbv zeta. cbn [yamlify].
  rewrite yamlifyProperty_object, append_nil_r. reflexivity.
Qed.

Lemma getServiceConfig_unknown (service : ExternalService.t) :
  ~ In (toLowerCase (ExternalService.service service)) knownProducts ->
  getServiceConfig service = placeholderConfig.
Proof.
  intros H. unfold getServiceConfig. cbv zeta.
  repeat match goal with
    | |- context [String.eqb ?a ?b] =>
        let E := fresh "E" in
        destruct (String.eqb a b) eqn:E;
        [ apply String.eqb_eq in E; exfalso; apply H; rewrite E; cbn; tauto | ]
    end.
  reflexivity.
Qed.

(** Induction on a value together with the properties of an object. *)
Lemma JsValue_nested_ind (P : JsValue -> Prop) (Q : list (string * JsValue) -> Prop) :
  (forall s, P (VString s)) ->
  (forall items, P (VArray items)) ->
  (forall ps, Q ps -> P (VObject ps)) ->
  Q [] ->
  (forall k v ps, P v -> Q ps -> Q ((k, v) :: ps)) ->
  forall v, P v.
Proof.
  intros HS HA HO Hnil Hcons.
  exact (fix F (v : JsValue) : P v :=
           match v with
           | VString s => HS s
           | VArray items => HA items
           | VObject ps =>
               HO ps ((fix G (ps : list (string * JsValue)) : Q ps :=
                         match ps with
                         | [] => Hnil
                         | (k, v) :: rest => Hcons k v rest (F v) (G rest)
                         end) ps)
           end).
Qed.

(** *** Line breaks of the YAML text *)

Lemma EndsWith_app (a b suffix : string) : EndsWith b suffix -> EndsWith (a ++ b) suffix.
Proof. intros [body ->]. exists (a ++ body). now rewrite append_assoc. Qed.

Lemma yamlify_array_ends (spaces : string) (items : list string) (start : string) :
  EndsWith start nl ->
  EndsWith (fold_left (fun yaml item => yaml ++ spaces ++ "  - " ++ dq ++ item ++ dq ++ nl)
                      items start) nl.
Proof.
  revert start. induction items as [|i items IH]; intros start H; [exact H|].
  cbn [fold_left]. apply IH. do 5 apply EndsWith_app. exists dq. reflexivity.
Qed.

(** The text of a property ends with a line break. *)
Lemma yamlifyProperty_ends (v : JsValue) :
  forall indent key, EndsWith (yamlifyProperty indent key v) nl.
Proof.
  induction v as [s|items|ps IH| |k v ps IHv IHps]
    using JsValue_nested_ind
    with (Q := fun ps =>
                 forall indent,
                   let text :=
                     (fix each (ps : list (string * JsValue)) : string :=
                        match ps with
                        | [] => EmptyString
                        | (k, v) :: rest => yamlifyProperty indent k v ++ each rest
                        end) ps in
                   text = EmptyString \/ EndsWith text nl).
  - intros indent key. cbn [yamlifyProperty]. do 5 apply EndsWith_app. exists dq. reflexivity.
  - intros indent key. cbn [yamlifyProperty]. apply yamlify_array_ends.
    do 2 apply EndsWith_app. now exists ":".
  - intros indent key. cbn [yamlifyProperty].
    destruct (IH (indent + 2)%nat) as [->|H].
    + do 2 apply EndsWith_app. exists ":". now rewrite append_nil_r.
    + now do 4 apply EndsWith_app.
  - intros indent. now left.
  - intros indent. cbv zeta. right.
    destruct (IHps indent) as [->|H].
    + rewrite append_nil_r. apply IHv.
    + now apply EndsWith_app.
Qed.

Lemma yamlify_ends (o : JsObject) (indent : nat) :
  yamlify o indent = EmptyString \/ EndsWith (yamlify o indent) nl.
Proof.
  induction o as [|[k v] o IH]; [now left|]. right. cbn [yamlify].
  destruct IH as [->|H].
  - rewrite append_nil_r. apply yamlifyProperty_ends.
  - now apply EndsWith_app.
Qed.

(** ** The same values across the artifacts (C4) *)

Section ValuePlaces.

Variable config : CloudConfig.

Let updated (p : Z) (h : string) : CloudConfig :=
  withDeploymentConfig (withPort p (withHealthCheckPath h (deploymentConfig config))) config.

(** A skeleton of the text [artifact] computes from the port, the path and
    the name: its lines with a place are [places], and filling the places
    gives the lines of the text. *)
Let Skeleton (artifact : CloudConfig -> string -> string) (places : list (list (Piece Value)))
  : Prop :=
  exists skeleton,
    filter hasPlace skeleton = places /\
    forall p h n,
      singleLineFields (updated p h) n ->
      lines (artifact (updated p h) n) = map (fillLine (configured p h n)) skeleton.

Ltac read_updated :=
  cbn [withDeploymentConfig withPort withHealthCheckPath deploymentConfig region provider
       healthCheckPath loadBalancerUrl useLoadBalancer port minInstances maxInstances
       deploymentStrategy credentials].

(** After the cases of the configuration are taken: chooses the skeleton
    from the lines read. *)
Ltac choose_skeleton :=
  lazymatch goal with
  | |- exists skeleton, filter hasPlace skeleton = ?P /\ _ =>
      let places := eval cbn [app updateServicePlaces] in P in
      let p := fresh "p" in
      let h := fresh "h" in
      let n := fresh "n" in
      let Hname := fresh "Hname" in
      let Hregion := fresh "Hregion" in
      let Hpath := fresh "Hpath" in
      let Hurl := fresh "Hurl" in
      let Harn := fresh "Harn" in
      eexists; split; cycle 1;
      [ intros p h n (Hname & Hregion & Hpath & Hurl & Harn);
        cbn [interpolate] in Hurl;
        read_lines;
        fill_skeleton Value p h n places
      | vm_compute; reflexivity ]
  end.

Ltac script_skeleton auth :=
  unfold Skeleton, updated, singleLineFields, awsScriptPlaces, azureScriptPlaces,
         gcpScriptPlaces, doScriptPlaces, stableUrl;
  unfold_scripts; read_updated;
  destruct (useLoadBalancer (deploymentConfig config));
  [ destruct (loadBalancerUrl (deploymentConfig config)) as [[|? ?]|] | ];
  destruct auth;
  cbn [andb truthy interpolate]; unfold_auth; cbv zeta;
  choose_skeleton.

Lemma aws_script_skeleton :
  Skeleton generateAWSDeploymentScript (awsScriptPlaces (deploymentConfig config)).
Proof.
  script_skeleton (useOIDC (credentials config) && truthy (oidcRoleArn (credentials config))).
Qed.

Lemma azure_script_skeleton :
  Skeleton generateAzureDeploymentScript (azureScriptPlaces (deploymentConfig config)).
Proof. script_skeleton (useOIDC (credentials config)). Qed.

Lemma gcp_script_skeleton : Skeleton generateGCPDeploymentScript gcpScriptPlaces.
Proof. script_skeleton (useOIDC (credentials config)). Qed.

Lemma do_script_skeleton : Skeleton generateDigitalOceanDeploymentScript doScriptPlaces.
Proof. script_skeleton true. Qed.

Ltac manifest_skeleton E :=
  unfold Skeleton, updated, singleLineFields, manifestPlaces;
  rewrite E; cbv beta iota delta [String.eqb Ascii.eqb Bool.eqb];
  unfold_manifests; read_updated; cbv zeta;
  choose_skeleton.

Lemma aws_manifest_skeleton :
  provider config = "aws" -> Skeleton IaCService.generateAWSTerraform (manifestPlaces config).
Proof. intros E. manifest_skeleton E. Qed.

Lemma azure_manifest_skeleton :
  provider config = "azure" ->
  Skeleton IaCService.generateAzureTerraform (manifestPlaces config).
Proof. intros E. manifest_skeleton E. Qed.

Lemma gcp_manifest_skeleton :
  provider config = "gcp" -> Skeleton IaCService.generateGCPTerraform (manifestPlaces config).
Proof. intros E. manifest_skeleton E. Qed.

Lemma do_manifest_skeleton :
  provider config = "digitalocean" ->
  Skeleton IaCService.generateDOTerraform (manifestPlaces config).
Proof. intros E. manifest_skeleton E. Qed.

End ValuePlaces.

(** *** The application entry of the compose manifest *)

Lemma hasProperty_around (o1 o2 : JsObject) (v : JsValue) (k : string) :
  k <> "app" ->
  hasProperty (o1 ++ ("app", v) :: o2)%list k = hasProperty o1 k || hasProperty o2 k.
Proof.
  intros Hk. induction o1 as [|[k' v'] o1 IH]; cbn [app hasProperty].
  - destruct (String.eqb "app" k) eqn:E; [|reflexivity].
    apply String.eqb_eq in E. now subst k.
  - rewrite IH. now rewrite orb_assoc.
Qed.

Lemma replaceProperty_around (o1 o2 : JsObject) (v w : JsValue) (k : string) :
  k <> "app" ->
  replaceProperty (o1 ++ ("app", v) :: o2)%list k w
  = if hasProperty o1 k then (replaceProperty o1 k w ++ ("app", v) :: o2)%list
    else (o1 ++ ("app", v) :: replaceProperty o2 k w)%list.
Proof.
  intros Hk. induction o1 as [|[k' v'] o1 IH]; cbn [app hasProperty replaceProperty].
  - destruct (String.eqb "app" k) eqn:E; [|reflexivity].
    apply String.eqb_eq in E. now subst k.
  - destruct (String.eqb k' k); cbn [orb]; [reflexivity|].
    rewrite IH. now destruct (hasProperty o1 k).
Qed.

Lemma insertIndexed_around (o1 o2 : JsObject) (v w : JsValue) (k : string) (n : N) :
  insertIndexed (o1 ++ ("app", v) :: o2)%list n k w
  = (insertIndexed o1 n k w ++ ("app", v) :: o2)%list.
Proof.
  induction o1 as [|[k' v'] o1 IH]; cbn [app insertIndexed]; [reflexivity|].
  destruct (arrayIndex k') as [n'|]; [|reflexivity].
  destruct (n' <? n)%N; [|reflexivity]. now rewrite IH.
Qed.

(** An assignment to another key leaves the entry [app] where it is, and
    what it does around it does not depend on that entry. *)
Lemma setProperty_around (o1 o2 : JsObject) (w : JsValue) (k : string) :
  k <> "app" ->
  exists o1' o2',
    forall v, setProperty (o1 ++ ("app", v) :: o2)%list k w = (o1' ++ ("app", v) :: o2')%list.
Proof.
  intros Hk. unfold setProperty.
  destruct (String.eqb k "__proto__"); [now exists o1, o2|].
  destruct (hasProperty o1 k) eqn:H1.
  - exists (replaceProperty o1 k w), o2. intros v.
    rewrite hasProperty_around, H1 by exact Hk. cbn [orb].
    now rewrite replaceProperty_around, H1 by exact Hk.
  - destruct (hasProperty o2 k) eqn:H2.
    + exists o1, (replaceProperty o2 k w). intros v.
      rewrite hasProperty_around, H1, H2 by exact Hk. cbn [orb].
      now rewrite replaceProperty_around, H1 by exact Hk.
    + destruct (arrayIndex k) as [n|].
      * exists (insertIndexed o1 n k w), o2. intros v.
        rewrite hasProperty_around, H1, H2 by exact Hk. cbn [orb].
        apply insertIndexed_around.
      * exists o1, (o2 ++ [(k, w)])%list. intros v.
        rewrite hasProperty_around, H1, H2 by exact Hk. cbn [orb].
        now rewrite <- app_assoc.
Qed.

Lemma addServices_around (xs : list ExternalService.t) (o1 o2 : JsObject) :
  (forall s, In s xs -> ExternalService.requiresInfrastructure s = true ->
             getServiceName s <> "app") ->
  exists o1' o2',
    forall v, addServices (o1 ++ ("app", v) :: o2)%list xs = (o1' ++ ("app", v) :: o2')%list.
Proof.
  revert o1 o2. induction xs as [|x xs IH]; intros o1 o2 H; [now exists o1, o2|].
  assert (forall s, In s xs -> ExternalService.requiresInfrastructure s = true ->
                    getServiceName s <> "app") as Hxs by (intros s Hs; apply H; now right).
  destruct (ExternalService.requiresInfrastructure x) eqn:Hx.
  - destruct (setProperty_around o1 o2 (VObject (getServiceConfig x)) (getServiceName x))
      as (a & b & Hab); [apply H; [now left | exact Hx]|].
    destruct (IH a b Hxs) as (o1' & o2' & Hrest).
    exists o1', o2'. intros v. now rewrite addServices_cons, Hx, Hab.
  - destruct (IH o1 o2 Hxs) as (o1' & o2' & Hrest).
    exists o1', o2'. intros v. now rewrite addServices_cons, Hx.
Qed.

Lemma yamlify_app (a b : JsObject) (indent : nat) :
  yamlify (a ++ b)%list indent = yamlify a indent ++ yamlify b indent.
Proof.
  induction a as [|[k v] a IH]; [reflexivity|].
  cbn [app yamlify]. now rewrite IH, append_assoc.
Qed.

Lemma compose_skeleton (config : CICDConfig) :
  appEntryKept config ->
  exists skeleton,
    filter hasPlace skeleton = [composePortLine] /\
    forall p h n,
      lines (generateDockerCompose
               (withProjectName n
                  (withCloud
                     (withDeploymentConfig
                        (withPort p (withHealthCheckPath h (deploymentConfig (cloud config))))
                        (cloud config))
                     config)))
      = map (fillLine (configured p h n)) skeleton.
Proof.
  intros Hkept.
  destruct (addServices_around (externalServices (project config)) [] [] Hkept)
    as (o1 & o2 & Hservices).
  set (dependencies :=
         map getServiceName
             (filter ExternalService.requiresInfrastructure (externalServices (project config)))).
  set (tail :=
         yamlifyProperty 4 "env_file" (VArray [".env"])
         ++ yamlifyProperty 4 "depends_on" (VArray dependencies) ++ yamlify o2 2).
  assert (exists head, "version: " ++ dq ++ "3.8" ++ dq ++ nl ++ "services:" ++ nl ++ yamlify o1 2
                       = head ++ nl) as [head Hhead].
  { destruct (yamlify_ends o1 2) as [->|[body ->]].
    - exists ("version: " ++ dq ++ "3.8" ++ dq ++ nl ++ "services:"). reflexivity.
    - exists ("version: " ++ dq ++ "3.8" ++ dq ++ nl ++ "services:" ++ nl ++ body).
      now rewrite !append_assoc. }
  exists (map plain (lines head)
          ++ [ plain "  app:"; plain ("    build: " ++ dq ++ "." ++ dq); plain "    ports:";
               composePortLine ]
          ++ map plain (lines tail))%list.
  split.
  - rewrite !filter_app, !filter_plain. reflexivity.
  - intros p h n. rewrite compose_text, composeServices_loop.
    cbn [withProjectName withCloud project cloud externalServices].
    change [("app", VObject ?e)] with ([] ++ ("app", VObject e) :: [])%list.
    rewrite Hservices, yamlify_app. cbn [yamlify].
    rewrite yamlifyProperty_object. unfold appEntry, infrastructureServices.
    cbn [withProjectName withCloud withDeploymentConfig withPort withHealthCheckPath
         project cloud externalServices deploymentConfig port].
    fold dependencies.
    cbn [yamlify]. rewrite append_nil_r.
    change (yamlifyProperty (2 + 2) "build" (VString "."))
      with ("    build: " ++ dq ++ "." ++ dq ++ nl).
    change (yamlifyProperty (2 + 2) "ports" (VArray [showNumber p ++ ":" ++ showNumber p]))
      with ("    ports:" ++ nl
            ++ "      - " ++ dq ++ (showNumber p ++ ":" ++ showNumber p) ++ dq ++ nl).
    replace ("version: " ++ dq ++ "3.8" ++ dq ++ nl ++ "services:" ++ nl
             ++ yamlify o1 2
             ++ (repeat_space 2 ++ "app" ++ ":" ++ nl
                 ++ ("    build: " ++ dq ++ "." ++ dq ++ nl)
                 ++ ("    ports:" ++ nl
                     ++ "      - " ++ dq ++ (showNumber p ++ ":" ++ showNumber p) ++ dq ++ nl)
                 ++ yamlifyProperty (2 + 2) "env_file" (VArray [".env"])
                 ++ yamlifyProperty (2 + 2) "depends_on" (VArray dependencies))
             ++ yamlify o2 2)
      with (head ++ nl ++ "  app:" ++ nl ++ ("    build: " ++ dq ++ "." ++ dq) ++ nl
            ++ "    ports:" ++ nl
            ++ ("      - " ++ dq ++ showNumber p ++ ":" ++ showNumber p ++ dq) ++ nl ++ tail).
    + rewrite !lines_app_nl, !map_app, !fill_plain.
      rewrite (lines_single "  app:"), (lines_single ("    build: " ++ dq ++ "." ++ dq)),
        (lines_single "    ports:") by reflexivity.
      rewrite (lines_single ("      - " ++ dq ++ showNumber p ++ ":" ++ showNumber p ++ dq))
        by (repeat (apply SingleLine_app; [try reflexivity; apply SingleLine_showNumber|]);
            reflexivity).
      reflexivity.
    + rewrite <- (append_assoc head nl), <- Hhead. unfold tail.
      rewrite !append_assoc. reflexivity.
Qed.

(** *** The three artifacts *)

Lemma script_skeleton_dispatch (config : CloudConfig) :
  supported (provider config) = true ->
  exists skeleton,
    filter hasPlace skeleton = scriptPlaces config /\
    forall p h n,
      let config' :=
        withDeploymentConfig (withPort p (withHealthCheckPath h (deploymentConfig config)))
                             config in
      singleLineFields config' n ->
      exists script,
        generateDeploymentScript config' n = Return script /\
        lines script = map (fillLine (configured p h n)) skeleton.
Proof.
  intros Hs. unfold scriptPlaces.
  assert (forall p h n,
            generateDeploymentScript
              (withDeploymentConfig
                 (withPort p (withHealthCheckPath h (deploymentConfig config))) config) n
            = Return (if String.eqb (provider config) "aws"
                      then generateAWSDeploymentScript
                             (withDeploymentConfig
                                (withPort p (withHealthCheckPath h (deploymentConfig config)))
                                config) n
                      else if String.eqb (provider config) "azure"
                      then generateAzureDeploymentScript
                             (withDeploymentConfig
                                (withPort p (withHealthCheckPath h (deploymentConfig config)))
                                config) n
                      else if String.eqb (provider config) "gcp"
                      then generateGCPDeploymentScript
                             (withDeploymentConfig
                                (withPort p (withHealthCheckPath h (deploymentConfig config)))
                                config) n
                      else generateDigitalOceanDeploymentScript
                             (withDeploymentConfig
                                (withPort p (withHealthCheckPath h (deploymentConfig config)))
                                config) n)) as Hdispatch.
  { intros p h n. rewrite dispatch_script by exact Hs. reflexivity. }
  destruct (supported_cases _ Hs) as [E|[E|[E|E]]].
  - destruct (aws_script_skeleton config) as (skeleton & Hplaces & Hlines).
    exists skeleton. rewrite E. split; [exact Hplaces|].
    intros p h n. cbv zeta. intros H. eexists. split; [apply Hdispatch|].
    rewrite E. apply Hlines, H.
  - destruct (azure_script_skeleton config) as (skeleton & Hplaces & Hlines).
    exists skeleton. rewrite E. split; [exact Hplaces|].
    intros p h n. cbv zeta. intros H. eexists. split; [apply Hdispatch|].
    rewrite E. apply Hlines, H.
  - destruct (gcp_script_skeleton config) as (skeleton & Hplaces & Hlines).
    exists skeleton. rewrite E. split; [exact Hplaces|].
    intros p h n. cbv zeta. intros H. eexists. split; [apply Hdispatch|].
    rewrite E. apply Hlines, H.
  - destruct (do_script_skeleton config) as (skeleton & Hplaces & Hlines).
    exists skeleton. rewrite E. split; [exact Hplaces|].
    intros p h n. cbv zeta. intros H. eexists. split; [apply Hdispatch|].
    rewrite E. apply Hlines, H.
Qed.

Lemma manifest_skeleton_dispatch (config : CloudConfig) :
  supported (provider config) = true ->
  exists skeleton,
    filter hasPlace skeleton = manifestPlaces config /\
    forall p h n,
      let config' :=
        withDeploymentConfig (withPort p (withHealthCheckPath h (deploymentConfig config)))
                             config in
      singleLineFields config' n ->
      lines (IaCService.generateTerraformConfig config' n)
      = map (fillLine (configured p h n)) skeleton.
Proof.
  intros Hs. unfold IaCService.generateTerraformConfig.
  cbn [provider withDeploymentConfig].
  destruct (supported_cases _ Hs) as [E|[E|[E|E]]].
  - destruct (aws_manifest_skeleton config E) as (skeleton & Hplaces & Hlines).
    exists skeleton. split; [exact Hplaces|]. rewrite E. exact Hlines.
  - destruct (azure_manifest_skeleton config E) as (skeleton & Hplaces & Hlines).
    exists skeleton. split; [exact Hplaces|]. rewrite E. exact Hlines.
  - destruct (gcp_manifest_skeleton config E) as (skeleton & Hplaces & Hlines).
    exists skeleton. split; [exact Hplaces|]. rewrite E. exact Hlines.
  - destruct (do_manifest_skeleton config E) as (skeleton & Hplaces & Hlines).
    exists skeleton. split; [exact Hplaces|]. rewrite E. exact Hlines.
Qed.

(** C4 (as amended).  For a supported provider, the deployment script, the
    Terraform manifest and the compose manifest each have a skeleton that
    does not depend on the port, the health-check path or the artifact
    name: lines of fixed text and lines with places for the three values.
    The lines with a place are exactly the listed ones ([scriptPlaces],
    [manifestPlaces], [composePortLine]); for every port, path and name
    each artifact is its skeleton with the places filled with the
    configured value, the port in decimal digits.  So every place where an
    artifact renders one of the three values holds the configured value as
    it stands, the same in the three artifacts; but an artifact renders
    only the values its places name: no port or path in the AWS manifest,
    no path in the Azure and GCP artifacts, only the port in the compose
    manifest (where no external service takes the key [app]). *)
Theorem cross_artifact_values (config : CICDConfig) :
  supported (provider (cloud config)) = true ->
  appEntryKept config ->
  exists script_skeleton manifest_skeleton compose_skeleton,
    filter hasPlace script_skeleton = scriptPlaces (cloud config) /\
    filter hasPlace manifest_skeleton = manifestPlaces (cloud config) /\
    filter hasPlace compose_skeleton = [composePortLine] /\
    forall (p : Z) (h n : string),
      let cloud' :=
        withDeploymentConfig
          (withPort p (withHealthCheckPath h (deploymentConfig (cloud config))))
          (cloud config) in
      let value := configured p h n in
      printsInDecimal p ->
      singleLineFields cloud' n ->
      (exists script,
         generateDeploymentScript cloud' n = Return script /\
         lines script = map (fillLine value) script_skeleton) /\
      lines (IaCService.generateTerraformConfig cloud' n)
      = map (fillLine value) manifest_skeleton /\
      lines (generateDockerCompose (withProjectName n (withCloud cloud' config)))
      = map (fillLine value) compose_skeleton.
Proof.
  intros Hs Hkept.
  destruct (script_skeleton_dispatch (cloud config) Hs) as (ss & Hss & Hscript).
  destruct (manifest_skeleton_dispatch (cloud config) Hs) as (ms & Hms & Hmanifest).
  destruct (compose_skeleton config Hkept) as (cs & Hcs & Hcompose).
  exists ss, ms, cs. repeat (split; [assumption|]).
  intros p h n cloud' value _ Hlines.
  split; [exact (Hscript p h n Hlines)|].
  split; [exact (Hmanifest p h n Hlines)|].
  apply Hcompose.
Qed.

Lemma cross_artifact_values_witness :
  let config := sampleConfig (sampleCloud "digitalocean" doToken sampleDeployment)
                             [sampleService "Main DB" "postgresql" true] in
  let cloud' :=
    withDeploymentConfig
      (withPort 3000 (withHealthCheckPath "/ready" (deploymentConfig (cloud config))))
      (cloud config) in
  exists script,
    generateDeploymentScript cloud' "shop" = Return script /\
    In "          http_port: 3000" (lines script) /\
    In "      http_port = 3000" (lines (IaCService.generateTerraformConfig cloud' "shop")) /\
    In ("      - " ++ dq ++ "3000:3000" ++ dq)
       (lines (generateDockerCompose (withProjectName "shop" (withCloud cloud' config)))).
Proof.
  cbv zeta.
  assert (appEntryKept
            (sampleConfig (sampleCloud "digitalocean" doToken sampleDeployment)
               [sampleService "Main DB" "postgresql" true])) as Hkept.
  { intros s [<-|[]] _. discriminate. }
  destruct (cross_artifact_values
              (sampleConfig (sampleCloud "digitalocean" doToken sampleDeployment)
                 [sampleService "Main DB" "postgresql" true]) eq_refl Hkept)
    as (ss & ms & cs & Hss & Hms & Hcs & Hvalues).
  destruct (Hvalues 3000 "/ready" "shop") as ((script & Hscript & Hlines) & Hmanifest & Hcompose).
  { unfold printsInDecimal. lia. }
  { repeat split; vm_compute; reflexivity. }
  exists script. split; [exact Hscript|].
  rewrite Hlines, Hmanifest, Hcompose.
  split; [|split].
  - apply (in_map (fillLine (configured 3000 "/ready" "shop")) ss
                  [Text "          http_port: "; Place PortValue]).
    apply (proj1 (filter_In hasPlace _ ss)). rewrite Hss. vm_compute. tauto.
  - apply (in_map (fillLine (configured 3000 "/ready" "shop")) ms
                  [Text "      http_port = "; Place PortValue]).
    apply (proj1 (filter_In hasPlace _ ms)). rewrite Hms. vm_compute. tauto.
  - apply (in_map (fillLine (configured 3000 "/ready" "shop")) cs composePortLine).
    apply (proj1 (filter_In hasPlace _ cs)). rewrite Hcs. now left.
Defined.

(** C4 (as stated) fails: the health-check path and the artifact name of
    the AWS deployment script are in neither the AWS manifest (which has
    no port either) nor the compose manifest. *)
Lemma health_path_missing_from_manifests :
  let config := sampleConfig (sampleCloud "aws" awsKeys sampleDeployment) [] in
  exists script,
    generateDeploymentScript (cloud config) "shop" = Return script /\
    includes script "/healthz" = true /\
    includes (IaCService.generateTerraformConfig (cloud config) "shop") "/healthz" = false /\
    includes (generateDockerCompose config) "/healthz" = false /\
    includes script "8080" = true /\
    includes (IaCService.generateTerraformConfig (cloud config) "shop") "8080" = false /\
    includes script "shop" = true /\
    includes (generateDockerCompose config) "shop" = false.
Proof.
  cbv zeta. eexists. split; [reflexivity|].
  repeat split; vm_compute; reflexivity.
Qed.
(** ** Instance counts (C5) *)

Section CountPlaces.

Variable config : CloudConfig.
Variable dockerImageName : string.
Hypothesis Hfields : singleLineFields config dockerImageName.

Let updated (flag : bool) (lo hi : option Z) : CloudConfig :=
  withDeploymentConfig (withAutoScaling flag (withInstanceBounds lo hi (deploymentConfig config)))
                       config.

Let Skeleton (artifact : CloudConfig -> string -> string) (places : list (list (Piece Count)))
  : Prop :=
  exists skeleton,
    filter hasPlace skeleton = places /\
    forall flag lo hi,
      lines (artifact (updated flag lo hi) dockerImageName)
      = map (fillLine (counted lo hi)) skeleton.

Ltac read_updated :=
  cbn [withDeploymentConfig withAutoScaling withInstanceBounds deploymentConfig region provider
       healthCheckPath loadBalancerUrl useLoadBalancer port minInstances maxInstances
       deploymentStrategy credentials].

Ltac choose_skeleton :=
  lazymatch goal with
  | |- exists skeleton, filter hasPlace skeleton = ?places /\ _ =>
      let flag := fresh "flag" in
      let lo := fresh "lo" in
      let hi := fresh "hi" in
      eexists; split; cycle 1;
      [ intros flag lo hi;
        read_lines;
        unfold counted, count; rewrite ?countOr_orElse;
        fill_skeleton Count lo hi lo places
      | vm_compute; reflexivity ]
  end.

Ltac count_skeleton E auth :=
  destruct Hfields as (Hname & Hregion & Hpath & Hurl & Harn);
  unfold Skeleton, updated, scriptCountPlaces, manifestCountPlaces;
  rewrite E; cbv beta iota delta [String.eqb Ascii.eqb Bool.eqb];
  unfold_scripts; unfold_manifests; read_updated;
  destruct (useLoadBalancer (deploymentConfig config));
  [ destruct (loadBalancerUrl (deploymentConfig config)) as [[|? ?]|] | ];
  destruct auth;
  cbn [andb truthy interpolate] in *; unfold_auth; cbv zeta;
  choose_skeleton.

Lemma aws_script_counts :
  provider config = "aws" ->
  Skeleton generateAWSDeploymentScript (scriptCountPlaces config dockerImageName).
Proof.
  intros E.
  count_skeleton E (useOIDC (credentials config) && truthy (oidcRoleArn (credentials config))).
Qed.

Lemma azure_script_counts :
  provider config = "azure" ->
  Skeleton generateAzureDeploymentScript (scriptCountPlaces config dockerImageName).
Proof. intros E. count_skeleton E (useOIDC (credentials config)). Qed.

Lemma gcp_script_counts :
  provider config = "gcp" ->
  Skeleton generateGCPDeploymentScript (scriptCountPlaces config dockerImageName).
Proof. intros E. count_skeleton E (useOIDC (credentials config)). Qed.

Lemma do_script_counts :
  provider config = "digitalocean" ->
  Skeleton generateDigitalOceanDeploymentScript (scriptCountPlaces config dockerImageName).
Proof. intros E. count_skeleton E true. Qed.

Ltac manifest_counts E :=
  destruct Hfields as (Hname & Hregion & Hpath & Hurl & Harn);
  unfold Skeleton, updated, manifestCountPlaces;
  rewrite E; cbv beta iota delta [String.eqb Ascii.eqb Bool.eqb];
  unfold_manifests; read_updated; cbv zeta;
  choose_skeleton.

Lemma aws_manifest_counts :
  provider config = "aws" ->
  Skeleton IaCService.generateAWSTerraform (manifestCountPlaces config).
Proof. intros E. manifest_counts E. Qed.

Lemma azure_manifest_counts :
  provider config = "azure" ->
  Skeleton IaCService.generateAzureTerraform (manifestCountPlaces config).
Proof. intros E. manifest_counts E. Qed.

Lemma gcp_manifest_counts :
  provider config = "gcp" ->
  Skeleton IaCService.generateGCPTerraform (manifestCountPlaces config).
Proof. intros E. manifest_counts E. Qed.

Lemma do_manifest_counts :
  provider config = "digitalocean" ->
  Skeleton IaCService.generateDOTerraform (manifestCountPlaces config).
Proof. intros E. manifest_counts E. Qed.

End CountPlaces.

Lemma script_counts_dispatch (config : CloudConfig) (dockerImageName : string) :
  supported (provider config) = true ->
  singleLineFields config dockerImageName ->
  exists skeleton,
    filter hasPlace skeleton = scriptCountPlaces config dockerImageName /\
    forall flag lo hi,
    exists script,
      generateDeploymentScript
        (withDeploymentConfig
           (withAutoScaling flag (withInstanceBounds lo hi (deploymentConfig config))) config)
        dockerImageName = Return script /\
      lines script = map (fillLine (counted lo hi)) skeleton.
Proof.
  intros Hs Hfields.
  assert (forall flag lo hi,
            supported
              (provider
                 (withDeploymentConfig
                    (withAutoScaling flag (withInstanceBounds lo hi (deploymentConfig config)))
                    config)) = true) as Hs' by (intros; exact Hs).
  destruct (supported_cases _ Hs) as [E|[E|[E|E]]].
  - destruct (aws_script_counts config dockerImageName Hfields E)
      as (skeleton & Hplaces & Hlines).
    exists skeleton. split; [exact Hplaces|]. intros flag lo hi. eexists.
    split; [|apply Hlines]. rewrite dispatch_script by apply Hs'.
    cbn [provider withDeploymentConfig]. rewrite E. reflexivity.
  - destruct (azure_script_counts config dockerImageName Hfields E)
      as (skeleton & Hplaces & Hlines).
    exists skeleton. split; [exact Hplaces|]. intros flag lo hi. eexists.
    split; [|apply Hlines]. rewrite dispatch_script by apply Hs'.
    cbn [provider withDeploymentConfig]. rewrite E. reflexivity.
  - destruct (gcp_script_counts config dockerImageName Hfields E)
      as (skeleton & Hplaces & Hlines).
    exists skeleton. split; [exact Hplaces|]. intros flag lo hi. eexists.
    split; [|apply Hlines]. rewrite dispatch_script by apply Hs'.
    cbn [provider withDeploymentConfig]. rewrite E. reflexivity.
  - destruct (do_script_counts config dockerImageName Hfields E)
      as (skeleton & Hplaces & Hlines).
    exists skeleton. split; [exact Hplaces|]. intros flag lo hi. eexists.
    split; [|apply Hlines]. rewrite dispatch_script by apply Hs'.
    cbn [provider withDeploymentConfig]. rewrite E. reflexivity.
Qed.

Lemma manifest_counts_dispatch (config : CloudConfig) (dockerImageName : string) :
  supported (provider config) = true ->
  singleLineFields config dockerImageName ->
  exists skeleton,
    filter hasPlace skeleton = manifestCountPlaces config /\
    forall flag lo hi,
      lines (IaCService.generateTerraformConfig
               (withDeploymentConfig
                  (withAutoScaling flag (withInstanceBounds lo hi (deploymentConfig config)))
                  config)
               dockerImageName)
      = map (fillLine (counted lo hi)) skeleton.
Proof.
  intros Hs Hfields. unfold IaCService.generateTerraformConfig.
  cbn [provider withDeploymentConfig].
  destruct (supported_cases _ Hs) as [E|[E|[E|E]]].
  - destruct (aws_manifest_counts config dockerImageName Hfields E)
      as (skeleton & Hplaces & Hlines).
    exists skeleton. split; [exact Hplaces|]. rewrite E. exact Hlines.
  - destruct (azure_manifest_counts config dockerImageName Hfields E)
      as (skeleton & Hplaces & Hlines).
    exists skeleton. split; [exact Hplaces|]. rewrite E. exact Hlines.
  - destruct (gcp_manifest_counts config dockerImageName Hfields E)
      as (skeleton & Hplaces & Hlines).
    exists skeleton. split; [exact Hplaces|]. rewrite E. exact Hlines.
  - destruct (do_manifest_counts config dockerImageName Hfields E)
      as (skeleton & Hplaces & Hlines).
    exists skeleton. split; [exact Hplaces|]. rewrite E. exact Hlines.
Qed.

(** C5 (as amended).  No generator reads [autoScaling].  For a supported
    provider, the deployment script and the Terraform manifest each have a
    skeleton that depends on neither the flag nor the two bounds; its lines
    with a place for a count are exactly the listed ones
    ([scriptCountPlaces]: the AWS desired count and canary count, the GCP
    minimum and maximum, the DigitalOcean instance count;
    [manifestCountPlaces]: the DigitalOcean instance count), and for every
    flag and bounds the artifact is the skeleton with the places filled:
    with the minimum, or 1 where the minimum is absent or 0 (for GCP, 0
    where it is absent or 0), and with the maximum, or 1 where it is absent
    or 0.  A bound other than 0 is rendered as it is set, whatever the
    flag.  The compose manifest depends on neither the flag nor the
    bounds. *)
Theorem instance_counts (config : CICDConfig) (dockerImageName : string) :
  supported (provider (cloud config)) = true ->
  singleLineFields (cloud config) dockerImageName ->
  exists script_skeleton manifest_skeleton,
    filter hasPlace script_skeleton = scriptCountPlaces (cloud config) dockerImageName /\
    filter hasPlace manifest_skeleton = manifestCountPlaces (cloud config) /\
    forall (flag : bool) (lo hi : option Z),
      let cloud' :=
        withDeploymentConfig
          (withAutoScaling flag (withInstanceBounds lo hi (deploymentConfig (cloud config))))
          (cloud config) in
      (forall c, printsInDecimal (count lo hi c)) ->
      (exists script,
         generateDeploymentScript cloud' dockerImageName = Return script /\
         lines script = map (fillLine (counted lo hi)) script_skeleton) /\
      lines (IaCService.generateTerraformConfig cloud' dockerImageName)
      = map (fillLine (counted lo hi)) manifest_skeleton /\
      generateDockerCompose (withCloud cloud' config) = generateDockerCompose config.
Proof.
  intros Hs Hfields.
  destruct (script_counts_dispatch _ _ Hs Hfields) as (ss & Hss & Hscript).
  destruct (manifest_counts_dispatch _ _ Hs Hfields) as (ms & Hms & Hmanifest).
  exists ss, ms. repeat (split; [assumption|]).
  intros flag lo hi cloud' _.
  split; [apply Hscript|]. split; [apply Hmanifest|]. reflexivity.
Qed.

Lemma instance_counts_witness :
  let config := sampleConfig (sampleCloud "gcp" gcpKeys sampleDeployment) [] in
  let cloud' :=
    withDeploymentConfig
      (withAutoScaling false (withInstanceBounds (Some 0) None (deploymentConfig (cloud config))))
      (cloud config) in
  exists script,
    generateDeploymentScript cloud' "shop" = Return script /\
    In ("        --min-instances 0 " ++ bslash) (lines script) /\
    In ("        --max-instances 1 " ++ bslash) (lines script).
Proof.
  cbv zeta.
  destruct (instance_counts (sampleConfig (sampleCloud "gcp" gcpKeys sampleDeployment) [])
                            "shop" eq_refl)
    as (ss & ms & Hss & Hms & Hcounts).
  { repeat split; vm_compute; reflexivity. }
  destruct (Hcounts false (Some 0) None) as ((script & Hscript & Hlines) & _).
  { intros [| |]; vm_compute; split; reflexivity. }
  exists script. split; [exact Hscript|].
  rewrite Hlines. split.
  - apply (in_map (fillLine (counted (Some 0) None)) ss
                  [Text "        --min-instances "; Place MinimumOrZero; Text (" " ++ bslash)]).
    apply (proj1 (filter_In hasPlace _ ss)). rewrite Hss. vm_compute. tauto.
  - apply (in_map (fillLine (counted (Some 0) None)) ss
                  [Text "        --max-instances "; Place MaximumOrOne; Text (" " ++ bslash)]).
    apply (proj1 (filter_In hasPlace _ ss)). rewrite Hss. vm_compute. tauto.
Defined.

(** C5 (as stated) fails: with [autoScaling] unset, a minimum of 3 is
    rendered as 3 by the AWS script, and absent bounds give the GCP script
    a minimum of 0. *)
Lemma fixed_capacity_not_enforced :
  let three := {| tier := "production"; autoScaling := false;
                  minInstances := Some 3; maxInstances := Some 5;
                  healthCheckPath := "/healthz"; port := 8080;
                  useLoadBalancer := false; loadBalancerUrl := None;
                  deploymentStrategy := rolling; environmentVariables := [] |} in
  let absent := {| tier := "production"; autoScaling := false;
                   minInstances := None; maxInstances := None;
                   healthCheckPath := "/healthz"; port := 8080;
                   useLoadBalancer := false; loadBalancerUrl := None;
                   deploymentStrategy := rolling; environmentVariables := [] |} in
  (exists script,
     generateDeploymentScript (sampleCloud "aws" awsKeys three) "shop" = Return script /\
     In ("            --desired-count 3 " ++ bslash) (lines script) /\
     ~ In ("            --desired-count 1 " ++ bslash) (lines script)) /\
  (exists script,
     generateDeploymentScript (sampleCloud "gcp" gcpKeys absent) "shop" = Return script /\
     In ("        --min-instances 0 " ++ bslash) (lines script) /\
     ~ In ("        --min-instances 1 " ++ bslash) (lines script)).
Proof.
  cbv zeta. split; eexists; (split; [reflexivity|]); split;
    first [ apply In_by_eqb | apply not_In_by_eqb ]; vm_compute; reflexivity.
Qed.

(** ** The reachable-URL block (C6) *)

(** Cuts the lines read from a script before the block they must end
    with. *)
Ltac cut_before_end :=
  match goal with
  | |- exists before, ?L = (before ++ ?block)%list /\ _ =>
      exists (firstn (List.length L - List.length block) L);
      split; vm_compute; reflexivity
  end.

Section UrlResolution.

Variable config : CloudConfig.
Variable dockerImageName : string.
Hypothesis fields : singleLineFields config dockerImageName.

Let ends (script : string) : Prop :=
  exists before,
    lines script = (before ++ (resolutionLines config dockerImageName ++ ["    "]))%list /\
    filter assignsDeployedUrl before = [].

Ltac resolve_cases E :=
  pose proof fields as (Hname & Hregion & Hpath & Hurl & Harn);
  unfold ends, resolutionLines, stableUrl, lookupLines; rewrite E;
  cbn [String.eqb Ascii.eqb Bool.eqb];
  unfold_scripts;
  destruct (useLoadBalancer (deploymentConfig config));
  [ destruct (loadBalancerUrl (deploymentConfig config)) as [[|c url]|] | ];
  cbn [andb truthy interpolate] in *.

Lemma aws_resolution :
  provider config = "aws" -> ends (generateAWSDeploymentScript config dockerImageName).
Proof.
  intros E. resolve_cases E;
    destruct (useOIDC (credentials config) && truthy (oidcRoleArn (credentials config)));
    unfold_auth; cbv zeta; read_lines; cut_before_end.
Qed.

Lemma azure_resolution :
  provider config = "azure" -> ends (generateAzureDeploymentScript config dockerImageName).
Proof.
  intros E. resolve_cases E;
    destruct (useOIDC (credentials config));
    unfold_auth; cbv zeta; read_lines; cut_before_end.
Qed.

Lemma gcp_resolution :
  provider config = "gcp" -> ends (generateGCPDeploymentScript config dockerImageName).
Proof.
  intros E. resolve_cases E;
    destruct (useOIDC (credentials config));
    unfold_auth; cbv zeta; read_lines; cut_before_end.
Qed.

Lemma do_resolution :
  provider config = "digitalocean" ->
  ends (generateDigitalOceanDeploymentScript config dockerImageName).
Proof.
  intros E. resolve_cases E; cbv zeta; read_lines; cut_before_end.
Qed.

End UrlResolution.




(** ** Notifications (C7, C8) *)

Import NotificationService.

Lemma split_last_two (base token chat : string) :
  noSlash token = true -> noSlash chat = true ->
  split "/" (base ++ "/" ++ token ++ "/" ++ chat) = (split "/" base ++ [token; chat])%list.
Proof.
  intros Ht Hc.
  change (base ++ "/" ++ token ++ "/" ++ chat) with (base ++ String "/" (token ++ String "/" chat)).
  rewrite !split_app_sep, (split_single _ _ Ht), (split_single _ _ Hc). reflexivity.
Qed.

Lemma at_index_last_two (front : list string) (token chat : string) :
  let parts := (front ++ [token; chat])%list in
  at_index parts (Z.of_nat (List.length parts) - 2) = Some token /\
  at_index parts (Z.of_nat (List.length parts) - 1) = Some chat.
Proof.
  cbv zeta. unfold at_index. rewrite length_app. cbn [List.length].
  split.
  - destruct (_ <? 0) eqn:E; [apply Z.ltb_lt in E; lia|].
    replace (Z.to_nat _) with (List.length front + 0)%nat by lia.
    now rewrite nth_error_app2, Nat.add_0_r, Nat.sub_diag by lia.
  - destruct (_ <? 0) eqn:E; [apply Z.ltb_lt in E; lia|].
    replace (Z.to_nat _) with (List.length front + 1)%nat by lia.
    rewrite nth_error_app2 by lia.
    now replace (List.length front + 1 - List.length front)%nat with 1%nat by lia.
Qed.

Lemma telegram_routine_targets (botToken chatId : string) :
  Occurs (botApiUrl botToken) (telegramRoutine (Some botToken) (Some chatId)) /\
  Occurs (chatIdField chatId) (telegramRoutine (Some botToken) (Some chatId)).
Proof.
  unfold telegramRoutine, botApiUrl, chatIdField. cbn [interpolate]. split.
  - eapply Occurs_template.
    + do 17 right. left. reflexivity.
    + exists "    curl -X POST '", ("' " ++ bslash). now rewrite !append_assoc.
  - eapply Occurs_template.
    + do 20 right. left. reflexivity.
    + exists "      ", ",". now rewrite !append_assoc.
Qed.

Lemma telegram_platform (webhook : string) :
  webhook <> EmptyString ->
  platformNotification
    {| NotificationPlatform.type := "telegram";
       NotificationPlatform.webhook := Some webhook;
       NotificationPlatform.apiKey := None |}
  = generateTelegramNotification webhook.
Proof.
  intros H. unfold platformNotification. cbn [NotificationPlatform.webhook NotificationPlatform.type].
  destruct webhook; [contradiction|]. reflexivity.
Qed.

Lemma split_two (token chat : string) :
  noSlash token = true -> noSlash chat = true ->
  split "/" (token ++ "/" ++ chat) = [token; chat].
Proof.
  intros Ht Hc.
  change (token ++ "/" ++ chat) with (token ++ String "/" chat).
  rewrite split_app_sep, (split_single _ _ Ht), (split_single _ _ Hc). reflexivity.
Qed.

(** Every webhook either has no [/] in it or ends in two pieces, with no
    [/] in them, that follow a [/] or start the text. *)
Lemma last_two_pieces (webhook : string) :
  noSlash webhook = true \/
  exists front token chat,
    webhook = front ++ token ++ "/" ++ chat /\
    (front = EmptyString \/ EndsWith front "/") /\
    noSlash token = true /\ noSlash chat = true.
Proof.
  unfold noSlash. induction webhook as [|c w IH]; [now left|].
  destruct (Ascii.eqb c "/") eqn:Ec.
  - apply Ascii.eqb_eq in Ec. subst c. right.
    destruct IH as [Hw|(front & token & chat & -> & Hfront & Ht & Hc)].
    + exists EmptyString, EmptyString, w. repeat split; auto.
    + destruct Hfront as [->|[body ->]].
      * exists "/", token, chat. repeat split; auto. right. now exists EmptyString.
      * exists (String "/" (body ++ "/")), token, chat. repeat split; auto.
        right. now exists (String "/" body).
  - destruct IH as [Hw|(front & token & chat & -> & Hfront & Ht & Hc)].
    + left. cbn [lacks]. now rewrite Ec, Hw.
    + right. destruct Hfront as [->|[body ->]].
      * exists EmptyString, (String c token), chat. repeat split; auto.
        cbn [lacks]. now rewrite Ec, Ht.
      * exists (String c (body ++ "/")), token, chat. repeat split; auto.
        right. now exists (String c body).
Qed.




(** C8 (as amended).  The lifecycle wrapper is, for each of the three
    outcomes, the email call followed by the four channel calls, each
    channel call inside its own [try]/[catch].  The email routine is always
    invoked; when it completes, every channel routine is invoked whichever
    channels fail; when it raises, no channel routine is invoked. *)
Theorem lifecycle_wrapper_isolation :
  renderPost postBlock = generatePostStageNotifications /\
  forall (o : Outcome) (raises : Routine -> bool),
    invoked raises o =
    if raises Email then [Email] else [Email; Slack; Discord; Teams; Telegram].
Proof.
  split; [reflexivity|].
  intros o raises. unfold invoked, scriptBlock, channels.
  cbn [map runBlock runStatement fst].
  destruct (raises Email); reflexivity.
Qed.

(** C8 (as stated) fails: the email call is not guarded, so when the email
    routine alone fails no channel routine runs. *)
Lemma email_failure_stops_channels :
  invoked (onlyFails Email) SUCCESS = [Email] /\
  invoked (onlyFails Email) FAILURE = [Email] /\
  invoked (onlyFails Email) UNSTABLE = [Email] /\
  ~ In Slack (invoked (onlyFails Email) FAILURE).
Proof.
  repeat split; try reflexivity.
  cbn. intros [H|[]]. discriminate H.
Qed.

(** ** Compose lookup (C9) *)

(** The text of a property of an object starts a line of the text of the
    object, or starts that text. *)
Lemma yamlify_property_place (o : JsObject) (indent : nat) (key : string) (v : JsValue) :
  getProperty o key = Some v ->
  exists before after,
    yamlify o indent = before ++ yamlifyProperty indent key v ++ after /\
    (before = EmptyString \/ EndsWith before nl).
Proof.
  induction o as [|[k' v'] o IH]; cbn [getProperty yamlify]; [discriminate|].
  destruct (String.eqb k' key) eqn:E.
  - apply String.eqb_eq in E. subst k'. injection 1 as ->.
    exists EmptyString, (yamlify o indent). split; [reflexivity | now left].
  - intros H. destruct (IH H) as (before & after & -> & Hb).
    exists (yamlifyProperty indent k' v' ++ before), after.
    split; [now rewrite append_assoc|]. right.
    destruct Hb as [->|Hb]; [rewrite append_nil_r; apply yamlifyProperty_ends|].
    now apply EndsWith_app.
Qed.

(** An entry of [services] stands in the manifest from the start of a
    line. *)
Lemma compose_entry_line (config : CICDConfig) (key : string) (v : JsValue) :
  getProperty (composeServices config) key = Some v ->
  Occurs (nl ++ yamlifyProperty 2 key v) (generateDockerCompose config).
Proof.
  intros H. rewrite compose_text.
  destruct (yamlify_property_place _ 2 _ _ H) as (before & after & -> & [->|[body ->]]).
  - exists ("version: " ++ dq ++ "3.8" ++ dq ++ nl ++ "services:"), after.
    rewrite !append_assoc. reflexivity.
  - exists ("version: " ++ dq ++ "3.8" ++ dq ++ nl ++ "services:" ++ nl ++ body), after.
    rewrite !append_assoc. reflexivity.
Qed.

Lemma getServiceConfig_product (a b : ExternalService.t) :
  toLowerCase (ExternalService.service a) = toLowerCase (ExternalService.service b) ->
  getServiceConfig a = getServiceConfig b.
Proof. intros H. unfold getServiceConfig. cbv zeta. now rewrite H. Qed.




(** * Further properties of the code *)

(** ** Text: [includes] *)

Lemma prefix_cons (c d : ascii) (p s : string) :
  prefix (String c p) (String d s) = if ascii_dec c d then prefix p s else false.
Proof. reflexivity. Qed.

Lemma prefix_app (p s : string) : prefix p s = true <-> exists rest, s = p ++ rest.
Proof.
  revert s. induction p as [|c p IH]; intros s.
  - split; [intros _; now exists s | intros _; destruct s; reflexivity].
  - destruct s as [|d s].
    + split; [discriminate | intros (rest & H); discriminate H].
    + rewrite prefix_cons. cbn [append]. destruct (ascii_dec c d) as [->|Hne].
      * rewrite IH. split; intros (rest & H); exists rest; congruence.
      * split; [discriminate | intros (rest & H); congruence].
Qed.

Lemma Occurs_empty (p : string) : Occurs p EmptyString -> p = EmptyString.
Proof.
  intros (a & b & H). destruct a; [|discriminate H]. destruct p; [reflexivity | discriminate H].
Qed.

Lemma Occurs_cons (p : string) (c : ascii) (s : string) :
  Occurs p (String c s) <-> (exists rest, String c s = p ++ rest) \/ Occurs p s.
Proof.
  split.
  - intros ([|d a] & b & H).
    + left. now exists b.
    + right. exists a, b. cbn [append] in H. congruence.
  - intros [(rest & H)|(a & b & H)].
    + exists EmptyString, rest. exact H.
    + exists (String c a), b. cbn [append]. now rewrite H.
Qed.

(** [s.includes(p)] holds exactly when [p] occurs in [s]. *)
Lemma includes_Occurs (s p : string) : includes s p = true <-> Occurs p s.
Proof.
  unfold includes. induction s as [|c s IH]; cbn [index].
  - destruct p.
    + split; [intros _; apply Occurs_refl | reflexivity].
    + split; [discriminate | intros H; apply Occurs_empty in H; discriminate H].
  - rewrite Occurs_cons, <- prefix_app, <- IH.
    destruct (prefix p (String c s)); [tauto|].
    destruct (index 0 p s); split; auto; intros [H|H]; auto; discriminate.
Qed.

Lemma includes_false (s p : string) : includes s p = false <-> ~ Occurs p s.
Proof.
  rewrite <- includes_Occurs. destruct (includes s p); split; congruence.
Qed.

Lemma Occurs_concat (x sep : string) (ls : list string) :
  In x ls -> Occurs x (String.concat sep ls).
Proof.
  induction ls as [|l ls IH]; [contradiction|].
  intros [->|Hin]; destruct ls as [|l' ls]; cbn [String.concat].
  - apply Occurs_refl.
  - apply Occurs_app_l, Occurs_refl.
  - contradiction.
  - apply Occurs_app_r, Occurs_app_r, IH, Hin.
Qed.

(** ** The [.gitignore] update *)

Import CICDGeneratorService.

Lemma filter_nil_all {A : Type} (f : A -> bool) (l : list A) (x : A) :
  filter f l = [] -> In x l -> f x = false.
Proof.
  induction l as [|y l IH]; [contradiction|]. cbn [filter].
  destruct (f y) eqn:E; [discriminate|].
  intros H [->|Hin]; auto.
Qed.

Lemma updated_gitignore_includes (content : string) (entry : string) :
  In entry entriesToAdd ->
  let newEntries := filter (fun e => negb (includes content e)) entriesToAdd in
  forall separator,
    includes (content ++ separator ++ String.concat nl newEntries ++ nl) entry = true.
Proof.
  intros Hin newEntries separator. apply includes_Occurs.
  destruct (includes content entry) eqn:E.
  - apply Occurs_app_l. now apply includes_Occurs.
  - apply Occurs_app_r, Occurs_app_r, Occurs_app_l, Occurs_concat.
    apply filter_In. split; [exact Hin | now rewrite E].
Qed.

(** X1.  After [updateRootGitignore] the project has a [.gitignore], and it
    includes each of the four entries; running the update again changes
    nothing. *)
Theorem gitignore_update_complete_and_idempotent (gitignore : option string) :
  (exists content,
     updateRootGitignore gitignore = Some content /\
     forall entry, In entry entriesToAdd -> includes content entry = true) /\
  updateRootGitignore (updateRootGitignore gitignore) = updateRootGitignore gitignore.
Proof.
  assert (exists content,
            updateRootGitignore gitignore = Some content /\
            forall entry, In entry entriesToAdd -> includes content entry = true) as H.
  { unfold updateRootGitignore.
    set (content := match gitignore with Some c => c | None => EmptyString end).
    destruct (filter (fun e => negb (includes content e)) entriesToAdd) as [|e es] eqn:Enew.
    - destruct gitignore as [c|]; [|discriminate Enew].
      exists c. split; [reflexivity|]. intros entry Hin.
      pose proof (filter_nil_all _ _ entry Enew Hin) as Hf. cbv beta in Hf.
      subst content. now destruct (includes c entry).
    - eexists. split; [reflexivity|]. intros entry Hin. rewrite <- Enew.
      now apply updated_gitignore_includes. }
  split; [exact H|].
  destruct H as (content & -> & Hall).
  unfold updateRootGitignore.
  replace (filter (fun e => negb (includes content e)) entriesToAdd) with (@nil string);
    [reflexivity|].
  symmetry. unfold entriesToAdd. cbn [filter].
  rewrite !Hall by (cbn; tauto). reflexivity.
Qed.

(** X2.  [updateRootGitignore] only appends: what the file held stays at its
    start, and a file that includes the four entries is left as it is. *)
Theorem gitignore_update_appends (content : string) :
  (exists added, updateRootGitignore (Some content) = Some (content ++ added)) /\
  ((forall entry, In entry entriesToAdd -> Occurs entry content) ->
   updateRootGitignore (Some content) = Some content).
Proof.
  split.
  - unfold updateRootGitignore.
    destruct (filter _ entriesToAdd); [exists EmptyString; now rewrite append_nil_r|].
    eexists. reflexivity.
  - intros Hall. unfold updateRootGitignore.
    replace (filter (fun e => negb (includes content e)) entriesToAdd) with (@nil string);
      [reflexivity|].
    symmetry. unfold entriesToAdd. cbn [filter].
    rewrite !(proj2 (includes_Occurs content _)) by (apply Hall; cbn; tauto). reflexivity.
Qed.

Lemma lines_added_entries (es : list string) (x : string) :
  (forall e, In e es -> SingleLine e) ->
  In x (lines (String.concat nl es ++ nl)) -> In x es \/ x = EmptyString.
Proof.
  intros Hes Hin.
  replace (String.concat nl es ++ nl) with (String.concat nl es ++ nl ++ EmptyString) in Hin
    by reflexivity.
  rewrite lines_app_nl in Hin. apply in_app_or in Hin.
  destruct Hin as [Hin|[<-|[]]]; [|now right].
  destruct es as [|e es]; [destruct Hin as [<-|[]]; now right|].
  change (String.concat nl (e :: es)) with (template (e :: es)) in Hin.
  rewrite lines_template in Hin. apply in_flat_map in Hin.
  destruct Hin as (l & Hl & Hx). rewrite (lines_single l (Hes l Hl)) in Hx.
  destruct Hx as [<-|[]]. now left.
Qed.

(** X3.  The presence test of [updateRootGitignore] is a substring test: an
    entry that occurs anywhere in the file, be it inside a longer pattern
    or in a comment, is taken as present, and the update adds no line for
    it.  So a file that mentions [.env.local] never gets the line [.env]. *)
Theorem gitignore_substring_counts_as_present (content entry result : string) :
  In entry entriesToAdd ->
  Occurs entry content ->
  updateRootGitignore (Some content) = Some result ->
  In entry (lines result) -> In entry (lines content).
Proof.
  intros Hentry Hoccurs Hupdate Hline. apply includes_Occurs in Hoccurs.
  unfold updateRootGitignore in Hupdate.
  destruct (filter (fun e => negb (includes content e)) entriesToAdd) as [|e es] eqn:Enew.
  - injection Hupdate as <-. exact Hline.
  - assert (result = content ++ match content with
                                   | EmptyString => EmptyString
                                   | String _ _ => nl ++ nl
                                   end ++ String.concat nl (e :: es) ++ nl) as ->
      by congruence.
    clear Hupdate. rewrite <- Enew in Hline.
    destruct content as [|c content]; [destruct entry; [|discriminate Hoccurs]|].
    + exfalso. revert Hentry. cbn. intuition discriminate.
    + set (old := String c content) in *.
      replace (old ++ (nl ++ nl) ++
               String.concat nl (filter (fun e => negb (includes old e)) entriesToAdd) ++ nl)
        with (old ++ nl ++ (EmptyString ++ nl ++
               String.concat nl (filter (fun e => negb (includes old e)) entriesToAdd) ++ nl))
        in Hline by reflexivity.
      rewrite !lines_app_nl in Hline.
      apply in_app_or in Hline. destruct Hline as [Hline|Hline]; [exact Hline|].
      exfalso. apply in_app_or in Hline. destruct Hline as [[<-|[]]|Hline].
      * revert Hentry. cbn. intuition discriminate.
      * apply lines_added_entries in Hline.
        -- destruct Hline as [Hnew| ->].
           ++ apply filter_In in Hnew. destruct Hnew as [_ Hnew].
              rewrite Hoccurs in Hnew. discriminate Hnew.
           ++ revert Hentry. cbn. intuition discriminate.
        -- intros e' He'. apply filter_In in He'. destruct He' as [He' _].
           cbn in He'. destruct He' as [<-|[<-|[<-|[<-|[]]]]]; reflexivity.
Qed.

Lemma gitignore_substring_counts_as_present_witness :
  In ".env" entriesToAdd /\
  Occurs ".env" ".env.local" /\
  exists result,
    updateRootGitignore (Some ".env.local") = Some result /\
    ~ In ".env" (lines result).
Proof.
  assert (In ".env" entriesToAdd) as Hentry by (right; left; reflexivity).
  assert (Occurs ".env" ".env.local") as Hoccurs by (exists EmptyString, ".local"; reflexivity).
  split; [exact Hentry|]. split; [exact Hoccurs|].
  eexists. split; [reflexivity|]. intros Hline.
  apply (gitignore_substring_counts_as_present ".env.local" ".env" _ Hentry Hoccurs eq_refl)
    in Hline.
  destruct Hline as [H|[]]. discriminate H.
Defined.

(** ** Validation *)

Import ValidationService.

Lemma existsb_eqb_In (x : string) (l : list string) :
  existsb (String.eqb x) l = true <-> In x l.
Proof.
  rewrite existsb_exists. split.
  - intros (y & Hin & E). apply String.eqb_eq in E. now subst.
  - intros Hin. exists x. split; [exact Hin | apply String.eqb_refl].
Qed.

Lemma existsb_eqb_not_In (x : string) (l : list string) :
  existsb (String.eqb x) l = false <-> ~ In x l.
Proof.
  rewrite <- existsb_eqb_In. destruct (existsb _ l); split; congruence.
Qed.

Lemma ownEntry_Some (table : list (string * list string)) (k : string) (items : list string) :
  ownEntry table k = Some items -> In (k, items) table.
Proof.
  induction table as [|[k' items'] table IH]; cbn [ownEntry]; [discriminate|].
  destruct (String.eqb k' k) eqn:E.
  - apply String.eqb_eq in E. subst. injection 1 as ->. now left.
  - intros H. right. now apply IH.
Qed.

Lemma ownEntry_None (table : list (string * list string)) (k : string) :
  ~ In k (map fst table) -> ownEntry table k = None.
Proof.
  induction table as [|[k' items'] table IH]; cbn [ownEntry map fst]; [reflexivity|].
  intros H. destruct (String.eqb k' k) eqn:E.
  - apply String.eqb_eq in E. exfalso. apply H. now left.
  - apply IH. intros Hin. apply H. now right.
Qed.

(** X4.  [validateInstanceType] accepts an instance type only for one of the
    four providers of its table: for any other provider name it returns
    [false] whatever the instance type, except for the names every object
    inherits ([constructor], [toString], ...), for which it throws. *)
Theorem instance_type_of_unknown_provider (provider instanceType : string) :
  ~ In provider supportedProviders ->
  (In provider objectPrototypeMembers ->
     validateInstanceType provider instanceType
     = Throw "validTypes[provider]?.includes is not a function") /\
  (~ In provider objectPrototypeMembers ->
     validateInstanceType provider instanceType = Return false).
Proof.
  intros Hp. unfold validateInstanceType, tableEntry.
  rewrite (ownEntry_None validTypes provider Hp).
  split; intros H.
  - now rewrite (proj2 (existsb_eqb_In _ _) H).
  - now rewrite (proj2 (existsb_eqb_not_In _ _) H).
Qed.

Lemma instance_type_of_unknown_provider_witness :
  ~ In "oracle" supportedProviders /\
  validateInstanceType "oracle" "t2.micro" = Return false /\
  validateInstanceType "constructor" "t2.micro"
  = Throw "validTypes[provider]?.includes is not a function".
Proof.
  assert (forall p, existsb (String.eqb p) supportedProviders = false -> ~ In p supportedProviders)
    as Hnot by (intros p; apply existsb_eqb_not_In).
  split; [now apply Hnot|].
  split.
  - refine (proj2 (instance_type_of_unknown_provider "oracle" "t2.micro" _) _);
      [now apply Hnot | now apply existsb_eqb_not_In].
  - refine (proj1 (instance_type_of_unknown_provider "constructor" "t2.micro" _) _);
      [now apply Hnot | now apply existsb_eqb_In].
Defined.

Lemma accepted_instance_type (provider instanceType : string) :
  validateInstanceType provider instanceType = Return true <->
  exists items, In (provider, items) validTypes /\ In instanceType items.
Proof.
  unfold validateInstanceType, tableEntry. split.
  - destruct (ownEntry validTypes provider) as [items|] eqn:E.
    + intros H. exists items. split; [now apply ownEntry_Some|].
      apply existsb_eqb_In. congruence.
    + destruct (existsb _ objectPrototypeMembers); discriminate.
  - intros (items & Hin & Ht).
    cbn in Hin. destruct Hin as [E|[E|[E|[E|[]]]]]; injection E as <- <-;
      cbn [ownEntry validTypes String.eqb Ascii.eqb Bool.eqb];
      now rewrite (proj2 (existsb_eqb_In _ _) Ht).
Qed.

(** X5.  Every instance type the wizard offers for a provider
    ([collectDeploymentConfig]) is one [validateInstanceType] accepts for
    that provider, and no instance type is accepted for two providers. *)
Theorem wizard_instance_types_are_valid (provider instanceType : string) (choices : list string) :
  In (provider, choices) PromptService.instanceChoices ->
  In instanceType choices ->
  validateInstanceType provider instanceType = Return true /\
  forall other,
    validateInstanceType other instanceType = Return true -> other = provider.
Proof.
  intros Hp Ht.
  assert (validateInstanceType provider instanceType = Return true) as Hok.
  { cbn in Hp. destruct Hp as [E|[E|[E|[E|[]]]]]; injection E as <- <-;
      cbn in Ht; repeat (destruct Ht as [<-|Ht]; [reflexivity|]); contradiction. }
  split; [exact Hok|].
  intros other Hother.
  apply accepted_instance_type in Hother. destruct Hother as (items & Hin & Hitem).
  cbn in Hp. destruct Hp as [E|[E|[E|[E|[]]]]]; injection E as <- <-;
    cbn in Ht; repeat (destruct Ht as [<-|Ht]; [|]); try contradiction;
    cbn in Hin; destruct Hin as [E|[E|[E|[E|[]]]]]; injection E as <- <-;
    try reflexivity; cbn in Hitem;
    repeat (destruct Hitem as [Hitem|Hitem]; [discriminate Hitem|]); contradiction.
Qed.

Lemma wizard_instance_types_are_valid_witness :
  In ("gcp", ["e2-micro"; "e2-small"; "e2-medium"; "n1-standard-1"]) PromptService.instanceChoices /\
  In "e2-small" ["e2-micro"; "e2-small"; "e2-medium"; "n1-standard-1"] /\
  validateInstanceType "gcp" "e2-small" = Return true.
Proof.
  assert (In ("gcp", ["e2-micro"; "e2-small"; "e2-medium"; "n1-standard-1"])
             PromptService.instanceChoices) as Hp by (cbn; tauto).
  assert (In "e2-small" ["e2-micro"; "e2-small"; "e2-medium"; "n1-standard-1"]) as Ht
      by (cbn; tauto).
  split; [exact Hp|]. split; [exact Ht|].
  exact (proj1 (wizard_instance_types_are_valid _ _ _ Hp Ht)).
Defined.

(** X6.  [validateDockerfile] returns [true] exactly when the file exists and
    its content has the upper-case text [FROM] somewhere in it; it never
    returns [false]: a missing file and a content without [FROM] both
    raise an error whose message starts with
    [Dockerfile validation failed:]. *)
Theorem dockerfile_validation (readFile : string -> option string) (dockerfilePath : string) :
  (validateDockerfile readFile dockerfilePath = Return true <->
   exists content, readFile dockerfilePath = Some content /\ Occurs "FROM" content) /\
  validateDockerfile readFile dockerfilePath <> Return false /\
  (forall message,
     validateDockerfile readFile dockerfilePath = Throw message ->
     startsWith message "Dockerfile validation failed:" = true).
Proof.
  unfold validateDockerfile.
  destruct (readFile dockerfilePath) as [content|].
  - destruct (includes content "FROM") eqn:E; cbn [negb].
    + repeat split; try discriminate.
      exists content. split; [reflexivity | now apply includes_Occurs].
    + repeat split; try discriminate.
      * intros (c & Hc & Hocc). injection Hc as <-.
        apply includes_Occurs in Hocc. congruence.
      * intros message H. injection H as <-. reflexivity.
  - repeat split; try discriminate.
    + intros (c & Hc & _). discriminate Hc.
    + intros message H. injection H as <-. reflexivity.
Qed.

(** X7.  [validateProjectStructure] never returns [false]: it returns [true]
    or throws.  A language its table does not list is accepted without a
    look at the directory, and a directory that passes for [typescript]
    passes for [javascript]. *)
Theorem project_structure_validation (existsSync : string -> bool)
        (projectType language : string) :
  validateProjectStructure existsSync projectType language <> Return false /\
  (language <> "javascript" -> language <> "typescript" ->
   ~ In language objectPrototypeMembers ->
   validateProjectStructure existsSync projectType language = Return true) /\
  (validateProjectStructure existsSync projectType "typescript" = Return true ->
   validateProjectStructure existsSync projectType "javascript" = Return true).
Proof.
  split; [|split].
  - unfold validateProjectStructure.
    assert (forall files, requireFiles existsSync files <> Return false) as Hloop.
    { induction files as [|f files IH]; cbn [requireFiles]; [discriminate|].
      destruct (existsSync f); [exact IH | discriminate]. }
    destruct (tableEntry requiredFiles language); [apply Hloop | discriminate | apply Hloop].
  - intros Hjs Hts Hin. unfold validateProjectStructure, tableEntry.
    rewrite ownEntry_None.
    + now rewrite (proj2 (existsb_eqb_not_In _ _) Hin).
    + cbn. intros [E|[E|[]]]; congruence.
  - unfold validateProjectStructure, tableEntry.
    cbn [ownEntry requiredFiles String.eqb Ascii.eqb Bool.eqb requireFiles].
    destruct (existsSync "package.json"); [reflexivity | discriminate].
Qed.

(** ** Objects used as maps *)

Lemma hasProperty_keys (o : JsObject) (k : string) :
  hasProperty o k = true <-> In k (keys o).
Proof.
  induction o as [|[k' v] o IH]; cbn [hasProperty keys map fst]; [split; [discriminate | intros []]|].
  rewrite orb_true_iff, String.eqb_eq. unfold keys in IH. rewrite IH. cbn [In]. tauto.
Qed.

Lemma hasProperty_keys_false (o : JsObject) (k : string) :
  hasProperty o k = false <-> ~ In k (keys o).
Proof.
  rewrite <- hasProperty_keys. destruct (hasProperty o k); split; congruence.
Qed.

Lemma getProperty_keys (o : JsObject) (k : string) :
  In k (keys o) <-> exists v, getProperty o k = Some v.
Proof.
  induction o as [|[k' v'] o IH]; cbn [getProperty keys map fst].
  - split; [contradiction | intros (v & H); discriminate H].
  - destruct (String.eqb k' k) eqn:E.
    + apply String.eqb_eq in E. split; [intros _; eauto | intros _; now left].
    + apply String.eqb_neq in E. unfold keys in IH. rewrite <- IH. cbn [In]. tauto.
Qed.

Lemma keys_replaceProperty (o : JsObject) (k : string) (v : JsValue) :
  keys (replaceProperty o k v) = keys o.
Proof.
  induction o as [|[k' v'] o IH]; cbn [replaceProperty keys map fst]; [reflexivity|].
  destruct (String.eqb k' k); cbn [map fst]; [reflexivity|].
  unfold keys in IH. now rewrite IH.
Qed.

Lemma keys_insertIndexed (o : JsObject) (n : N) (k : string) (v : JsValue) :
  exists before after,
    keys o = (before ++ after)%list /\
    keys (insertIndexed o n k v) = (before ++ k :: after)%list.
Proof.
  induction o as [|[k' v'] o (before & after & Ho & Hi)]; cbn [insertIndexed].
  - now exists [], [].
  - destruct (arrayIndex k') as [n'|]; [destruct (n' <? n)%N|].
    + exists (k' :: before), after. cbn [keys map fst app] in *.
      unfold keys in Ho, Hi. now rewrite Ho, Hi.
    + now exists [], (keys ((k', v') :: o)).
    + now exists [], (keys ((k', v') :: o)).
Qed.

(** An assignment adds its key once, or keeps the keys as they are. *)
Lemma keys_setProperty (o : JsObject) (k : string) (v : JsValue) :
  keys (setProperty o k v) = keys o \/
  (~ In k (keys o) /\
   exists before after,
     keys o = (before ++ after)%list /\ keys (setProperty o k v) = (before ++ k :: after)%list).
Proof.
  unfold setProperty. destruct (String.eqb k "__proto__"); [now left|].
  destruct (hasProperty o k) eqn:Hhas.
  - left. apply keys_replaceProperty.
  - right. split; [now apply hasProperty_keys_false|].
    destruct (arrayIndex k) as [n|].
    + apply keys_insertIndexed.
    + exists (keys o), []. unfold keys. rewrite map_app, app_nil_r. now split.
Qed.

Lemma NoDup_insert (before after : list string) (k : string) :
  NoDup (before ++ after) -> ~ In k (before ++ after) -> NoDup (before ++ k :: after).
Proof.
  intros Hnd Hk. apply NoDup_Add with (a := k) (l := (before ++ after)%list).
  - apply Add_app.
  - now split.
Qed.

Lemma NoDup_keys_setProperty (o : JsObject) (k : string) (v : JsValue) :
  NoDup (keys o) -> NoDup (keys (setProperty o k v)).
Proof.
  intros Hnd. destruct (keys_setProperty o k v) as [->|(Hk & before & after & Ho & ->)];
    [exact Hnd|].
  rewrite Ho in Hnd, Hk. now apply NoDup_insert.
Qed.

Lemma assign_snoc (o : JsObject) (ws : list (string * JsValue)) (w : string * JsValue) :
  assign o (ws ++ [w]) = setProperty (assign o ws) (fst w) (snd w).
Proof. unfold assign. now rewrite fold_left_app. Qed.

Lemma assign_app (o : JsObject) (ws ws' : list (string * JsValue)) :
  assign o (ws ++ ws') = assign (assign o ws) ws'.
Proof. unfold assign. now rewrite fold_left_app. Qed.

Lemma NoDup_keys_assign (ws : list (string * JsValue)) (o : JsObject) :
  NoDup (keys o) -> NoDup (keys (assign o ws)).
Proof.
  revert o. induction ws as [|w ws IH]; intros o H; [exact H|].
  apply IH. now apply NoDup_keys_setProperty.
Qed.

Lemma getProperty_assign_untouched (ws : list (string * JsValue)) (o : JsObject) (k : string) :
  (forall w, In w ws -> fst w <> k) ->
  getProperty (assign o ws) k = getProperty o k.
Proof.
  revert o. induction ws as [|[k' v'] ws IH]; intros o H; [reflexivity|].
  change (assign o ((k', v') :: ws)) with (assign (setProperty o k' v') ws).
  rewrite IH by (intros w Hw; apply H; now right).
  destruct (String.eqb k' "__proto__") eqn:Hp.
  - apply String.eqb_eq in Hp. now rewrite Hp.
  - rewrite getProperty_setProperty by (intros E; rewrite E in Hp; discriminate Hp).
    destruct (String.eqb k' k) eqn:E; [|reflexivity].
    apply String.eqb_eq in E. exfalso. apply (H (k', v')); [now left | exact E].
Qed.

(** The last assignment to a key is the one read back. *)
Lemma getProperty_assign_last (o : JsObject) (before after : list (string * JsValue))
      (k : string) (v : JsValue) :
  k <> "__proto__" ->
  (forall w, In w after -> fst w <> k) ->
  getProperty (assign o (before ++ (k, v) :: after)) k = Some v.
Proof.
  intros Hk Hafter.
  rewrite assign_app.
  change (assign (assign o before) ((k, v) :: after))
    with (assign (setProperty (assign o before) k v) after).
  rewrite getProperty_assign_untouched by exact Hafter.
  rewrite getProperty_setProperty by exact Hk. now rewrite String.eqb_refl.
Qed.

(** What is read from the object was there at the start or was assigned. *)
Lemma getProperty_assign_origin (ws : list (string * JsValue)) (o : JsObject)
      (k : string) (v : JsValue) :
  getProperty (assign o ws) k = Some v ->
  getProperty o k = Some v \/ In (k, v) ws.
Proof.
  revert o. induction ws as [|[k' v'] ws IH]; intros o H; [now left|].
  change (assign o ((k', v') :: ws)) with (assign (setProperty o k' v') ws) in H.
  destruct (IH _ H) as [Ho|Hin]; [|right; now right].
  destruct (String.eqb k' "__proto__") eqn:Hp.
  - apply String.eqb_eq in Hp. rewrite Hp in Ho. now left.
  - rewrite getProperty_setProperty in Ho by (intros E; rewrite E in Hp; discriminate Hp).
    destruct (String.eqb k' k) eqn:E; [|now left].
    apply String.eqb_eq in E. subst k'. injection Ho as <-. right. now left.
Qed.

(** A key that is assigned has a last assignment. *)
Lemma last_write (ws : list (string * JsValue)) (k : string) :
  In k (map fst ws) ->
  exists before v after,
    ws = (before ++ (k, v) :: after)%list /\
    forall w, In w after -> fst w <> k.
Proof.
  induction ws as [|[k' v'] ws IH]; [contradiction|].
  intros Hin. destruct (in_dec string_dec k (map fst ws)) as [Hlater|Hlater].
  - destruct (IH Hlater) as (before & v & after & -> & Hafter).
    now exists ((k', v') :: before), v, after.
  - destruct Hin as [E|Hin]; [|contradiction].
    cbn [fst] in E. subst k'. exists [], v', ws. split; [reflexivity|].
    intros w Hw E. apply Hlater. apply in_map_iff. now exists w.
Qed.

(** Every key assigned, [__proto__] apart, is a key of the object. *)
Lemma keys_assign (ws : list (string * JsValue)) (o : JsObject) (k : string) :
  k <> "__proto__" -> In k (map fst ws) -> In k (keys (assign o ws)).
Proof.
  intros Hk Hin. destruct (last_write ws k Hin) as (before & v & after & -> & Hafter).
  apply getProperty_keys. exists v. now apply getProperty_assign_last.
Qed.

Lemma addServices_assign (o : JsObject) (externals : list ExternalService.t) :
  addServices o externals = assign o (serviceWrites externals).
Proof.
  revert o. induction externals as [|x xs IH]; intros o; [reflexivity|].
  rewrite addServices_cons, IH. unfold serviceWrites. cbn [filter].
  destruct (ExternalService.requiresInfrastructure x); reflexivity.
Qed.

Lemma composeServices_assign (config : CICDConfig) :
  composeServices config =
  assign [("app", VObject (appEntry config))] (serviceWrites (externalServices (project config))).
Proof. rewrite composeServices_loop. apply addServices_assign. Qed.

(** ** The services of the compose manifest *)

Lemma keys_kept_by_setProperty (o : JsObject) (k q : string) (v : JsValue) :
  In q (keys o) -> In q (keys (setProperty o k v)).
Proof.
  intros H. destruct (keys_setProperty o k v) as [->|(_ & before & after & Ho & ->)];
    [exact H|].
  rewrite Ho in H. apply in_app_or in H. apply in_or_app.
  destruct H; [now left | right; now right].
Qed.

Lemma keys_kept_by_assign (ws : list (string * JsValue)) (o : JsObject) (q : string) :
  In q (keys o) -> In q (keys (assign o ws)).
Proof.
  revert o. induction ws as [|w ws IH]; intros o H; [exact H|].
  apply IH. now apply keys_kept_by_setProperty.
Qed.

Lemma serviceWrites_app (xs ys : list ExternalService.t) :
  serviceWrites (xs ++ ys) = (serviceWrites xs ++ serviceWrites ys)%list.
Proof. unfold serviceWrites. now rewrite filter_app, map_app. Qed.

Lemma serviceWrites_keys (externals : list ExternalService.t) :
  map fst (serviceWrites externals) =
  map getServiceName (filter ExternalService.requiresInfrastructure externals).
Proof. unfold serviceWrites. rewrite map_map. reflexivity. Qed.

(** X8.  The [services] mapping of the compose manifest has no key twice, it
    always has the key [app], and it has a key for every name listed under
    [depends_on] of the application entry (the name [__proto__] apart,
    which no assignment can add). *)
Theorem compose_services_well_formed (config : CICDConfig) :
  let services := composeServices config in
  NoDup (keys services) /\
  In "app" (keys services) /\
  forall dependencies name,
    getProperty (appEntry config) "depends_on" = Some (VArray dependencies) ->
    In name dependencies -> name <> "__proto__" -> In name (keys services).
Proof.
  cbv zeta. rewrite composeServices_assign. split; [|split].
  - apply NoDup_keys_assign. cbn. constructor; [intros [] | constructor].
  - apply keys_kept_by_assign. now left.
  - intros dependencies name Hd Hin Hname. cbn in Hd. injection Hd as <-.
    apply keys_assign; [exact Hname|].
    rewrite serviceWrites_keys. exact Hin.
Qed.

(** X9.  When several flagged services derive the same name, the manifest
    holds the entry of the last of them; a flagged service whose name
    derives to [app] takes the place of the application entry, so that no
    [build] entry is left under [app]. *)
Theorem compose_last_service_wins (config : CICDConfig)
        (before after : list ExternalService.t) (service : ExternalService.t) :
  externalServices (project config) = (before ++ service :: after)%list ->
  ExternalService.requiresInfrastructure service = true ->
  getServiceName service <> "__proto__" ->
  (forall later, In later after ->
                 ExternalService.requiresInfrastructure later = true ->
                 getServiceName later <> getServiceName service) ->
  getProperty (composeServices config) (getServiceName service)
  = Some (VObject (getServiceConfig service)) /\
  (getServiceName service = "app" ->
   forall entry, getProperty (composeServices config) "app" = Some (VObject entry) ->
                 getProperty entry "build" = None).
Proof.
  intros Hlist Hflag Hname Hlater.
  assert (getProperty (composeServices config) (getServiceName service)
          = Some (VObject (getServiceConfig service))) as H.
  { rewrite composeServices_assign, Hlist, serviceWrites_app.
    unfold serviceWrites at 2. cbn [filter]. rewrite Hflag. cbn [map].
    apply getProperty_assign_last; [exact Hname|].
    intros w Hw. apply in_map_iff in Hw. destruct Hw as (s & <- & Hs).
    apply filter_In in Hs. cbn [fst]. now apply Hlater. }
  split; [exact H|].
  intros Happ entry Hentry. rewrite Happ in H. rewrite H in Hentry.
  injection Hentry as <-. unfold getServiceConfig. cbv zeta.
  repeat match goal with
    | |- context [if ?b then _ else _] => destruct b
    end; reflexivity.
Qed.

Lemma compose_last_service_wins_witness :
  let first := sampleService "Main DB" "postgresql" true in
  let second := sampleService "main db" "redis" true in
  let config := sampleConfig (sampleCloud "aws" awsKeys sampleDeployment) [first; second] in
  externalServices (project config) = ([first] ++ second :: [])%list /\
  getProperty (composeServices config) "main-db" = Some (VObject (getServiceConfig second)).
Proof.
  cbv zeta. split; [reflexivity|].
  refine (proj1 (compose_last_service_wins
                   (sampleConfig (sampleCloud "aws" awsKeys sampleDeployment)
                      [sampleService "Main DB" "postgresql" true;
                       sampleService "main db" "redis" true])
                   [sampleService "Main DB" "postgresql" true] []
                   (sampleService "main db" "redis" true) eq_refl eq_refl _ _)).
  - discriminate.
  - intros later [].
Defined.

(** X10.  Without an external service flagged [requiresInfrastructure] the
    compose manifest is the application service alone, with an empty
    [depends_on] list; it depends on the port only. *)
Theorem compose_without_infrastructure (config : CICDConfig) :
  (forall s, In s (externalServices (project config)) ->
             ExternalService.requiresInfrastructure s = false) ->
  let p := showNumber (port (deploymentConfig (cloud config))) in
  generateDockerCompose config =
  template
    [ "version: " ++ dq ++ "3.8" ++ dq;
      "services:";
      "  app:";
      "    build: " ++ dq ++ "." ++ dq;
      "    ports:";
      "      - " ++ dq ++ p ++ ":" ++ p ++ dq;
      "    env_file:";
      "      - " ++ dq ++ ".env" ++ dq;
      "    depends_on:";
      EmptyString ].
Proof.
  intros Hnone p.
  assert (filter ExternalService.requiresInfrastructure (externalServices (project config)) = [])
    as Hfilter.
  { induction (externalServices (project config)) as [|x xs IH]; [reflexivity|].
    cbn [filter]. rewrite (Hnone x (or_introl eq_refl)). apply IH.
    intros s Hs. apply Hnone. now right. }
  rewrite compose_text, composeServices_assign.
  unfold serviceWrites, appEntry, infrastructureServices. rewrite Hfilter.
  cbn [map assign fold_left yamlify yamlifyProperty repeat_space Nat.add].
  fold p. unfold template. cbn [String.concat].
  rewrite !append_assoc, !append_nil_r. reflexivity.
Qed.

Lemma compose_without_infrastructure_witness :
  let config := sampleConfig (sampleCloud "aws" awsKeys sampleDeployment)
                             [sampleService "mail" "smtp" false] in
  (forall s, In s (externalServices (project config)) ->
             ExternalService.requiresInfrastructure s = false) /\
  includes (generateDockerCompose config) "depends_on:" = true /\
  includes (generateDockerCompose config) "mail" = false.
Proof.
  cbv zeta.
  assert (forall s,
            In s (externalServices
                    (project (sampleConfig (sampleCloud "aws" awsKeys sampleDeployment)
                                [sampleService "mail" "smtp" false]))) ->
            ExternalService.requiresInfrastructure s = false) as H.
  { intros s [<-|[]]. reflexivity. }
  split; [exact H|].
  rewrite (compose_without_infrastructure _ H). split; vm_compute; reflexivity.
Defined.

(** ** Derived service names *)

Lemma lowerChar_name_char (c : ascii) :
  isUpperCase (lowerChar c) = false /\
  isWhitespace (lowerChar c) = isWhitespace c.
Proof.
  destruct c as [[] [] [] [] [] [] [] []]; split; reflexivity.
Qed.

Lemma replaceWhitespaceRuns_name_chars (s : string) (inRun : bool) :
  allChars (fun c => negb (isUpperCase c)) s = true ->
  allChars isNameChar (replaceWhitespaceRuns inRun s) = true.
Proof.
  revert inRun. induction s as [|c s IH]; intros inRun H; [reflexivity|].
  cbn [allChars] in H. apply andb_true_iff in H. destruct H as [Hc Hs].
  cbn [replaceWhitespaceRuns]. destruct (isWhitespace c) eqn:Hw.
  - destruct inRun; cbn [allChars]; rewrite ?IH by exact Hs; reflexivity.
  - cbn [allChars]. rewrite IH by exact Hs. unfold isNameChar.
    rewrite Hw, Hc. reflexivity.
Qed.

Lemma toLowerCase_no_upper (s : string) :
  allChars (fun c => negb (isUpperCase c)) (toLowerCase s) = true.
Proof.
  induction s as [|c s IH]; [reflexivity|].
  cbn [toLowerCase allChars]. rewrite IH.
  now rewrite (proj1 (lowerChar_name_char c)).
Qed.

Lemma lowerChar_fixed (c : ascii) : isUpperCase c = false -> lowerChar c = c.
Proof. unfold isUpperCase, lowerChar. cbv zeta. now intros ->. Qed.

Lemma name_chars_fixed (s : string) :
  allChars isNameChar s = true ->
  toLowerCase s = s /\ replaceWhitespaceRuns false s = s.
Proof.
  induction s as [|c s IH]; intros H; [split; reflexivity|].
  cbn [allChars] in H. apply andb_true_iff in H. destruct H as [Hc Hs].
  unfold isNameChar in Hc. apply andb_true_iff in Hc. destruct Hc as [Hw Hu].
  apply negb_true_iff in Hw, Hu. destruct (IH Hs) as [IHl IHr].
  cbn [toLowerCase replaceWhitespaceRuns]. rewrite Hw, IHl, IHr.
  now rewrite (lowerChar_fixed c Hu).
Qed.

(** X11.  The name derived from an ASCII service name holds neither white space
    nor an upper-case letter, and it is a fixed point: a service that
    already carries a derived name keeps it. *)
Theorem service_name_normal_form (service renamed : ExternalService.t) :
  allChars isAscii (ExternalService.name service) = true ->
  allChars isNameChar (getServiceName service) = true /\
  (ExternalService.name renamed = getServiceName service ->
   getServiceName renamed = getServiceName service).
Proof.
  intros _.
  assert (allChars isNameChar (getServiceName service) = true) as H.
  { apply replaceWhitespaceRuns_name_chars, toLowerCase_no_upper. }
  split; [exact H|].
  intros Hname. unfold getServiceName at 1. rewrite Hname.
  destruct (name_chars_fixed _ H) as [-> ->]. reflexivity.
Qed.

Lemma service_name_normal_form_witness :
  allChars isAscii "Main  DB" = true /\
  getServiceName (sampleService "Main  DB" "postgresql" true) = "main-db" /\
  getServiceName (sampleService "main-db" "redis" true) = "main-db".
Proof.
  split; [reflexivity|]. split; [reflexivity|].
  exact (proj2 (service_name_normal_form
                  (sampleService "Main  DB" "postgresql" true)
                  (sampleService "main-db" "redis" true) eq_refl) eq_refl).
Defined.

(** ** The layout of the manifest text *)

Lemma unlines_app (xs ys : list string) :
  unlines (xs ++ ys) = unlines xs ++ unlines ys.
Proof.
  unfold unlines. induction xs as [|x xs IH]; [reflexivity|].
  cbn [app map]. destruct xs as [|x' xs].
  - cbn [app map String.concat]. destruct ys as [|y ys].
    + cbn. now rewrite append_nil_r.
    + cbn [map String.concat]. cbn [append]. reflexivity.
  - cbn [app map String.concat] in *. rewrite IH. cbn [append].
    now rewrite !append_assoc.
Qed.

Lemma unlines_cons (x : string) (xs : list string) :
  unlines (x :: xs) = x ++ nl ++ unlines xs.
Proof.
  change (x :: xs) with ([x] ++ xs)%list. rewrite unlines_app.
  unfold unlines at 1. cbn [map String.concat]. now rewrite append_assoc.
Qed.

Lemma repeat_space_add (n m : nat) :
  repeat_space (n + m)%nat = repeat_space n ++ repeat_space m.
Proof. induction n as [|n IH]; [reflexivity|]. cbn. now rewrite IH. Qed.

Lemma SingleLine_repeat_space (n : nat) : SingleLine (repeat_space n).
Proof. induction n as [|n IH]; [reflexivity|]. exact IH. Qed.

Lemma indentedLine_deeper (n m : nat) (line : string) :
  indentedLine (n + m)%nat line -> indentedLine n line.
Proof.
  intros [Hs [rest ->]]. split; [exact Hs|].
  exists (repeat_space m ++ rest). now rewrite repeat_space_add, append_assoc.
Qed.

Lemma indentedLine_intro (n : nat) (rest : string) :
  SingleLine rest -> indentedLine n (repeat_space n ++ rest).
Proof.
  intros H. split; [|now exists rest].
  apply SingleLine_app; [apply SingleLine_repeat_space | exact H].
Qed.

Lemma yamlify_array_lines (spaces : string) (items : list string) (start : string) :
  fold_left (fun yaml item => yaml ++ spaces ++ "  - " ++ dq ++ item ++ dq ++ nl) items start
  = start ++ unlines (map (fun item => spaces ++ "  - " ++ dq ++ item ++ dq) items).
Proof.
  revert start. induction items as [|i items IH]; intros start.
  - cbn. now rewrite append_nil_r.
  - cbn [fold_left map]. rewrite IH, unlines_cons. now rewrite !append_assoc.
Qed.

Lemma yamlifyProperty_lines (v : JsValue) :
  forall indent key,
    SingleLine key -> singleLineValue v = true ->
    exists ls, yamlifyProperty indent key v = unlines ls /\
               Forall (indentedLine indent) ls /\ ls <> [].
Proof.
  induction v as [s|items|ps IH| |k v ps IHv IHps]
    using JsValue_nested_ind
    with (Q := fun ps =>
                 forall indent,
                   (fix each (ps : list (string * JsValue)) : bool :=
                      match ps with
                      | [] => true
                      | (k, v) :: rest => noNewline k && singleLineValue v && each rest
                      end) ps = true ->
                   exists ls,
                     (fix each (ps : list (string * JsValue)) : string :=
                        match ps with
                        | [] => EmptyString
                        | (k, v) :: rest => yamlifyProperty indent k v ++ each rest
                        end) ps = unlines ls /\
                     Forall (indentedLine indent) ls).
  - intros indent key Hk Hv. cbn [singleLineValue] in Hv.
    exists [repeat_space indent ++ key ++ ": " ++ dq ++ s ++ dq]. split; [|split].
    + cbn [yamlifyProperty]. rewrite unlines_cons.
      change (unlines []) with EmptyString.
      now rewrite !append_assoc, ?append_nil_r.
    + constructor; [|constructor]. apply indentedLine_intro.
      repeat (apply SingleLine_app; [|try reflexivity]); try assumption; reflexivity.
    + discriminate.
  - intros indent key Hk Hv. cbn [singleLineValue] in Hv.
    exists ((repeat_space indent ++ key ++ ":")
              :: map (fun item => repeat_space indent ++ "  - " ++ dq ++ item ++ dq) items).
    split; [|split].
    + cbn [yamlifyProperty]. rewrite yamlify_array_lines, unlines_cons.
      now rewrite !append_assoc.
    + constructor.
      * apply indentedLine_intro. apply SingleLine_app; [assumption|reflexivity].
      * apply Forall_forall. intros line Hline. apply in_map_iff in Hline.
        destruct Hline as (item & <- & Hitem). apply indentedLine_intro.
        rewrite forallb_forall in Hv.
        repeat (apply SingleLine_app; [|try reflexivity]); try reflexivity.
        apply Hv, Hitem.
    + discriminate.
  - intros indent key Hk Hv. cbn [singleLineValue] in Hv.
    destruct (IH (indent + 2)%nat Hv) as (ls & Hls & Hall).
    exists ((repeat_space indent ++ key ++ ":") :: ls). split; [|split].
    + cbn [yamlifyProperty]. rewrite Hls, unlines_cons. now rewrite !append_assoc.
    + constructor.
      * apply indentedLine_intro. apply SingleLine_app; [assumption|reflexivity].
      * eapply Forall_impl; [|exact Hall]. intros line. apply indentedLine_deeper.
    + discriminate.
  - intros indent _. exists []. split; [reflexivity|constructor].
  - intros indent H. apply andb_true_iff in H. destruct H as [H Hrest].
    apply andb_true_iff in H. destruct H as [Hk Hv].
    destruct (IHv indent k Hk Hv) as (l1 & H1 & A1 & _).
    destruct (IHps indent Hrest) as (l2 & H2 & A2).
    exists (l1 ++ l2)%list. split.
    + rewrite H1, H2. symmetry. apply unlines_app.
    + apply Forall_app. now split.
Qed.

Lemma singleLineValue_object (ps : JsObject) :
  singleLineValue (VObject ps)
  = forallb (fun p => noNewline (fst p) && singleLineValue (snd p)) ps.
Proof.
  induction ps as [|[k v] ps IH]; [reflexivity|].
  cbn [singleLineValue forallb fst snd] in *. now rewrite IH.
Qed.

Lemma yamlify_lines (obj : JsObject) (indent : nat) :
  forallb (fun p => noNewline (fst p) && singleLineValue (snd p)) obj = true ->
  exists ls, yamlify obj indent = unlines ls /\ Forall (indentedLine indent) ls.
Proof.
  induction obj as [|[k v] obj IH]; intros H.
  - exists []. split; [reflexivity|constructor].
  - cbn [forallb fst snd] in H. apply andb_true_iff in H. destruct H as [H Hrest].
    apply andb_true_iff in H. destruct H as [Hk Hv].
    destruct (yamlifyProperty_lines v indent k Hk Hv) as (l1 & H1 & A1 & _).
    destruct (IH Hrest) as (l2 & H2 & A2).
    exists (l1 ++ l2)%list. split.
    + cbn [yamlify]. rewrite H1, H2. symmetry. apply unlines_app.
    + apply Forall_app. now split.
Qed.

(** X12.  The text [yamlify] gives for an object whose keys and strings hold no
    line break is a sequence of lines, each closed by a line break and
    each starting with at least [indent] spaces; a property holding a
    nested object gives its key line followed by lines that start with
    two more spaces. *)
Theorem yamlify_layout (obj : JsObject) (indent : nat) :
  forallb (fun p => noNewline (fst p) && singleLineValue (snd p)) obj = true ->
  (exists ls, yamlify obj indent = unlines ls /\ Forall (indentedLine indent) ls) /\
  (forall key properties,
     In (key, VObject properties) obj ->
     exists nested,
       yamlifyProperty indent key (VObject properties)
       = unlines ((repeat_space indent ++ key ++ ":") :: nested) /\
       Forall (indentedLine (indent + 2)%nat) nested).
Proof.
  intros H. split; [now apply yamlify_lines|].
  intros key properties Hin. rewrite forallb_forall in H.
  specialize (H _ Hin). cbn [fst snd] in H.
  apply andb_true_iff in H. destruct H as [_ H].
  rewrite singleLineValue_object in H.
  destruct (yamlify_lines properties (indent + 2) H) as (nested & Hn & An).
  exists nested. split; [|exact An].
  rewrite yamlifyProperty_object, Hn, unlines_cons. now rewrite !append_assoc.
Qed.

Lemma yamlify_layout_witness :
  let obj := [ ("app", VObject [ ("build", VString ".") ]) ] in
  forallb (fun p => noNewline (fst p) && singleLineValue (snd p)) obj = true /\
  exists nested,
    yamlifyProperty 2 "app" (VObject [ ("build", VString ".") ])
    = unlines ((repeat_space 2 ++ "app" ++ ":") :: nested) /\
    Forall (indentedLine 4) nested.
Proof.
  cbv zeta. split; [reflexivity|].
  exact (proj2 (yamlify_layout [ ("app", VObject [ ("build", VString ".") ]) ] 2 eq_refl)
               "app" [ ("build", VString ".") ] (or_introl eq_refl)).
Defined.

(** ** The notification script *)

Lemma notification_script_concat (ps : list NotificationPlatform.t) (start : string) :
  fold_left (fun script platform => script ++ platformNotification platform) ps start
  = start ++ String.concat EmptyString (map platformNotification ps).
Proof.
  revert start. induction ps as [|p ps IH]; intros start.
  - cbn. now rewrite append_nil_r.
  - cbn [fold_left map]. rewrite IH, append_assoc. f_equal.
    destruct ps as [|q ps]; [cbn; now rewrite append_nil_r|]. reflexivity.
Qed.

Lemma unconfigured_platform (p : NotificationPlatform.t) :
  isConfigured p = false -> platformNotification p = EmptyString.
Proof.
  unfold isConfigured, configuredRoutine, platformNotification. cbv zeta.
  destruct (truthy _); [|reflexivity]. cbn [negb].
  repeat match goal with
    | |- context [if String.eqb ?a ?b then _ else _] => destruct (String.eqb a b)
    end; try discriminate; reflexivity.
Qed.

(** X13.  The notification script is the e-mail routine followed by the routines
    of the platforms in their order; a platform with no webhook, an empty
    webhook or a type other than slack, discord, teams and telegram adds
    nothing, so dropping such platforms leaves the script as it is. *)
Theorem notification_script_skips_unconfigured (config : NotificationConfig) :
  generateNotificationScript config
  = generateEmailNotification (email config)
    ++ String.concat EmptyString (map platformNotification (platforms config)) /\
  generateNotificationScript (withPlatforms (filter isConfigured (platforms config)) config)
  = generateNotificationScript config.
Proof.
  unfold generateNotificationScript. cbn [withPlatforms email platforms].
  rewrite !notification_script_concat. split; [reflexivity|]. f_equal.
  induction (platforms config) as [|p ps IH]; [reflexivity|].
  cbn [filter]. destruct (isConfigured p) eqn:E.
  - cbn [map]. destruct ps as [|q ps].
    + reflexivity.
    + assert (forall (x : string) xs, String.concat EmptyString (x :: xs)
                                      = x ++ String.concat EmptyString xs) as Hc.
      { intros x [|y ys]; [cbn; now rewrite append_nil_r | reflexivity]. }
      rewrite !Hc. now rewrite IH.
  - rewrite IH. cbn [map].
    assert (forall (x : string) xs, String.concat EmptyString (x :: xs)
                                    = x ++ String.concat EmptyString xs) as Hc.
    { intros x [|y ys]; [cbn; now rewrite append_nil_r | reflexivity]. }
    rewrite Hc, (unconfigured_platform p E). reflexivity.
Qed.

Lemma countLines_app_template (p : string -> bool) (start l : string) (ls : list string) :
  countLines p (start ++ template (EmptyString :: l :: ls))
  = (countLines p start + countLines p (template (l :: ls)))%nat.
Proof.
  change (template (EmptyString :: l :: ls)) with (nl ++ template (l :: ls)).
  unfold countLines. now rewrite lines_app_nl, filter_app, length_app.
Qed.

Lemma Forall_SingleLine_split (sep : ascii) (s : string) :
  SingleLine s -> Forall SingleLine (split sep s).
Proof.
  unfold SingleLine, noNewline.
  induction s as [|c s IH]; intros H; [repeat constructor|].
  cbn [lacks] in H. apply andb_true_iff in H. destruct H as [Hc Hs].
  specialize (IH Hs). cbn [split].
  destruct (Ascii.eqb c sep).
  - constructor; [reflexivity | exact IH].
  - destruct (split sep s) as [|part parts].
    + constructor; [|constructor]. cbn [lacks]. now rewrite Hc.
    + inversion IH as [|? ? Hp Hps]; subst. constructor; [|exact Hps].
      cbn [lacks]. now rewrite Hc, Hp.
Qed.

Lemma SingleLine_at_index (parts : list string) (i : Z) :
  Forall SingleLine parts -> SingleLine (interpolate (at_index parts i)).
Proof.
  intros H. unfold at_index. destruct (i <? 0); [reflexivity|].
  destruct (nth_error parts (Z.to_nat i)) as [part|] eqn:E; [|reflexivity].
  cbn [interpolate]. rewrite Forall_forall in H. eapply H, nth_error_In, E.
Qed.

Ltac count_routine r :=
  unfold countLines; read_lines; destruct r; vm_compute; reflexivity.

Lemma email_routine_count (r : Routine) (address : string) :
  SingleLine address ->
  countLines (definesRoutine r) (generateEmailNotification address)
  = if routine_eqb r Email then 1%nat else 0%nat.
Proof. intros H. unfold generateEmailNotification. count_routine r. Qed.

Lemma platform_routine_count (r : Routine) (p : NotificationPlatform.t) (start : string) :
  (forall webhook, NotificationPlatform.webhook p = Some webhook -> SingleLine webhook) ->
  countLines (definesRoutine r) (start ++ platformNotification p)
  = (countLines (definesRoutine r) start + if configures r p then 1 else 0)%nat.
Proof.
  intros Hw. unfold configures, configuredRoutine, platformNotification. cbv zeta.
  destruct (NotificationPlatform.webhook p) as [webhook|] eqn:E;
    [|cbn; now rewrite append_nil_r, Nat.add_0_r].
  specialize (Hw webhook eq_refl).
  destruct (truthy (Some webhook)); cbn [negb interpolate];
    [|now rewrite append_nil_r, Nat.add_0_r].
  repeat match goal with
    | |- context [if String.eqb ?a ?b then _ else _] => destruct (String.eqb a b)
    end.
  - unfold generateSlackNotification. rewrite countLines_app_template. f_equal.
    count_routine r.
  - unfold generateDiscordNotification. rewrite countLines_app_template. f_equal.
    count_routine r.
  - unfold generateTeamsNotification. rewrite countLines_app_template. f_equal.
    count_routine r.
  - unfold generateTelegramNotification. cbv zeta.
    pose proof (SingleLine_at_index _ (Z.of_nat (List.length (split "/" webhook)) - 2)
                  (Forall_SingleLine_split "/" webhook Hw)) as Ht.
    pose proof (SingleLine_at_index _ (Z.of_nat (List.length (split "/" webhook)) - 1)
                  (Forall_SingleLine_split "/" webhook Hw)) as Hc.
    unfold telegramRoutine. rewrite countLines_app_template. f_equal.
    count_routine r.
  - now rewrite append_nil_r, Nat.add_0_r.
Qed.

Lemma script_routine_count (r : Routine) (ps : list NotificationPlatform.t) (start : string) :
  (forall p webhook, In p ps -> NotificationPlatform.webhook p = Some webhook ->
                     SingleLine webhook) ->
  countLines (definesRoutine r)
    (fold_left (fun script platform => script ++ platformNotification platform) ps start)
  = (countLines (definesRoutine r) start + List.length (filter (configures r) ps))%nat.
Proof.
  revert start. induction ps as [|p ps IH]; intros start H.
  - cbn. now rewrite Nat.add_0_r.
  - cbn [fold_left filter]. rewrite IH by (intros q w Hq; apply H; now right).
    rewrite platform_routine_count by (intros w; apply H; now left).
    destruct (configures r p); cbn [List.length]; lia.
Qed.

(** X14.  When the e-mail address and the webhooks hold no line break, the
    notification script opens the definition of the e-mail routine once
    and that of each channel routine once per configured platform of that
    channel: none for a channel without a platform (while the lifecycle
    wrapper still calls it), two for a channel configured twice. *)
Theorem notification_routine_definitions (config : NotificationConfig) (r : Routine) :
  SingleLine (email config) ->
  singleLineWebhooks config ->
  countLines (definesRoutine r) (generateNotificationScript config)
  = ((if routine_eqb r Email then 1 else 0)
     + List.length (filter (configures r) (platforms config)))%nat.
Proof.
  intros He Hw. unfold generateNotificationScript.
  rewrite script_routine_count by exact Hw.
  now rewrite email_routine_count.
Qed.

Lemma notification_routine_definitions_witness :
  let slack := {| NotificationPlatform.type := "slack";
                  NotificationPlatform.webhook := Some "https://hooks.example/a";
                  NotificationPlatform.apiKey := None |} in
  let config := sampleNotifications [slack; slack] in
  SingleLine (email config) /\
  singleLineWebhooks config /\
  countLines (definesRoutine Slack) (generateNotificationScript config) = 2%nat /\
  countLines (definesRoutine Teams) (generateNotificationScript config) = 0%nat.
Proof.
  cbv zeta.
  assert (singleLineWebhooks
            (sampleNotifications
               [ {| NotificationPlatform.type := "slack";
                    NotificationPlatform.webhook := Some "https://hooks.example/a";
                    NotificationPlatform.apiKey := None |};
                 {| NotificationPlatform.type := "slack";
                    NotificationPlatform.webhook := Some "https://hooks.example/a";
                    NotificationPlatform.apiKey := None |} ])) as Hw.
  { intros p w [<-|[<-|[]]] E; injection E as <-; reflexivity. }
  split; [reflexivity|]. split; [exact Hw|].
  split; rewrite notification_routine_definitions by (reflexivity || exact Hw);
    reflexivity.
Defined.

(** ** Credential variables: deployment script and environment block *)

Ltac unfold_environment :=
  unfold generateCredentialsEnvironmentVariables,
         awsOidcEnvironment, awsStaticEnvironment,
         azureOidcEnvironment, azureStaticEnvironment, azureBaseEnv,
         gcpOidcEnvironment, gcpStaticEnvironment, doEnvironment.

Section CredentialVariables.

Variable config : CloudConfig.
Variable dockerImageName : string.
Hypothesis fields : singleLineFields config dockerImageName.
Hypothesis credentialRegion :
  SingleLine (interpolate (credentialsRegion (credentials config))).

Let loadBalanced : bool :=
  useLoadBalancer (deploymentConfig config) && truthy (loadBalancerUrl (deploymentConfig config)).

Let reads (script : string) : Prop :=
  credentialReads script <> [] /\
  forallb (bindsCredential (generateCredentialsEnvironmentVariables config))
          (credentialReads script) = true.

Lemma aws_reads_bound :
  provider config = "aws" ->
  selectsOidc config = environmentOidc config ->
  reads (generateAWSDeploymentScript config dockerImageName).
Proof.
  pose proof fields as (Hname & Hregion & Hpath & Hurl & Harn).
  intros E. unfold reads, selectsOidc, environmentOidc, credentialReads, bindsCredential.
  unfold_environment. rewrite E. cbn [String.eqb Ascii.eqb Bool.eqb].
  unfold_scripts. fold loadBalanced.
  destruct (useOIDC (credentials config));
    destruct (truthy (oidcRoleArn (credentials config))); cbn [andb];
    try discriminate; intros _;
    destruct loadBalanced; unfold_auth; cbv zeta; repeat read_lines;
    split; vm_compute; (discriminate || reflexivity).
Qed.

Lemma azure_reads_bound :
  provider config = "azure" ->
  reads (generateAzureDeploymentScript config dockerImageName).
Proof.
  pose proof fields as (Hname & Hregion & Hpath & Hurl & Harn).
  intros E. unfold reads, credentialReads, bindsCredential.
  unfold_environment. rewrite E. cbn [String.eqb Ascii.eqb Bool.eqb].
  unfold_scripts. fold loadBalanced.
  destruct (useOIDC (credentials config));
    destruct loadBalanced; unfold_auth; cbv zeta; repeat read_lines;
    split; vm_compute; (discriminate || reflexivity).
Qed.

Lemma gcp_reads_bound :
  provider config = "gcp" ->
  reads (generateGCPDeploymentScript config dockerImageName).
Proof.
  pose proof fields as (Hname & Hregion & Hpath & Hurl & Harn).
  intros E. unfold reads, credentialReads, bindsCredential.
  unfold_environment. rewrite E. cbn [String.eqb Ascii.eqb Bool.eqb].
  unfold_scripts. fold loadBalanced.
  destruct (useOIDC (credentials config));
    destruct loadBalanced; unfold_auth; cbv zeta; repeat read_lines;
    split; vm_compute; (discriminate || reflexivity).
Qed.

Lemma do_reads_bound :
  provider config = "digitalocean" ->
  reads (generateDigitalOceanDeploymentScript config dockerImageName).
Proof.
  pose proof fields as (Hname & Hregion & Hpath & Hurl & Harn).
  intros E. unfold reads, credentialReads, bindsCredential.
  unfold_environment. rewrite E. cbn [String.eqb Ascii.eqb Bool.eqb].
  unfold_scripts. fold loadBalanced.
  destruct loadBalanced; cbv zeta; repeat read_lines;
    split; vm_compute; (discriminate || reflexivity).
Qed.

Lemma aws_reads_unbound :
  provider config = "aws" ->
  useOIDC (credentials config) = true ->
  truthy (oidcRoleArn (credentials config)) = false ->
  credentialReads (generateAWSDeploymentScript config dockerImageName)
  = ["AWS_ACCESS_KEY_ID"; "AWS_SECRET_ACCESS_KEY"] /\
  generateCredentialsEnvironmentVariables config = awsOidcEnvironment.
Proof.
  pose proof fields as (Hname & Hregion & Hpath & Hurl & Harn).
  intros E Ho Hr. unfold credentialReads, generateCredentialsEnvironmentVariables.
  rewrite E, Ho. cbn [String.eqb Ascii.eqb Bool.eqb].
  split; [|reflexivity].
  unfold_scripts. fold loadBalanced. rewrite Ho, Hr. cbn [andb].
  destruct loadBalanced; unfold_auth; cbv zeta; read_lines; vm_compute; reflexivity.
Qed.

End CredentialVariables.

(** X15.  When the environment block and the deployment script are written for
    the same authentication mode, every variable an authentication line
    of the script reads is bound to a Jenkins credential by the
    environment block.  The modes agree for Azure, GCP and DigitalOcean
    always, for AWS unless [useOIDC] is set without a role ARN. *)
Theorem authentication_variables_bound (config : CloudConfig) (dockerImageName : string) :
  supported (provider config) = true ->
  singleLineFields config dockerImageName ->
  SingleLine (interpolate (credentialsRegion (credentials config))) ->
  selectsOidc config = environmentOidc config ->
  exists script,
    generateDeploymentScript config dockerImageName = Return script /\
    credentialReads script <> [] /\
    forall name, In name (credentialReads script) ->
                 bindsCredential (generateCredentialsEnvironmentVariables config) name = true.
Proof.
  intros Hs Hf Hr Hm. rewrite (dispatch_script _ _ Hs). eexists. split; [reflexivity|].
  rewrite <- forallb_forall.
  destruct (supported_cases _ Hs) as [E|[E|[E|E]]]; rewrite E;
    cbn [String.eqb Ascii.eqb Bool.eqb].
  - exact (aws_reads_bound config dockerImageName Hf Hr E Hm).
  - exact (azure_reads_bound config dockerImageName Hf E).
  - exact (gcp_reads_bound config dockerImageName Hf E).
  - exact (do_reads_bound config dockerImageName Hf E).
Qed.

Lemma authentication_variables_bound_witness :
  let config := sampleCloud "aws" awsKeys sampleDeployment in
  supported (provider config) = true /\
  singleLineFields config "shop" /\
  SingleLine (interpolate (credentialsRegion (credentials config))) /\
  selectsOidc config = environmentOidc config /\
  exists script,
    generateDeploymentScript config "shop" = Return script /\
    credentialReads script <> [] /\
    forall name, In name (credentialReads script) ->
                 bindsCredential (generateCredentialsEnvironmentVariables config) name = true.
Proof.
  cbv zeta. split; [reflexivity|]. split; [repeat split; reflexivity|].
  split; [reflexivity|]. split; [reflexivity|].
  apply authentication_variables_bound;
    [reflexivity | repeat split; reflexivity | reflexivity | reflexivity].
Defined.

(** X16.  With an AWS credential set whose [useOIDC] is set but whose role ARN
    is absent or empty the two generators disagree: the deployment script
    authenticates with [AWS_ACCESS_KEY_ID] and [AWS_SECRET_ACCESS_KEY],
    and the environment block, written for OIDC, binds neither. *)
Theorem aws_oidc_without_role_reads_unbound_variables
        (config : CloudConfig) (dockerImageName : string) :
  provider config = "aws" ->
  singleLineFields config dockerImageName ->
  useOIDC (credentials config) = true ->
  truthy (oidcRoleArn (credentials config)) = false ->
  exists script,
    generateDeploymentScript config dockerImageName = Return script /\
    credentialReads script = ["AWS_ACCESS_KEY_ID"; "AWS_SECRET_ACCESS_KEY"] /\
    generateCredentialsEnvironmentVariables config = awsOidcEnvironment /\
    forall name, In name (credentialReads script) ->
                 bindsCredential (generateCredentialsEnvironmentVariables config) name = false.
Proof.
  intros E Hf Ho Hr.
  destruct (aws_reads_unbound config dockerImageName Hf E Ho Hr) as [Hreads Henv].
  unfold generateDeploymentScript. rewrite E. cbn [String.eqb Ascii.eqb Bool.eqb].
  eexists. split; [reflexivity|]. split; [exact Hreads|]. split; [exact Henv|].
  rewrite Hreads, Henv. intros name [<-|[<-|[]]]; vm_compute; reflexivity.
Qed.

Lemma aws_oidc_without_role_reads_unbound_variables_witness :
  let config := sampleCloud "aws" (awsOidc None) sampleDeployment in
  provider config = "aws" /\
  singleLineFields config "shop" /\
  useOIDC (credentials config) = true /\
  truthy (oidcRoleArn (credentials config)) = false /\
  exists script,
    generateDeploymentScript config "shop" = Return script /\
    credentialReads script = ["AWS_ACCESS_KEY_ID"; "AWS_SECRET_ACCESS_KEY"].
Proof.
  cbv zeta. split; [reflexivity|]. split; [repeat split; reflexivity|].
  split; [reflexivity|]. split; [reflexivity|].
  destruct (aws_oidc_without_role_reads_unbound_variables
              (sampleCloud "aws" (awsOidc None) sampleDeployment) "shop"
              eq_refl (conj eq_refl (conj eq_refl (conj eq_refl (conj eq_refl eq_refl))))
              eq_refl eq_refl) as (script & Hs & Hr & _).
  exists script. split; [exact Hs | exact Hr].
Defined.

(** ** What the generated text depends on *)

(** X17.  The deployment script, the Terraform manifest and the environment
    block depend on the cloud configuration only through the provider
    tag, the region, the deployment settings they splice in and three
    readings of the credentials: [useOIDC], [oidcRoleArn] and [region].
    No access key, secret, token, key file or account identifier reaches
    the generated text, and neither do [instanceType], [managedServices],
    [tier] and [environmentVariables]. *)
Theorem generated_text_ignores_secrets (c1 c2 : CloudConfig) (dockerImageName : string) :
  provider c1 = provider c2 ->
  region c1 = region c2 ->
  renderedDeployment (deploymentConfig c1) = renderedDeployment (deploymentConfig c2) ->
  renderedCredentials (credentials c1) = renderedCredentials (credentials c2) ->
  generateDeploymentScript c1 dockerImageName = generateDeploymentScript c2 dockerImageName /\
  IaCService.generateTerraformConfig c1 dockerImageName
  = IaCService.generateTerraformConfig c2 dockerImageName /\
  generateCredentialsEnvironmentVariables c1 = generateCredentialsEnvironmentVariables c2.
Proof.
  intros Hp Hr Hd Hc.
  unfold renderedCredentials in Hc. injection Hc as Huse Harn Hreg.
  destruct c1 as [p1 cr1 r1 i1 d1 m1], c2 as [p2 cr2 r2 i2 d2 m2].
  cbn [provider region deploymentConfig credentials] in *. subst p2 r2.
  destruct d1 as [t1 a1 lo1 hi1 h1 po1 lb1 url1 s1 e1], d2 as [t2 a2 lo2 hi2 h2 po2 lb2 url2 s2 e2].
  unfold renderedDeployment in Hd.
  cbn [autoScaling minInstances maxInstances healthCheckPath port useLoadBalancer
       loadBalancerUrl deploymentStrategy] in Hd.
  injection Hd as -> -> -> -> -> -> -> ->.
  unfold generateDeploymentScript, IaCService.generateTerraformConfig,
         generateCredentialsEnvironmentVariables,
         generateAWSDeploymentScript, generateAzureDeploymentScript,
         generateGCPDeploymentScript, generateDigitalOceanDeploymentScript,
         awsStaticEnvironment.
  cbn [provider region deploymentConfig credentials]. cbv zeta.
  rewrite Huse, Harn, Hreg.
  repeat split; reflexivity.
Qed.

Lemma generated_text_ignores_secrets_witness :
  let c1 := sampleCloud "aws" awsKeys sampleDeployment in
  let c2 := {| provider := "aws";
               credentials :=
                 AWS {| AWSCredentials.accessKeyId := Some "AKIAOTHER";
                        AWSCredentials.secretAccessKey := Some "another secret";
                        AWSCredentials.region := "us-east-1";
                        AWSCredentials.useOIDC := false;
                        AWSCredentials.oidcRoleArn := None |};
               region := "us-east-1"; instanceType := "m5.large";
               deploymentConfig := sampleDeployment; managedServices := [] |} in
  renderedCredentials (credentials c1) = renderedCredentials (credentials c2) /\
  generateDeploymentScript c1 "shop" = generateDeploymentScript c2 "shop" /\
  IaCService.generateTerraformConfig c1 "shop" = IaCService.generateTerraformConfig c2 "shop" /\
  generateCredentialsEnvironmentVariables c1 = generateCredentialsEnvironmentVariables c2.
Proof.
  cbv zeta. split; [reflexivity|].
  apply generated_text_ignores_secrets; reflexivity.
Defined.

(** X18.  The load-balancer settings reach the deployment script only when the
    flag is set and the URL is a non-empty string: a set flag with an
    absent or empty URL, or a URL without the flag, gives the script of a
    deployment without load balancer, with the run-time lookup. *)
Theorem load_balancer_needs_flag_and_url
        (config : CloudConfig) (dockerImageName : string) (flag : bool) (url : option string) :
  useLoadBalancer (deploymentConfig config)
    && truthy (loadBalancerUrl (deploymentConfig config)) = false ->
  flag && truthy url = false ->
  generateDeploymentScript
    (withDeploymentConfig (withLoadBalancer flag url (deploymentConfig config)) config)
    dockerImageName
  = generateDeploymentScript config dockerImageName.
Proof.
  intros Hconfig Hother.
  destruct config as [p cr r i d m]. cbn [deploymentConfig] in *.
  unfold withDeploymentConfig, withLoadBalancer.
  cbn [provider credentials region instanceType deploymentConfig managedServices].
  unfold generateDeploymentScript,
         generateAWSDeploymentScript, generateAzureDeploymentScript,
         generateGCPDeploymentScript, generateDigitalOceanDeploymentScript,
         awsScriptBody, azureScriptBody, gcpScriptBody, doScriptBody,
         generateDeployedUrlExport.
  cbn [provider credentials region deploymentConfig useLoadBalancer loadBalancerUrl].
  rewrite Hconfig, Hother. reflexivity.
Qed.

Lemma load_balancer_needs_flag_and_url_witness :
  let config := sampleCloud "gcp" gcpKeys sampleDeployment in
  generateDeploymentScript
    (withDeploymentConfig (withLoadBalancer true (Some EmptyString) sampleDeployment) config)
    "shop"
  = generateDeploymentScript config "shop" /\
  generateDeploymentScript
    (withDeploymentConfig
       (withLoadBalancer false (Some "https://lb.example.com") sampleDeployment) config)
    "shop"
  = generateDeploymentScript config "shop".
Proof.
  cbv zeta. split.
  - exact (load_balancer_needs_flag_and_url (sampleCloud "gcp" gcpKeys sampleDeployment)
             "shop" true (Some EmptyString) eq_refl eq_refl).
  - exact (load_balancer_needs_flag_and_url (sampleCloud "gcp" gcpKeys sampleDeployment)
             "shop" false (Some "https://lb.example.com") eq_refl eq_refl).
Defined.

(** X19.  The environment block is empty exactly for a provider tag outside
    the four supported ones; the generator raises nothing there, unlike
    [generateDeploymentScript]. *)
Theorem environment_block_empty_iff_unsupported (config : CloudConfig) :
  generateCredentialsEnvironmentVariables config = EmptyString
  <-> supported (provider config) = false.
Proof.
  split.
  - intros H. destruct (supported (provider config)) eqn:Hs; [exfalso|reflexivity].
    revert H. unfold generateCredentialsEnvironmentVariables.
    destruct (supported_cases _ Hs) as [E|[E|[E|E]]]; rewrite E;
      cbn [String.eqb Ascii.eqb Bool.eqb]; cbv zeta;
      try destruct (useOIDC (credentials config)); discriminate.
  - intros H. destruct (unsupported_tag _ H) as (H1 & H2 & H3 & H4).
    unfold generateCredentialsEnvironmentVariables. now rewrite H1, H2, H3, H4.
Qed.

(** ** The consolidated environment variables *)

Import PromptService.

Lemma consolidate_assign (projectConfig : ProjectConfig) (externals : list ExternalService.t) :
  consolidateEnvironmentVariables projectConfig externals
  = assign [] (variableWrites externals).
Proof.
  unfold consolidateEnvironmentVariables. generalize (@nil (string * JsValue)) as start.
  induction externals as [|x xs IH]; intros start; [reflexivity|].
  cbn [fold_left]. rewrite IH.
  unfold variableWrites, declaredVariables. cbn [flat_map].
  rewrite map_app, assign_app. f_equal.
  unfold assign. generalize start.
  induction (ExternalService.envVariables x) as [|v vs IHv]; intros o; [reflexivity|].
  cbn [fold_left map fst snd]. apply IHv.
Qed.

Lemma variableWrites_keys (externals : list ExternalService.t) :
  map fst (variableWrites externals) = map key (declaredVariables externals).
Proof. unfold variableWrites. now rewrite map_map. Qed.

(** X20.  The object [consolidateEnvironmentVariables] returns has one entry for
    each variable name declared by some external service ([__proto__]
    apart, which no assignment adds) and no other; when a name is declared
    more than once the description of its last declaration is kept, the
    earlier ones are lost. *)
Theorem consolidated_environment (projectConfig : ProjectConfig)
        (externals : list ExternalService.t) :
  let envVars := consolidateEnvironmentVariables projectConfig externals in
  NoDup (keys envVars) /\
  (forall name,
     In name (keys envVars)
     <-> name <> "__proto__" /\ In name (map key (declaredVariables externals))) /\
  (forall before variable after,
     declaredVariables externals = (before ++ variable :: after)%list ->
     key variable <> "__proto__" ->
     (forall later, In later after -> key later <> key variable) ->
     getProperty envVars (key variable) = Some (VString (description variable))).
Proof.
  cbv zeta. rewrite consolidate_assign. split; [|split].
  - apply NoDup_keys_assign. constructor.
  - intros name. split.
    + intros Hin. apply getProperty_keys in Hin. destruct Hin as [v Hv].
      destruct (getProperty_assign_origin _ _ _ _ Hv) as [Hstart|Hw]; [discriminate|].
      split.
      * intros ->. clear Hw. revert Hv.
        generalize (variableWrites externals) as ws.
        assert (forall ws (o : JsObject),
                   getProperty o "__proto__" = None ->
                   getProperty (assign o ws) "__proto__" = None) as Hnone.
        { induction ws as [|[k' v'] ws IH]; intros o Ho; [exact Ho|].
          change (assign o ((k', v') :: ws)) with (assign (setProperty o k' v') ws).
          apply IH. destruct (String.eqb k' "__proto__") eqn:Hp.
          - unfold setProperty. now rewrite Hp.
          - rewrite getProperty_setProperty by (intros E; rewrite E in Hp; discriminate Hp).
            now rewrite Hp. }
        intros ws Hv. rewrite (Hnone ws [] eq_refl) in Hv. discriminate.
      * rewrite <- variableWrites_keys. apply in_map_iff. now exists (name, v).
    + intros [Hname Hin]. apply keys_assign; [exact Hname|].
      now rewrite variableWrites_keys.
  - intros before variable after Hd Hname Hlater.
    unfold variableWrites. rewrite Hd, map_app. cbn [map].
    apply getProperty_assign_last; [exact Hname|].
    intros w Hw. apply in_map_iff in Hw. destruct Hw as (y & <- & Hy).
    cbn [fst]. now apply Hlater.
Qed.

Lemma consolidated_environment_witness :
  let url (text : string) :=
    {| key := "DATABASE_URL"; value := None; isSecret := true; description := text |} in
  let service (variables : list EnvVariable) :=
    {| ExternalService.type := "database"; ExternalService.name := "db";
       ExternalService.service := "postgresql"; ExternalService.envVariables := variables;
       ExternalService.connectionString := None;
       ExternalService.requiresInfrastructure := true |} in
  let externals := [service [url "primary"]; service [url "replica"]] in
  declaredVariables externals = ([url "primary"] ++ url "replica" :: [])%list /\
  getProperty (consolidateEnvironmentVariables (sampleProject externals) externals)
              "DATABASE_URL"
  = Some (VString "replica").
Proof.
  cbv zeta. split; [reflexivity|].
  match goal with
  | |- getProperty (consolidateEnvironmentVariables ?p ?x) _ = _ =>
      refine (proj2 (proj2 (consolidated_environment p x))
                [ {| key := "DATABASE_URL"; value := None; isSecret := true;
                     description := "primary" |} ]
                {| key := "DATABASE_URL"; value := None; isSecret := true;
                   description := "replica" |}
                [] eq_refl _ _)
  end.
  - discriminate.
  - intros later [].
Defined.

(** ** Repository URLs *)

Import ValidationService.

Lemma nullable_Matches (r : Regex) : nullable r = true <-> Matches r EmptyString.
Proof.
  induction r as [| |member|a IHa b IHb|a IHa b IHb|a IHa]; cbn [nullable].
  - split; [discriminate | intros H; inversion H].
  - split; [constructor | reflexivity].
  - split; [discriminate | intros H; inversion H].
  - rewrite andb_true_iff, IHa, IHb. split.
    + intros [Ha Hb]. exact (MatchesSeq a b EmptyString EmptyString Ha Hb).
    + intros H. inversion H as [| |? ? s t Ha Hb Hr Hs| | | |]; subst.
      destruct s; [|discriminate]. destruct t; [|discriminate]. now split.
  - rewrite orb_true_iff, IHa, IHb. split.
    + intros [H|H]; [now apply MatchesAltLeft | now apply MatchesAltRight].
    + intros H. inversion H; subst; [now left | now right].
  - split; [constructor | reflexivity].
Qed.

Lemma Matches_Star_cons (a : Regex) (c : ascii) (s : string) :
  Matches (Star a) (String c s) ->
  exists s1 s2, s = s1 ++ s2 /\ Matches a (String c s1) /\ Matches (Star a) s2.
Proof.
  intros H. remember (Star a) as r eqn:Er. remember (String c s) as x eqn:Ex.
  revert s Ex.
  induction H as [| | | | | |a' u t Hu _ Ht IHt]; try discriminate.
  injection Er as ->. intros s Ex. destruct u as [|c' u].
  - cbn in Ex. now apply IHt.
  - cbn in Ex. injection Ex as -> <-. now exists u, t.
Qed.

Lemma derivative_Matches (r : Regex) :
  forall c s, Matches (derivative c r) s <-> Matches r (String c s).
Proof.
  induction r as [| |member|a IHa b IHb|a IHa b IHb|a IHa]; intros c s; cbn [derivative].
  - split; intros H; inversion H.
  - split; intros H; inversion H.
  - destruct (member c) eqn:E; split; intros H; inversion H; subst.
    + now constructor.
    + constructor.
    + congruence.
  - assert (Matches (Seq (derivative c a) b) s ->
            Matches (Seq a b) (String c s)) as Hfirst.
    { intros H. inversion H as [| |? ? u t Hu Ht| | | |]; subst.
      apply IHa in Hu. exact (MatchesSeq a b (String c u) t Hu Ht). }
    assert (Matches (Seq a b) (String c s) ->
            Matches (Seq (derivative c a) b) s
            \/ (Matches a EmptyString /\ Matches (derivative c b) s)) as Hback.
    { intros H. inversion H as [| |? ? u t Hu Ht Hr Hs| | | |]; subst.
      destruct u as [|c' u].
      - cbn in Hs. subst t. right. split; [exact Hu | now apply IHb].
      - cbn in Hs. injection Hs as -> <-. left.
        apply MatchesSeq; [now apply IHa | exact Ht]. }
    destruct (nullable a) eqn:En.
    + split.
      * intros H. inversion H; subst; [now apply Hfirst|].
        apply (MatchesSeq a b EmptyString (String c s));
          [now apply nullable_Matches | now apply IHb].
      * intros H. destruct (Hback H) as [H1|[_ H2]];
          [now apply MatchesAltLeft | now apply MatchesAltRight].
    + split; [exact Hfirst|].
      intros H. destruct (Hback H) as [H1|[H2 _]]; [exact H1|].
      apply nullable_Matches in H2. congruence.
  - split.
    + intros H. inversion H; subst;
        [apply MatchesAltLeft; now apply IHa | apply MatchesAltRight; now apply IHb].
    + intros H. inversion H; subst;
        [apply MatchesAltLeft; now apply IHa | apply MatchesAltRight; now apply IHb].
  - split.
    + intros H. inversion H as [| |? ? u t Hu Ht| | | |]; subst.
      apply IHa in Hu. exact (MatchesStarCons a (String c u) t Hu Ht).
    + intros H. destruct (Matches_Star_cons a c s H) as (u & t & -> & Hu & Ht).
      apply MatchesSeq; [now apply IHa | exact Ht].
Qed.

(** The derivative decides the language of a pattern. *)
Lemma fullMatch_Matches (s : string) :
  forall r, fullMatch r s = true <-> Matches r s.
Proof.
  induction s as [|c s IH]; intros r; cbn [fullMatch].
  - apply nullable_Matches.
  - rewrite IH. apply derivative_Matches.
Qed.

Lemma In_allAscii (c : ascii) : In c allAscii.
Proof.
  unfold allAscii. rewrite <- (ascii_nat_embedding c).
  apply in_map, in_seq. pose proof (nat_ascii_bounded c). lia.
Qed.

Lemma allChars_app (p : ascii -> bool) (a b : string) :
  allChars p (a ++ b) = allChars p a && allChars p b.
Proof.
  induction a as [|c a IH]; [reflexivity|].
  cbn [append allChars]. now rewrite IH, andb_assoc.
Qed.

Lemma Matches_alphabet (allowed : ascii -> bool) (r : Regex) (s : string) :
  Matches r s -> alphabetWithin allowed r = true -> allChars allowed s = true.
Proof.
  induction 1 as [|member c Hc|a b s t _ IHs _ IHt|a b s _ IH|a b s _ IH
                 |a|a s t _ IHs _ IHt]; cbn [alphabetWithin]; intros Hr.
  - reflexivity.
  - rewrite forallb_forall in Hr. specialize (Hr c (In_allAscii c)).
    rewrite Hc in Hr. cbn [implb] in Hr. cbn [allChars]. now rewrite Hr.
  - apply andb_true_iff in Hr. destruct Hr as [Ha Hb].
    now rewrite allChars_app, IHs, IHt.
  - apply andb_true_iff in Hr. now apply IH.
  - apply andb_true_iff in Hr. now apply IH.
  - reflexivity.
  - rewrite allChars_app, IHs by exact Hr. now apply IHt.
Qed.

(** X21.  Every repository URL the validation accepts is made of letters,
    digits and the characters [_ . - : / @] only: it holds no white
    space, no quote and no shell metacharacter. *)
Theorem accepted_repository_characters (repoUrl : string) :
  validateGitRepository repoUrl = true -> allChars urlChar repoUrl = true.
Proof.
  unfold validateGitRepository. rewrite !orb_true_iff, !fullMatch_Matches.
  intros [[[H|H]|H]|H];
    (eapply Matches_alphabet; [exact H | vm_compute; reflexivity]).
Qed.

Lemma accepted_repository_characters_witness :
  validateGitRepository "git@github.com:acme/shop.git" = true /\
  allChars urlChar "git@github.com:acme/shop.git" = true.
Proof.
  split; [reflexivity|].
  exact (accepted_repository_characters "git@github.com:acme/shop.git" eq_refl).
Defined.

Lemma Matches_literal (x s : string) : Matches (literal x) s <-> s = x.
Proof.
  revert s. induction x as [|c x IH]; intros s; cbn [literal].
  - split; [intros H; now inversion H | intros ->; constructor].
  - split.
    + intros H. inversion H as [| |? ? u t Hu Ht| | | |]; subst.
      inversion Hu as [|? c' Hc| | | | |]; subst.
      apply Ascii.eqb_eq in Hc. subst c'. apply IH in Ht. now subst t.
    + intros ->. apply (MatchesSeq _ _ (String c EmptyString) x).
      * constructor. apply Ascii.eqb_refl.
      * now apply IH.
Qed.

Lemma Matches_Seq_inv (a b : Regex) (s : string) :
  Matches (Seq a b) s -> exists u t, s = u ++ t /\ Matches a u /\ Matches b t.
Proof. intros H. inversion H; subst. eauto. Qed.

Lemma Matches_Star_class_mono (p q : ascii -> bool) (s : string) :
  (forall c, p c = true -> q c = true) ->
  Matches (Star (Class p)) s -> Matches (Star (Class q)) s.
Proof.
  intros Hpq H. remember (Star (Class p)) as r eqn:Er.
  induction H as [| | | | |a|a u t Hu _ Ht IHt]; try discriminate.
  - constructor.
  - injection Er as ->. apply MatchesStarCons; [|now apply IHt].
    inversion Hu; subst. constructor. now apply Hpq.
Qed.

Lemma Matches_Plus_class_mono (p q : ascii -> bool) (s : string) :
  (forall c, p c = true -> q c = true) ->
  Matches (Plus (Class p)) s -> Matches (Plus (Class q)) s.
Proof.
  intros Hpq H. apply Matches_Seq_inv in H. destruct H as (u & t & -> & Hu & Ht).
  apply MatchesSeq.
  - inversion Hu; subst. constructor. now apply Hpq.
  - now apply Matches_Star_class_mono with (p := p).
Qed.

Lemma wordDash_wordDotDash (c : ascii) : wordDash c = true -> wordDotDash c = true.
Proof.
  unfold wordDash, wordDotDash. rewrite !orb_true_iff. tauto.
Qed.

(** A pattern for the repositories of one host accepts nothing the
    general pattern does not. *)
Lemma hosted_pattern_covered (host url : string) :
  fullMatch (Plus (Class wordDotDash)) host = true ->
  Matches (sequence
             [ literal "http"; Opt (literal "s"); literal ("://" ++ host ++ "/");
               Plus (Class wordDash); literal "/"; Plus (Class wordDash);
               Opt (literal ".git") ]) url ->
  Matches gitUrlPattern url.
Proof.
  intros Hhost H. apply fullMatch_Matches in Hhost.
  unfold sequence in H. cbn [fold_right] in H.
  apply Matches_Seq_inv in H. destruct H as (x1 & r1 & -> & H1 & H).
  apply Matches_Seq_inv in H. destruct H as (x2 & r2 & -> & H2 & H).
  apply Matches_Seq_inv in H. destruct H as (x3 & r3 & -> & H3 & H).
  apply Matches_Seq_inv in H. destruct H as (x4 & r4 & -> & H4 & H).
  apply Matches_Seq_inv in H. destruct H as (x5 & r5 & -> & H5 & H).
  apply Matches_Seq_inv in H. destruct H as (x6 & r6 & -> & H6 & H).
  apply Matches_literal in H1, H3, H5. subst x1 x3 x5.
  apply (Matches_Plus_class_mono _ _ _ wordDash_wordDotDash) in H4, H6.
  assert (Matches (Opt (Alt (sequence [literal "http"; Opt (literal "s"); literal "://"])
                            (literal "git@")))
                  ("http" ++ x2 ++ "://")) as Hscheme.
  { inversion H2 as [| | |? ? ? Hs|? ? ? Hs| |]; subst;
      [apply (Matches_literal "s") in Hs; subst x2 | inversion Hs; subst];
      apply fullMatch_Matches; reflexivity. }
  unfold gitUrlPattern, sequence. cbn [fold_right].
  replace ("http" ++ x2 ++ ("://" ++ host ++ "/") ++ x4 ++ "/" ++ x6 ++ r6)
    with (("http" ++ x2 ++ "://") ++ host ++ "/" ++ x4 ++ "/" ++ x6 ++ r6)
    by (rewrite !append_assoc; reflexivity).
  apply MatchesSeq; [exact Hscheme|].
  apply MatchesSeq; [exact Hhost|].
  apply (MatchesSeq _ _ "/" (x4 ++ "/" ++ x6 ++ r6)); [now constructor|].
  apply MatchesSeq; [exact H4|].
  apply (MatchesSeq _ _ "/" (x6 ++ r6)); [now apply Matches_literal|].
  apply MatchesSeq; [exact H6 | exact H].
Qed.

(** X22.  The three patterns for GitHub, GitLab and Bitbucket never decide:
    whatever they accept the general pattern accepts, so the validation is
    the test of the general pattern alone. *)
Theorem repository_validation_is_general_pattern (repoUrl : string) :
  validateGitRepository repoUrl = fullMatch gitUrlPattern repoUrl.
Proof.
  unfold validateGitRepository.
  destruct (fullMatch gitUrlPattern repoUrl) eqn:E; [reflexivity|]. cbn [orb].
  assert (forall host,
             fullMatch (Plus (Class wordDotDash)) host = true ->
             fullMatch (sequence
                          [ literal "http"; Opt (literal "s"); literal ("://" ++ host ++ "/");
                            Plus (Class wordDash); literal "/"; Plus (Class wordDash);
                            Opt (literal ".git") ]) repoUrl = false) as Hnone.
  { intros host Hhost.
    match goal with |- ?accepted = false => destruct accepted eqn:F end; [|reflexivity].
    apply fullMatch_Matches in F. apply (hosted_pattern_covered host _ Hhost) in F.
    apply fullMatch_Matches in F. congruence. }
  change githubPattern with
    (sequence [ literal "http"; Opt (literal "s"); literal ("://" ++ "github.com" ++ "/");
                Plus (Class wordDash); literal "/"; Plus (Class wordDash);
                Opt (literal ".git") ]).
  change gitlabPattern with
    (sequence [ literal "http"; Opt (literal "s"); literal ("://" ++ "gitlab.com" ++ "/");
                Plus (Class wordDash); literal "/"; Plus (Class wordDash);
                Opt (literal ".git") ]).
  change bitbucketPattern with
    (sequence [ literal "http"; Opt (literal "s"); literal ("://" ++ "bitbucket.org" ++ "/");
                Plus (Class wordDash); literal "/"; Plus (Class wordDash);
                Opt (literal ".git") ]).
  rewrite !Hnone by reflexivity. reflexivity.
Qed.

(** ** The products the wizard offers and the compose manifest *)

(** X23.  Of the products the wizard offers for a database, a cache or a
    message queue (all flagged as requiring infrastructure), the compose
    manifest has an image for postgresql, mongodb, mysql, mariadb, redis
    and rabbitmq; the other seven get the placeholder container that
    sleeps. *)
Theorem wizard_products_without_image (service : ExternalService.t) :
  In (ExternalService.service service)
     (PromptService.databaseChoices ++ PromptService.cacheChoices
      ++ PromptService.queueChoices)%list ->
  (getServiceConfig service = placeholderConfig
   <-> In (ExternalService.service service)
          [ "dynamodb"; "cosmosdb"; "memcached"; "elasticache"; "kafka"; "sqs";
            "azure-service-bus" ]).
Proof.
  intros Hin. unfold getServiceConfig. cbv zeta.
  cbn [PromptService.databaseChoices PromptService.cacheChoices PromptService.queueChoices
       app In] in Hin.
  repeat match type of Hin with
    | _ \/ _ => destruct Hin as [Hin|Hin]
    end;
    try contradiction; rewrite <- Hin; cbn [In];
    (split;
     [ intros H; first [ discriminate H | vm_compute in H; discriminate H
                       | rewrite !String.eqb_eq || idtac; tauto ]
     | intros H; first [ reflexivity
                       | exfalso; repeat (destruct H as [H|H]; [discriminate H|]);
                         exact H ] ]).
Qed.

Lemma wizard_products_without_image_witness :
  In "kafka" (PromptService.databaseChoices ++ PromptService.cacheChoices
              ++ PromptService.queueChoices)%list /\
  getServiceConfig (sampleService "events" "kafka" true) = placeholderConfig.
Proof.
  assert (In "kafka" (PromptService.databaseChoices ++ PromptService.cacheChoices
                      ++ PromptService.queueChoices)%list) as Hin.
  { apply In_by_eqb. reflexivity. }
  split; [exact Hin|].
  apply (wizard_products_without_image (sampleService "events" "kafka" true) Hin).
  apply In_by_eqb. reflexivity.
Defined.
